(** * Shopify webhook handler and paginated product list: a shallow embedding

    The development follows the two programs of the repository:

    - the webhook handler (signature check, ingestion endpoint, queue
      processor, handlers, nested sync retry loop);
    - the [ProductList] React component (request construction and response
      consumption of [fetchProducts]).

    Node's [crypto] and [JSON.parse] are modelled by executable definitions
    following FIPS 180-4, RFC 2104, RFC 4648 and ECMA-404, and the numbers of
    the component by IEEE 754 doubles that hold integers, so that every
    statement below can be evaluated on concrete inputs. *)

From Stdlib Require Import ZArith List String Ascii Bool Arith Lia DecimalString.
From Stdlib Require Import Sorted Floats.SpecFloat.
Import ListNotations.

Set Warnings "-register-all".

Open Scope string_scope.
Open Scope list_scope.
Open Scope Z_scope.

(** ** Bytes and strings *)

Module Bytes.

Definition byte_of_ascii (c : ascii) : Z := Z.of_N (N_of_ascii c).

Definition ascii_of_byte (b : Z) : ascii := ascii_of_N (Z.to_N b).

Definition of_string (s : string) : list Z :=
  map byte_of_ascii (list_ascii_of_string s).

Definition to_string (l : list Z) : string :=
  string_of_list_ascii (map ascii_of_byte l).

(** [Buffer.from(str)]: the UTF-8 encoding of a JS string whose code units
    are below 256 (a header value as Node decodes it, or ASCII text). *)
Definition utf8_of_unit (c : ascii) : list Z :=
  let n := byte_of_ascii c in
  if n <? 128 then [n]
  else [Z.lor 192 (Z.shiftr n 6); Z.lor 128 (Z.land n 63)].

Definition Buffer_from (s : string) : list Z :=
  flat_map utf8_of_unit (list_ascii_of_string s).

Fixpoint eqb (a b : list Z) : bool :=
  match a, b with
  | [], [] => true
  | x :: a', y :: b' => (x =? y) && eqb a' b'
  | _, _ => false
  end.

(** The inverse reading of [Buffer_from]. *)
Fixpoint utf8_decode (l : list Z) : string :=
  match l with
  | [] => EmptyString
  | b :: r =>
      if b <? 128 then String (ascii_of_byte b) (utf8_decode r)
      else
        match r with
        | b2 :: r' =>
            String (ascii_of_byte (Z.lor (Z.shiftl (Z.land b 3) 6) (Z.land b2 63)))
                   (utf8_decode r')
        | [] => EmptyString
        end
  end.

End Bytes.

(** The decimal numeral of an integer, which is what [String(n)] and a
    template literal give for an integer below [2 ^ 53] in size. *)
Definition string_of_Z (z : Z) : string := NilZero.string_of_int (Z.to_int z).

(** ** Node's [crypto]: SHA-256, HMAC, Base64 *)

Module Crypto.

Definition w32 (x : Z) : Z := x mod 2 ^ 32.

Definition add32 (x y : Z) : Z := w32 (x + y).

Definition rotr (n x : Z) : Z :=
  Z.lor (Z.shiftr x n) (w32 (Z.shiftl x (32 - n))).

Definition Ch (x y z : Z) : Z :=
  Z.lxor (Z.land x y) (Z.land (Z.lxor x (2 ^ 32 - 1)) z).

Definition Maj (x y z : Z) : Z :=
  Z.lxor (Z.lxor (Z.land x y) (Z.land x z)) (Z.land y z).

Definition Sigma0 (x : Z) : Z :=
  Z.lxor (Z.lxor (rotr 2 x) (rotr 13 x)) (rotr 22 x).

Definition Sigma1 (x : Z) : Z :=
  Z.lxor (Z.lxor (rotr 6 x) (rotr 11 x)) (rotr 25 x).

Definition sigma0 (x : Z) : Z :=
  Z.lxor (Z.lxor (rotr 7 x) (rotr 18 x)) (Z.shiftr x 3).

Definition sigma1 (x : Z) : Z :=
  Z.lxor (Z.lxor (rotr 17 x) (rotr 19 x)) (Z.shiftr x 10).

(** The constants of FIPS 180-4: the first 32 bits of the fractional parts
    of the cube roots (round constants) and of the square roots (initial
    hash value) of the first primes. *)
Definition is_prime (n : Z) : bool :=
  (1 <? n)
  && forallb (fun d => (n <? d * d) || negb (n mod d =? 0))
             (map Z.of_nat (seq 2 (Z.to_nat n - 2))).

Definition primes (count : nat) : list Z :=
  firstn count (filter is_prime (map Z.of_nat (seq 2 310))).

(** The integer cube root, bit by bit from the top. *)
Fixpoint cube_root (bits : nat) (n r : Z) : Z :=
  match bits with
  | O => r
  | S b =>
      let c := r + 2 ^ Z.of_nat b in
      cube_root b n (if c * c * c <=? n then c else r)
  end.

Definition cube_root_fraction (p : Z) : Z := w32 (cube_root 40 (p * 2 ^ 96) 0).

Definition square_root_fraction (p : Z) : Z := w32 (Z.sqrt (p * 2 ^ 64)).

Definition K256 : list Z := Eval vm_compute in map cube_root_fraction (primes 64).

(** The eight working words. *)
Record Regs : Type := mkRegs
  { ra : Z; rb : Z; rc : Z; rd : Z; re : Z; rf : Z; rg : Z; rh : Z }.

Definition H0 : Regs :=
  Eval vm_compute in
    match map square_root_fraction (primes 8) with
    | [a; b; c; d; e; f; g; h] => mkRegs a b c d e f g h
    | _ => mkRegs 0 0 0 0 0 0 0 0
    end.

Definition be32 (x : Z) : list Z :=
  [ Z.land (Z.shiftr x 24) 255; Z.land (Z.shiftr x 16) 255;
    Z.land (Z.shiftr x 8) 255; Z.land x 255 ].

Definition word_of_be (l : list Z) : Z :=
  fold_left (fun acc b => acc * 256 + b) l 0.

(** Sixty-four bit big-endian length field of the padding. *)
Definition be64 (x : Z) : list Z := be32 (Z.shiftr x 32) ++ be32 (w32 x).

Definition pad (msg : list Z) : list Z :=
  let len := Z.of_nat (List.length msg) in
  msg ++ [128] ++ repeat 0 (Z.to_nat ((55 - len) mod 64)) ++ be64 (8 * len).

Fixpoint chunks (fuel : nat) (n : nat) (l : list Z) : list (list Z) :=
  match fuel, l with
  | O, _ => []
  | _, [] => []
  | S fuel', _ => firstn n l :: chunks fuel' n (skipn n l)
  end.

(** The message schedule, most recent word first while it is built. *)
Fixpoint extend (k : nat) (ws : list Z) : list Z :=
  match k with
  | O => ws
  | S k' =>
      let w := add32 (add32 (sigma1 (nth 1 ws 0)) (nth 6 ws 0))
                     (add32 (sigma0 (nth 14 ws 0)) (nth 15 ws 0)) in
      extend k' (w :: ws)
  end.

Definition schedule (block : list Z) : list Z :=
  rev (extend 48 (rev (map word_of_be (chunks 16 4 block)))).

Definition round (s : Regs) (kw : Z * Z) : Regs :=
  let t1 := add32 (add32 (add32 (rh s) (Sigma1 (re s)))
                         (add32 (Ch (re s) (rf s) (rg s)) (fst kw))) (snd kw) in
  let t2 := add32 (Sigma0 (ra s)) (Maj (ra s) (rb s) (rc s)) in
  mkRegs (add32 t1 t2) (ra s) (rb s) (rc s) (add32 (rd s) t1) (re s) (rf s) (rg s).

Definition compress (s : Regs) (block : list Z) : Regs :=
  let t := fold_left round (combine K256 (schedule block)) s in
  mkRegs (add32 (ra s) (ra t)) (add32 (rb s) (rb t)) (add32 (rc s) (rc t))
         (add32 (rd s) (rd t)) (add32 (re s) (re t)) (add32 (rf s) (rf t))
         (add32 (rg s) (rg t)) (add32 (rh s) (rh t)).

Definition digest_of (s : Regs) : list Z :=
  be32 (ra s) ++ be32 (rb s) ++ be32 (rc s) ++ be32 (rd s) ++
  be32 (re s) ++ be32 (rf s) ++ be32 (rg s) ++ be32 (rh s).

Definition sha256 (msg : list Z) : list Z :=
  let p := pad msg in
  digest_of (fold_left compress (chunks (List.length p) 64 p) H0).

(** RFC 2104 with a 64-byte block. *)
Definition hmac_key (key : list Z) : list Z :=
  let k := if (64 <? Z.of_nat (List.length key)) then sha256 key else key in
  k ++ repeat 0 (64 - List.length k)%nat.

Definition hmac_sha256 (key msg : list Z) : list Z :=
  let k := hmac_key key in
  sha256 (map (Z.lxor 0x5c) k ++ sha256 (map (Z.lxor 0x36) k ++ msg)).

(** RFC 4648 Base64 with padding, as [digest('base64')] produces it. *)
Definition b64_alphabet : string :=
  "ABCDEFGHIJKLMNOPQRSTUVWXYZabcdefghijklmnopqrstuvwxyz0123456789+/".

Definition b64_char (i : Z) : ascii :=
  match String.get (Z.to_nat i) b64_alphabet with
  | Some c => c
  | None => "="%char
  end.

Fixpoint base64 (l : list Z) : string :=
  match l with
  | [] => EmptyString
  | [a] =>
      String (b64_char (Z.shiftr a 2))
     (String (b64_char (Z.shiftl (Z.land a 3) 4)) "==")
  | [a; b] =>
      String (b64_char (Z.shiftr a 2))
     (String (b64_char (Z.lor (Z.shiftl (Z.land a 3) 4) (Z.shiftr b 4)))
     (String (b64_char (Z.shiftl (Z.land b 15) 2)) "="))
  | a :: b :: c :: rest =>
      String (b64_char (Z.shiftr a 2))
     (String (b64_char (Z.lor (Z.shiftl (Z.land a 3) 4) (Z.shiftr b 4)))
     (String (b64_char (Z.lor (Z.shiftl (Z.land b 15) 2) (Z.shiftr c 6)))
     (String (b64_char (Z.land c 63)) (base64 rest))))
  end.

(** [crypto.createHmac('sha256', secret).update(rawBody).digest('base64')] *)
Definition createHmac_sha256_base64 (secret rawBody : string) : string :=
  base64 (hmac_sha256 (Bytes.of_string secret) (Bytes.of_string rawBody)).

End Crypto.

(** ** [JSON.parse] *)

Module Json.

Inductive value : Type :=
| JNull
| JBool (b : bool)
| JNumber (literal : string)
| JString (s : string)
| JArray (elems : list value)
| JObject (members : list (string * value)).

Definition quote : ascii := "034"%char.
Definition backslash : ascii := "092"%char.

Definition is_ws (c : ascii) : bool :=
  Ascii.eqb c " " || Ascii.eqb c "009" || Ascii.eqb c "010" || Ascii.eqb c "013".

Fixpoint skip_ws (s : string) : string :=
  match s with
  | String c r => if is_ws c then skip_ws r else s
  | EmptyString => s
  end.

Definition is_digit (c : ascii) : bool :=
  let n := Bytes.byte_of_ascii c in (48 <=? n) && (n <=? 57).

Fixpoint span_digits (s : string) : string * string :=
  match s with
  | String c r =>
      if is_digit c then let (d, r') := span_digits r in (String c d, r')
      else (EmptyString, s)
  | EmptyString => (EmptyString, s)
  end.

Fixpoint strip_prefix (p s : string) : option string :=
  match p, s with
  | EmptyString, _ => Some s
  | String a p', String b s' => if Ascii.eqb a b then strip_prefix p' s' else None
  | String _ _, EmptyString => None
  end.

(** A number literal: optional minus, an integer part without leading zero,
    an optional fraction, an optional exponent.  The literal is kept as read
    (the double it denotes is not computed). *)
Definition lex_int (s : string) : option (string * string) :=
  match s with
  | String c r =>
      if Ascii.eqb c "0" then Some ("0", r)
      else if is_digit c then let (d, r') := span_digits r in Some (String c d, r')
      else None
  | EmptyString => None
  end.

Definition lex_frac (s : string) : option (string * string) :=
  match s with
  | String "." r =>
      match span_digits r with
      | (EmptyString, _) => None
      | (d, r') => Some (String "." d, r')
      end
  | _ => Some (EmptyString, s)
  end.

Definition lex_exp (s : string) : option (string * string) :=
  match s with
  | String c r =>
      if Ascii.eqb c "e" || Ascii.eqb c "E" then
        let (sign, r1) :=
          match r with
          | String x r' =>
              if Ascii.eqb x "+" || Ascii.eqb x "-"
              then (String x EmptyString, r') else (EmptyString, r)
          | EmptyString => (EmptyString, r)
          end in
        match span_digits r1 with
        | (EmptyString, _) => None
        | (d, r2) => Some (String c (sign ++ d)%string, r2)
        end
      else Some (EmptyString, s)
  | EmptyString => Some (EmptyString, s)
  end.

Definition lex_number (s : string) : option (string * string) :=
  let (sign, s1) :=
    match s with
    | String "-" r => ("-", r)
    | _ => (EmptyString, s)
    end in
  match lex_int s1 with
  | None => None
  | Some (i, s2) =>
      match lex_frac s2 with
      | None => None
      | Some (f, s3) =>
          match lex_exp s3 with
          | None => None
          | Some (e, s4) => Some ((sign ++ i ++ f ++ e)%string, s4)
          end
      end
  end.

Definition hex_val (c : ascii) : option Z :=
  let n := Bytes.byte_of_ascii c in
  if (48 <=? n) && (n <=? 57) then Some (n - 48)
  else if (65 <=? n) && (n <=? 70) then Some (n - 55)
  else if (97 <=? n) && (n <=? 102) then Some (n - 87)
  else None.

(** A [\uXXXX] code unit, stored as its UTF-8 bytes (string contents are
    kept as bytes throughout). *)
Definition utf8_of_code_unit (u : Z) : string :=
  Bytes.to_string
    (if u <? 128 then [u]
     else if u <? 2048 then [Z.lor 192 (Z.shiftr u 6); Z.lor 128 (Z.land u 63)]
     else [Z.lor 224 (Z.shiftr u 12); Z.lor 128 (Z.land (Z.shiftr u 6) 63);
           Z.lor 128 (Z.land u 63)]).

Definition simple_escape (c : ascii) : option ascii :=
  if Ascii.eqb c quote then Some quote
  else if Ascii.eqb c backslash then Some backslash
  else if Ascii.eqb c "/" then Some "/"%char
  else if Ascii.eqb c "b" then Some "008"%char
  else if Ascii.eqb c "f" then Some "012"%char
  else if Ascii.eqb c "n" then Some "010"%char
  else if Ascii.eqb c "r" then Some "013"%char
  else if Ascii.eqb c "t" then Some "009"%char
  else None.

(** The characters after an opening quote, up to the closing one. *)
Fixpoint lex_string (s : string) : option (string * string) :=
  match s with
  | EmptyString => None
  | String c r =>
      if Ascii.eqb c quote then Some (EmptyString, r)
      else if Ascii.eqb c backslash then
        match r with
        | String e r1 =>
            if Ascii.eqb e "u" then
              match r1 with
              | String h1 (String h2 (String h3 (String h4 r2))) =>
                  match hex_val h1, hex_val h2, hex_val h3, hex_val h4 with
                  | Some a, Some b, Some c', Some d =>
                      match lex_string r2 with
                      | Some (t, r3) =>
                          Some ((utf8_of_code_unit (((a * 16 + b) * 16 + c') * 16 + d)
                                 ++ t)%string, r3)
                      | None => None
                      end
                  | _, _, _, _ => None
                  end
              | _ => None
              end
            else
              match simple_escape e with
              | Some x =>
                  match lex_string r1 with
                  | Some (t, r2) => Some (String x t, r2)
                  | None => None
                  end
              | None => None
              end
        | EmptyString => None
        end
      else if Bytes.byte_of_ascii c <? 32 then None
      else
        match lex_string r with
        | Some (t, r1) => Some (String c t, r1)
        | None => None
        end
  end.

(** Recursive descent.  Every nested call spends one unit of [fuel]: a
    value spends one per bracket it opens and a list one per element, so
    that [2 * length + 2] units cover a text. *)
Fixpoint parse_value (fuel : nat) (s : string) {struct fuel}
  : option (value * string) :=
  match fuel with
  | O => None
  | S f =>
      match skip_ws s with
      | EmptyString => None
      | String c r as t =>
          if Ascii.eqb c "{" then
            match skip_ws r with
            | String "}" r' => Some (JObject [], r')
            | _ => match parse_members f r with
                   | Some (ms, r') => Some (JObject ms, r')
                   | None => None
                   end
            end
          else if Ascii.eqb c "[" then
            match skip_ws r with
            | String "]" r' => Some (JArray [], r')
            | _ => match parse_elements f r with
                   | Some (vs, r') => Some (JArray vs, r')
                   | None => None
                   end
            end
          else if Ascii.eqb c quote then
            match lex_string r with
            | Some (str, r') => Some (JString str, r')
            | None => None
            end
          else
            match strip_prefix "null" t, strip_prefix "true" t, strip_prefix "false" t with
            | Some r', _, _ => Some (JNull, r')
            | _, Some r', _ => Some (JBool true, r')
            | _, _, Some r' => Some (JBool false, r')
            | None, None, None =>
                match lex_number t with
                | Some (n, r') => Some (JNumber n, r')
                | None => None
                end
            end
      end
  end

with parse_elements (fuel : nat) (s : string) {struct fuel}
  : option (list value * string) :=
  match fuel with
  | O => None
  | S f =>
      match parse_value f s with
      | None => None
      | Some (v, r) =>
          match skip_ws r with
          | String "," r' =>
              match parse_elements f r' with
              | Some (vs, r'') => Some (v :: vs, r'')
              | None => None
              end
          | String "]" r' => Some ([v], r')
          | _ => None
          end
      end
  end

with parse_members (fuel : nat) (s : string) {struct fuel}
  : option (list (string * value) * string) :=
  match fuel with
  | O => None
  | S f =>
      match skip_ws s with
      | String c r =>
          if Ascii.eqb c quote then
            match lex_string r with
            | None => None
            | Some (k, r1) =>
                match skip_ws r1 with
                | String ":" r2 =>
                    match parse_value f r2 with
                    | None => None
                    | Some (v, r3) =>
                        match skip_ws r3 with
                        | String "," r4 =>
                            match parse_members f r4 with
                            | Some (ms, r5) => Some ((k, v) :: ms, r5)
                            | None => None
                            end
                        | String "}" r4 => Some ([(k, v)], r4)
                        | _ => None
                        end
                    end
                | _ => None
                end
            end
          else None
      | EmptyString => None
      end
  end.

(** [JSON.parse(text)]: [None] when it throws a [SyntaxError]. *)
Definition parse (text : string) : option value :=
  match parse_value (2 * String.length text + 2) text with
  | Some (v, r) =>
      match skip_ws r with
      | EmptyString => Some v
      | String _ _ => None
      end
  | None => None
  end.

(** An object's own property; the last of several equal keys wins. *)
Fixpoint lookup (k : string) (ms : list (string * value)) : option value :=
  match ms with
  | [] => None
  | (k', v) :: ms' =>
      match lookup k ms' with
      | Some v' => Some v'
      | None => if String.eqb k k' then Some v else None
      end
  end.

End Json.

(** ** JavaScript values, completions and the effect trace *)

(** A value a log line or a response can carry. *)
Inductive JSVal : Type :=
| Undefined
| OfJson (v : Json.value)
| Str (s : string)
| Num (n : Z).

Definition of_option (o : option Json.value) : JSVal :=
  match o with
  | Some v => OfJson v
  | None => Undefined
  end.

Definition of_header (o : option string) : JSVal :=
  match o with
  | Some s => Str s
  | None => Undefined
  end.

(** The outcome of evaluating a statement: a value, or a thrown [Error]
    with its [message]. *)
Inductive Completion (A : Type) : Type :=
| Normal (a : A)
| Throw (message : string).

Arguments Normal {A} a.
Arguments Throw {A} message.

(** The logger's methods ([logger.critical] is the [FailureAlert] event
    below). *)
Inductive Level : Type := Info | Warn | Error.

Inductive ResponseBody : Type :=
| ErrorJson (error : string)
| AckJson (received : bool) (orderId : JSVal).

Record Response : Type := mkResponse
  { status : Z; json : ResponseBody }.

(** What the processor receives from the queue, and what it enqueues. *)
Record JobData : Type := mkJobData
  { payload : Json.value;
    topic : option string;
    shopDomain : option string }.

Record JobOptions : Type := mkJobOptions
  { attempts : Z;
    backoff_type : string;
    backoff_delay : Z;
    removeOnComplete : bool;
    removeOnFail : bool }.

Record AlertDetails : Type := mkAlert
  { alert_orderId : JSVal;
    alert_error : string;
    alert_attempts : Z;
    alert_shopDomain : option string }.

(** Observable effects, in program order: a call of the logger, a response
    sent, a call of [queue.add], a call of the internal system, a [sleep],
    and [logger.critical('Webhook processing failed after all retries',
    details)], which is all that [sendFailureAlert] does.  Timestamps, the
    client address, stack traces and, in the error handler's line, the
    request's URL and method, which the source adds to log lines, are left
    out. *)
Inductive Event : Type :=
| Log (level : Level) (message : string) (meta : list (string * JSVal))
| Respond (r : Response)
| QueueAdd (name : string) (data : JobData) (opts : JobOptions)
| InternalCall (attempt : Z)
| Sleep (ms : Z)
| FailureAlert (details : AlertDetails).

(** Statements with effects and exceptions: the events emitted so far and
    how evaluation ended. *)
Definition M (A : Type) : Type := list Event * Completion A.

Definition ret {A : Type} (a : A) : M A := ([], Normal a).

Definition throw {A : Type} (message : string) : M A := ([], Throw message).

Definition emit (e : Event) : M unit := ([e], Normal tt).

Definition bind {A B : Type} (m : M A) (k : A -> M B) : M B :=
  match m with
  | (t, Normal a) => let (t', r) := k a in (t ++ t', r)
  | (t, Throw e) => (t, Throw e)
  end.

Definition try_catch {A : Type} (m : M A) (handler : string -> M A) : M A :=
  match m with
  | (t, Throw e) => let (t', r) := handler e in (t ++ t', r)
  | (t, Normal a) => (t, Normal a)
  end.

Definition lift {A : Type} (c : Completion A) : M A := ([], c).

Declare Scope js_scope.
Delimit Scope js_scope with js.
Notation "x <- m ;; k" := (bind m (fun x => k))
  (at level 61, m at next level, right associativity) : js_scope.
Notation "m ;;; k" := (bind m (fun _ => k))
  (at level 61, right associativity) : js_scope.

Definition trace {A : Type} (m : M A) : list Event := fst m.
Definition outcome {A : Type} (m : M A) : Completion A := snd m.

(** [v.k] for a field name [k] of the order payload (none of them is a
    built-in property): a [TypeError] on [null], the own property of an
    object, [undefined] on every other value. *)
Definition get_prop (v : Json.value) (k : string) : Completion JSVal :=
  match v with
  | Json.JNull =>
      Throw ("Cannot read properties of null (reading '" ++ k ++ "')")%string
  | Json.JObject ms => Normal (of_option (Json.lookup k ms))
  | _ => Normal Undefined
  end.

(** The value of [v.k] where the access does not throw. *)
Definition field (v : Json.value) (k : string) : JSVal :=
  match get_prop v k with
  | Normal x => x
  | Throw _ => Undefined
  end.

(** ** The webhook handler *)

Module Webhook.

Local Open Scope js_scope.

Definition MAX_RETRIES : Z := 5.
Definition INITIAL_RETRY_DELAY : Z := 1000.

(** A request for which [express.raw({ type: 'application/json' })] has
    called [next()]: the three headers the source reads, the bytes of the body
    as the producer sent them, and whether [express.raw] buffered them.  It
    buffers the body of a request with a JSON content type, and [req.body] is
    then that Buffer; every other request (another content type, no body) it
    leaves alone, and [req.body] is what Express made it, not a Buffer. *)
Record Request : Type := mkRequest
  { hmacHeader : option string;      (* X-Shopify-Hmac-Sha256 *)
    topicHeader : option string;     (* X-Shopify-Topic *)
    shopHeader : option string;      (* X-Shopify-Shop-Domain *)
    rawBody : string;
    buffered : bool }.

(** [req.body] *)
Inductive Body : Type :=
| Buffer (bytes : string)
| NotBuffer.

Definition body (req : Request) : Body :=
  if buffered req then Buffer (rawBody req) else NotBuffer.

(** [crypto.createHmac('sha256', secret).update(rawBody, 'utf8')
    .digest('base64')]: [createHmac] throws a [TypeError] when the secret is
    not configured ([process.env] gives [undefined]), and [update] throws one
    on data that is neither a string nor a Buffer.  The wording of both is
    Node's, shortened. *)
Definition compute_hash (secret : option string) (rawBody : Body) : Completion string :=
  match secret with
  | Some k =>
      match rawBody with
      | Buffer bytes => Normal (Crypto.createHmac_sha256_base64 k bytes)
      | NotBuffer =>
          Throw "The 'data' argument must be of type string or an instance of Buffer"
      end
  | None => Throw "The 'key' argument must be of type string"
  end.

(** [crypto.timingSafeEqual]: a [RangeError] on buffers of different
    length. *)
Definition timingSafeEqual (a b : list Z) : Completion bool :=
  if Nat.eqb (List.length a) (List.length b) then Normal (Bytes.eqb a b)
  else Throw "Input buffers must have the same byte length".

(** [JSON.parse(rawBody)], which reads a Buffer as its text; what is not a
    Buffer reads as text that is not JSON.  The wording of the [SyntaxError]
    is the engine's and is not reproduced. *)
Definition JSON_parse (rawBody : Body) : Completion Json.value :=
  match rawBody with
  | Buffer bytes =>
      match Json.parse bytes with
      | Some v => Normal v
      | None => Throw "Unexpected token in JSON"
      end
  | NotBuffer => Throw "Unexpected token in JSON"
  end.

(** How the middleware ends: it answered the request itself, or it called
    [next()] with [req.shopifyPayload] set. *)
Inductive Verdict : Type :=
| Rejected
| Proceed (shopifyPayload : Json.value).

Definition respond (code : Z) (body : ResponseBody) : M unit :=
  emit (Respond (mkResponse code body)).

Definition verifyShopifyWebhook (secret : option string) (req : Request) : M Verdict :=
  try_catch
    (match hmacHeader req with
     | None | Some EmptyString =>
         emit (Log Warn "Webhook received without HMAC header" []) ;;;
         respond 401 (ErrorJson "Missing HMAC signature") ;;;
         ret Rejected
     | Some header =>
         let rawBody := body req in
         hash <- lift (compute_hash secret rawBody) ;;
         verified <- lift (timingSafeEqual (Bytes.Buffer_from hash)
                                           (Bytes.Buffer_from header)) ;;
         if negb verified then
           emit (Log Error "Invalid HMAC signature" [("receivedHmac", Str header)]) ;;;
           respond 401 (ErrorJson "Invalid HMAC signature") ;;;
           ret Rejected
         else
           shopifyPayload <- lift (JSON_parse rawBody) ;;
           emit (Log Info "HMAC signature verified successfully"
                     [("topic", of_header (topicHeader req));
                      ("shop", of_header (shopHeader req))]) ;;;
           ret (Proceed shopifyPayload)
     end)
    (fun error =>
       emit (Log Error "Error verifying webhook" [("error", Str error)]) ;;;
       respond 500 (ErrorJson "Internal server error") ;;;
       ret Rejected).

(** The signature a request must carry:
    Base64(HMAC-SHA256(secret, rawBody)), over the bytes the producer sent. *)
Definition expected_signature (secret : string) (req : Request) : string :=
  Crypto.createHmac_sha256_base64 secret (rawBody req).

(** A log line followed by an error response, which is how every
    rejecting branch of the middleware ends. *)
Definition rejection (lvl : Level) (msg : string) (meta : list (string * JSVal))
    (code : Z) (err : string) : M Verdict :=
  ([Log lvl msg meta; Respond (mkResponse code (ErrorJson err))], Normal Rejected).

(** Whether the middleware hands the request on to the route's handler. *)
Definition proceeds (secret : option string) (req : Request) : bool :=
  match outcome (verifyShopifyWebhook secret req) with
  | Normal (Proceed _) => true
  | _ => false
  end.

(** The options every job is added with. *)
Definition job_options : JobOptions :=
  mkJobOptions MAX_RETRIES "exponential" INITIAL_RETRY_DELAY false false.

Section Endpoint.

(** [orderProcessingQueue.add] of the queue module, which the repository
    does not include: it resolves with the new job's id or rejects. *)
Variable queue_add : string -> JobData -> JobOptions -> Completion Z.

Definition processWebhookAsync (payload : Json.value)
    (topic shopDomain : option string) : M unit :=
  try_catch
    (let data := mkJobData payload topic shopDomain in
     emit (QueueAdd "process-order" data job_options) ;;;
     jobId <- lift (queue_add "process-order" data job_options) ;;
     orderId <- lift (get_prop payload "id") ;;
     emit (Log Info "Job added to queue" [("jobId", Num jobId); ("orderId", orderId)]))
    (fun error =>
       orderId <- lift (get_prop payload "id") ;;
       emit (Log Error "Error adding job to queue"
                 [("error", Str error); ("orderId", orderId)]) ;;;
       throw error).

(** The route's own handler, run after [next()]. *)
Definition ordersHandler (req : Request) (shopifyPayload : Json.value) : M unit :=
  try_catch
    (let payload := shopifyPayload in
     let topic := topicHeader req in
     let shopDomain := shopHeader req in
     orderId <- lift (get_prop payload "id") ;;
     orderNumber <- lift (get_prop payload "order_number") ;;
     emit (Log Info "Webhook received"
               [("topic", of_header topic); ("shopDomain", of_header shopDomain);
                ("orderId", orderId); ("orderNumber", orderNumber)]) ;;;
     respond 200 (AckJson true orderId) ;;;
     processWebhookAsync payload topic shopDomain)
    (fun error =>
       emit (Log Error "Error processing webhook" [("error", Str error)])).

(** [app.post('/webhooks/shopify/orders', express.raw(..),
    verifyShopifyWebhook, handler)] from the point where [express.raw] has
    called [next()]: the middleware, then the handler if it hands on. *)
Definition post_orders (secret : option string) (req : Request) : M unit :=
  verdict <- verifyShopifyWebhook secret req ;;
  match verdict with
  | Rejected => ret tt
  | Proceed shopifyPayload => ordersHandler req shopifyPayload
  end.




End Endpoint.

(** What the producer sees, and what reached the queue. *)
Fixpoint responses (t : list Event) : list Response :=
  match t with
  | [] => []
  | Respond r :: t' => r :: responses t'
  | _ :: t' => responses t'
  end.

Fixpoint enqueued (t : list Event) : list JobData :=
  match t with
  | [] => []
  | QueueAdd _ d _ :: t' => d :: enqueued t'
  | _ :: t' => enqueued t'
  end.

Fixpoint alerts (t : list Event) : list AlertDetails :=
  match t with
  | [] => []
  | FailureAlert d :: t' => d :: alerts t'
  | _ :: t' => alerts t'
  end.

(** Computations that never raise the failure alert. *)
Definition quiet {A : Type} (m : M A) : Prop := alerts (trace m) = [].

Fixpoint internal_calls (t : list Event) : list Z :=
  match t with
  | [] => []
  | InternalCall i :: t' => i :: internal_calls t'
  | _ :: t' => internal_calls t'
  end.

(** *** The handlers *)

Definition maxRetries : Z := 3.

Section Handlers.

(** The statements of the [try] block of [syncOrderToInternalSystem] at
    iteration [i] (the call to the internal system, which the source only
    simulates): [None] when they complete, the error's message when they
    throw. *)
Variable internal_api : Z -> option string.

(** After the loop: [throw new Error(`Failed to sync after ...`)], which
    reads [lastError.message]. *)
Definition sync_give_up (lastError : option string) : M bool :=
  match lastError with
  | Some m =>
      throw ("Failed to sync after " ++ string_of_Z maxRetries
             ++ " attempts: " ++ m)%string
  | None => throw "Cannot read properties of undefined (reading 'message')"
  end.

(** [for (let i = 0; i < maxRetries; i++)]; [maxRetries] iterations of fuel
    are exactly what the loop can use. *)
Fixpoint sync_loop (fuel : nat) (orderId : JSVal) (i : Z)
    (lastError : option string) : M bool :=
  match fuel with
  | S fuel' =>
      if i <? maxRetries then
        emit (InternalCall (i + 1)) ;;;
        match internal_api i with
        | None =>
            emit (Log Info "Order synced successfully"
                      [("orderId", orderId); ("attempt", Num (i + 1))]) ;;;
            ret true
        | Some error =>
            (if i <? maxRetries - 1 then
               let delay := 2 ^ i * 1000 in
               emit (Log Warn "Retry sync after error"
                         [("orderId", orderId); ("attempt", Num (i + 1));
                          ("delay", Num delay); ("error", Str error)]) ;;;
               emit (Sleep delay)
             else ret tt) ;;;
            sync_loop fuel' orderId (i + 1) (Some error)
        end
      else sync_give_up lastError
  | O => sync_give_up lastError
  end.

Record LineItem : Type := mkLineItem
  { productId : JSVal; variantId : JSVal; quantity : JSVal;
    price : JSVal;   (* the argument of parseFloat *)
    title : JSVal }.

Record OrderData : Type := mkOrderData
  { shopifyOrderId : JSVal; orderNumber : JSVal; customerEmail : JSVal;
    totalPrice : JSVal;   (* the argument of parseFloat *)
    currency : JSVal; lineItems : list LineItem;
    shippingAddress : JSVal; billingAddress : JSVal; createdAt : JSVal }.

Definition syncOrderToInternalSystem (orderData : OrderData) : M bool :=
  sync_loop (Z.to_nat maxRetries) (shopifyOrderId orderData) 0 None.

(** Whether [ToString(v)] completes on a value out of [JSON.parse]
    ([undefined] and primitives always have a string).  An
    object with an own property [toString] has no way to a primitive: the
    property is not callable, and [valueOf] is not either or returns the
    object itself.  An array joins the strings of its elements, [null]
    counting as the empty string.  Every other value has a string. *)
Fixpoint stringifiable (v : Json.value) : bool :=
  match v with
  | Json.JObject members =>
      negb (existsb (fun m => String.eqb (fst m) "toString") members)
  | Json.JArray elems => forallb stringifiable elems
  | _ => true
  end.

(** [parseFloat(v)], which first converts [v] to a string and throws a
    [TypeError] where that fails.  The number it returns goes into the order
    data and is not observed again (the sync step is simulated and logs the
    order id only), so the argument stands for it. *)
Definition has_string (v : JSVal) : bool :=
  match v with
  | OfJson j => stringifiable j
  | _ => true
  end.

Definition parseFloat (v : JSVal) : Completion JSVal :=
  if has_string v then Normal v
  else Throw "Cannot convert object to primitive value".

(** The callback of [payload.line_items.map]; the properties are read in
    the order of the object literal. *)
Definition line_item (item : Json.value) : Completion LineItem :=
  match get_prop item "product_id" with
  | Throw m => Throw m
  | Normal productId =>
  match get_prop item "variant_id" with
  | Throw m => Throw m
  | Normal variantId =>
  match get_prop item "quantity" with
  | Throw m => Throw m
  | Normal quantity =>
  match get_prop item "price" with
  | Throw m => Throw m
  | Normal itemPrice =>
  match parseFloat itemPrice with
  | Throw m => Throw m
  | Normal price =>
  match get_prop item "title" with
  | Throw m => Throw m
  | Normal title => Normal (mkLineItem productId variantId quantity price title)
  end end end end end end.

Fixpoint map_line_items (items : list Json.value) : Completion (list LineItem) :=
  match items with
  | [] => Normal []
  | item :: rest =>
      match line_item item with
      | Throw m => Throw m
      | Normal li =>
          match map_line_items rest with
          | Throw m => Throw m
          | Normal lis => Normal (li :: lis)
          end
      end
  end.

(** [payload.line_items.map(item => ...)] *)
Definition line_items_map (line_items : JSVal) : Completion (list LineItem) :=
  match line_items with
  | Undefined => Throw "Cannot read properties of undefined (reading 'map')"
  | OfJson Json.JNull => Throw "Cannot read properties of null (reading 'map')"
  | OfJson (Json.JArray items) => map_line_items items
  | _ => Throw "payload.line_items.map is not a function"
  end.

Definition handleOrderCreate (payload : Json.value) : M unit :=
  orderId <- lift (get_prop payload "id") ;;
  orderNumber <- lift (get_prop payload "order_number") ;;
  totalPrice <- lift (get_prop payload "total_price") ;;
  emit (Log Info "Handling order creation"
            [("orderId", orderId); ("orderNumber", orderNumber);
             ("totalPrice", totalPrice)]) ;;;
  email <- lift (get_prop payload "email") ;;
  totalPrice <- lift (parseFloat totalPrice) ;;
  currency <- lift (get_prop payload "currency") ;;
  line_items <- lift (get_prop payload "line_items") ;;
  lineItems <- lift (line_items_map line_items) ;;
  shipping <- lift (get_prop payload "shipping_address") ;;
  billing <- lift (get_prop payload "billing_address") ;;
  created <- lift (get_prop payload "created_at") ;;
  _ <- syncOrderToInternalSystem
         (mkOrderData orderId orderNumber email totalPrice currency lineItems
                      shipping billing created) ;;
  emit (Log Info "Order synced to internal system" [("orderId", orderId)]).

Definition updateOrderInInternalSystem (orderId : JSVal)
    (updates : list (string * JSVal)) : M unit :=
  emit (Log Info "Updating order" (("orderId", orderId) :: updates)).

Definition handleOrderUpdate (payload : Json.value) : M unit :=
  orderId <- lift (get_prop payload "id") ;;
  emit (Log Info "Handling order update" [("orderId", orderId)]) ;;;
  st <- lift (get_prop payload "financial_status") ;;
  fs <- lift (get_prop payload "fulfillment_status") ;;
  up <- lift (get_prop payload "updated_at") ;;
  updateOrderInInternalSystem orderId
    [("status", st); ("fulfillmentStatus", fs); ("updatedAt", up)].

Definition markOrderAsPaid (orderId : JSVal) : M unit :=
  emit (Log Info "Marking order as paid" [("orderId", orderId)]).

Definition triggerFulfillmentProcess (orderId : JSVal) : M unit :=
  emit (Log Info "Triggering fulfillment" [("orderId", orderId)]).

Definition handleOrderPaid (payload : Json.value) : M unit :=
  orderId <- lift (get_prop payload "id") ;;
  emit (Log Info "Handling order payment" [("orderId", orderId)]) ;;;
  markOrderAsPaid orderId ;;;
  triggerFulfillmentProcess orderId.

Definition updateFulfillmentStatus (orderId fulfillments : JSVal) : M unit :=
  emit (Log Info "Updating fulfillment status"
            [("orderId", orderId); ("fulfillments", fulfillments)]).

Definition sendCustomerNotification (email orderId : JSVal) : M unit :=
  emit (Log Info "Sending customer notification"
            [("email", email); ("orderId", orderId)]).

Definition handleOrderFulfilled (payload : Json.value) : M unit :=
  orderId <- lift (get_prop payload "id") ;;
  emit (Log Info "Handling order fulfillment" [("orderId", orderId)]) ;;;
  fulfillments <- lift (get_prop payload "fulfillments") ;;
  updateFulfillmentStatus orderId fulfillments ;;;
  email <- lift (get_prop payload "email") ;;
  sendCustomerNotification email orderId.

Definition sendFailureAlert (details : AlertDetails) : M unit :=
  emit (FailureAlert details).

(** *** The queue processor *)

Record Job : Type := mkJob
  { job_id : Z; job_data : JobData; attemptsMade : Z }.

Record ProcessResult : Type := mkResult
  { success : bool; result_orderId : JSVal }.

Inductive Handler : Type :=
| OrderCreate | OrderUpdate | OrderPaid | OrderFulfilled.

(** The [case] labels of the processor's [switch]. *)
Definition recognized_topics : list string :=
  ["orders/create"; "orders/updated"; "orders/paid"; "orders/fulfilled"].

(** The [switch (topic)] of the processor; [None] is its [default]. *)
Definition route (topic : option string) : option Handler :=
  match topic with
  | None => None
  | Some t =>
      if String.eqb t "orders/create" then Some OrderCreate
      else if String.eqb t "orders/updated" then Some OrderUpdate
      else if String.eqb t "orders/paid" then Some OrderPaid
      else if String.eqb t "orders/fulfilled" then Some OrderFulfilled
      else None
  end.

Definition run_handler (h : Handler) (payload : Json.value) : M unit :=
  match h with
  | OrderCreate => handleOrderCreate payload
  | OrderUpdate => handleOrderUpdate payload
  | OrderPaid => handleOrderPaid payload
  | OrderFulfilled => handleOrderFulfilled payload
  end.

Definition dispatch (topic : option string) (payload : Json.value) : M unit :=
  match route topic with
  | Some h => run_handler h payload
  | None => emit (Log Warn "Unknown webhook topic" [("topic", of_header topic)])
  end.

(** The callback of [orderProcessingQueue.process('process-order', ...)]. *)
Definition process_order (job : Job) : M ProcessResult :=
  let payload := payload (job_data job) in
  let topic := topic (job_data job) in
  let shopDomain := shopDomain (job_data job) in
  let attemptNumber := attemptsMade job + 1 in
  orderId <- lift (get_prop payload "id") ;;
  emit (Log Info "Processing order"
            [("jobId", Num (job_id job)); ("orderId", orderId);
             ("attempt", Num attemptNumber); ("maxAttempts", Num MAX_RETRIES)]) ;;;
  try_catch
    (dispatch topic payload ;;;
     emit (Log Info "Order processed successfully"
               [("jobId", Num (job_id job)); ("orderId", orderId);
                ("attempt", Num attemptNumber)]) ;;;
     ret (mkResult true orderId))
    (fun error =>
       emit (Log Error "Error processing order"
                 [("jobId", Num (job_id job)); ("orderId", orderId);
                  ("attempt", Num attemptNumber); ("maxAttempts", Num MAX_RETRIES);
                  ("error", Str error); ("payload", OfJson payload)]) ;;;
       (if MAX_RETRIES <=? attemptNumber then
          sendFailureAlert (mkAlert orderId error attemptNumber shopDomain)
        else ret tt) ;;;
       throw error).

End Handlers.

End Webhook.

(** ** The job queue and its retry scheduler *)

Module JobQueue.

(** The repository's [./queue-system] module, which [orderProcessingQueue]
    is an instance of, is not among the sources.  What the properties below
    need of it is taken from the specification: the job record (section 3),
    the queue's operations (section 4.3), the scheduler's rule (section 4.4)
    and the worker loop (sections 5 and 9).  The exhaustion alert of section
    4.4 is the one the processor callback sends itself. *)

(** Modelled from the spec: the states of a job of the absent queue module
    (section 3). *)
Inductive State : Type := Pending | Running | Succeeded | Failed | Exhausted.

(** Modelled from the spec: the job record of the absent queue module
    (section 3), with the options it was added with. *)
Record Job : Type := mkJob
  { jobId : Z;
    event : JobData;
    options : JobOptions;
    state : State;
    attemptCount : Z;
    nextEligibleAt : Z;
    lastError : option string;
    completedAt : option Z }.

Definition maxAttempts (j : Job) : Z := attempts (options j).
Definition initialDelay (j : Job) : Z := backoff_delay (options j).

(** Modelled from the spec: [enqueue] of the absent queue module; a new
    job is Pending, has made no attempt and is due at once. *)
Definition enqueue (now id : Z) (data : JobData) (opts : JobOptions) : Job :=
  mkJob id data opts Pending 0 now None None.

Definition is_pending (s : State) : bool :=
  match s with
  | Pending => true
  | _ => false
  end.

(** Modelled from the spec: [markRunning] of the absent queue module;
    [attemptCount] is incremented before the execution (section 3). *)
Definition markRunning (j : Job) : Job :=
  mkJob (jobId j) (event j) (options j) Running (attemptCount j + 1)
        (nextEligibleAt j) (lastError j) (completedAt j).

(** Modelled from the spec: [dequeueReady] of the absent queue module
    (section 4.3); it returns the job only when it is Pending and due, and
    marks it Running in the same step. *)
Definition dequeueReady (now : Z) (j : Job) : option Job :=
  if is_pending (state j) && (nextEligibleAt j <=? now) then Some (markRunning j)
  else None.

(** Modelled from the spec: [markSucceeded] of the absent queue module. *)
Definition markSucceeded (now : Z) (j : Job) : Job :=
  mkJob (jobId j) (event j) (options j) Succeeded (attemptCount j)
        (nextEligibleAt j) (lastError j) (Some now).

(** Modelled from the spec: the backoff of the absent queue module's
    scheduler, [delay = initialDelay * 2^(attemptCount-1)] (section 4.4). *)
Definition backoff (j : Job) : Z := initialDelay j * 2 ^ (attemptCount j - 1).

(** Modelled from the spec: the rule of the absent queue module's
    scheduler for a failed attempt (section 4.4): with attempts left the job
    goes back to Pending and is due again after the backoff; otherwise it is
    Exhausted. *)
Definition markFailed (now : Z) (error : string) (j : Job) : Job :=
  if attemptCount j <? maxAttempts j then
    mkJob (jobId j) (event j) (options j) Pending (attemptCount j)
          (now + backoff j) (Some error) (completedAt j)
  else
    mkJob (jobId j) (event j) (options j) Exhausted (attemptCount j)
          (nextEligibleAt j) (Some error) (Some now).

(** The job as the processor callback sees it: [attemptsMade] counts the
    attempts finished before the current one (the callback computes
    [attemptNumber = job.attemptsMade + 1]). *)
Definition as_processor_job (j : Job) : Webhook.Job :=
  Webhook.mkJob (jobId j) (event j) (attemptCount j - 1).

(** [from], [from + 1], ... ([n] numbers). *)
Fixpoint seqZ (from : Z) (n : nat) : list Z :=
  match n with
  | O => []
  | S n' => from :: seqZ (from + 1) n'
  end.

Record Run : Type := mkRun
  { final : Job;
    log : list Event;
    deltas : list Z }.

Section Worker.

(** The processor as run for the n-th attempt, and how long that attempt
    takes. *)
Variable run_attempt : Z -> Webhook.Job -> M Webhook.ProcessResult.
Variable duration : Z -> Z.

(** Modelled from the spec: the worker loop of the absent queue module
    (sections 5 and 9), following one job: it waits until the job is due,
    runs the attempt, reports the outcome to the scheduler, and goes on while
    the job is handed back.  [deltas] collects [nextEligibleAt - now] of
    every re-arming. *)
Fixpoint work (fuel : nat) (clock : Z) (j : Job) : Run :=
  match fuel with
  | O => mkRun j [] []
  | S fuel' =>
      let start := Z.max clock (nextEligibleAt j) in
      match dequeueReady start j with
      | None => mkRun j [] []
      | Some r =>
          let m := run_attempt (attemptCount r) (as_processor_job r) in
          let now := start + duration (attemptCount r) in
          match outcome m with
          | Normal _ => mkRun (markSucceeded now r) (trace m) []
          | Throw error =>
              let j' := markFailed now error r in
              let rest := work fuel' now j' in
              mkRun (final rest) (trace m ++ log rest)
                    ((if is_pending (state j') then [nextEligibleAt j' - now] else [])
                     ++ deltas rest)
          end
      end
  end.

(** A job needs at most [maxAttempts] rounds. *)
Definition run_job (clock : Z) (j : Job) : Run :=
  work (Z.to_nat (maxAttempts j)) clock j.

End Worker.

End JobQueue.

(** ** JavaScript numbers that hold integers *)

Module Number.

(** The component's page numbers, counts and offsets are IEEE 754 doubles
    (binary64: 53 bits of mantissa, nearest with ties to even) that hold
    integers.  An integer [z] stands for the double of that value; every
    integer up to [2 ^ 53] in size is one, and beyond that only some are. *)

(** [num / den] rounded to the nearest integer, ties to even
    ([0 <= num], [0 < den]). *)
Definition round_half_even (num den : Z) : Z :=
  let q := num / den in
  match 2 * (num mod den) ?= den with
  | Lt => q
  | Gt => q + 1
  | Eq => if Z.even q then q else q + 1
  end.

(** The [l] with [2 ^ l <= num / den < 2 ^ (l + 1)] ([0 < num], [0 < den]). *)
Definition binade (num den : Z) : Z :=
  let l := Z.log2 num - Z.log2 den in
  if num * 2 ^ Z.max 0 (- l) <? den * 2 ^ Z.max 0 l then l - 1 else l.

(** The double nearest to [num / den], as a mantissa [m] of at most 53 bits
    and an exponent [e]: the value is [m * 2 ^ e]. *)
Definition nearest (num den : Z) : Z * Z :=
  let e := Z.max (binade num den - 52) (-1074) in
  (round_half_even (num * 2 ^ Z.max 0 (- e)) (den * 2 ^ Z.max 0 e), e).

(** [Math.floor] and [Math.ceil] of [m * 2 ^ e] ([0 <= m]). *)
Definition floor_of (m e : Z) : Z :=
  if 0 <=? e then m * 2 ^ e else m / 2 ^ (- e).

Definition ceil_of (m e : Z) : Z :=
  if 0 <=? e then m * 2 ^ e else - ((- m) / 2 ^ (- e)).

(** The double nearest to the integer [z]: what a sum, a difference or a
    product whose exact value is [z] gives, as long as it stays finite. *)
Definition fl (z : Z) : Z :=
  if z =? 0 then 0
  else let (m, e) := nearest (Z.abs z) 1 in Z.sgn z * floor_of m e.

Inductive number : Type :=
| Finite (z : Z)
| Infinity (negative : bool).

(** The same with overflow: from [2 ^ 1024] on the result is an infinity. *)
Definition round (z : Z) : number :=
  let v := fl z in
  if 2 ^ 1024 <=? Z.abs v then Infinity (z <? 0) else Finite v.

(** [Math.ceil(a / b)] for [0 < b]: the quotient is rounded to a double
    first. *)
Definition ceil_quotient (a b : Z) : Z :=
  if a =? 0 then 0
  else
    let (m, e) := nearest (Z.abs a) b in
    if 0 <? a then ceil_of m e else - floor_of m e.

(** [String(x)], which is [Number::toString]: the decimal with the fewest
    significant digits among those that denote [x], the one nearest to [x]
    where several have that many; in full below [10 ^ 21], with an exponent
    from there on. *)
Definition round_trips (a v : Z) : bool :=
  match round v with
  | Finite w => w =? a
  | Infinity _ => false
  end.

Definition digits (a : Z) : Z := Z.of_nat (String.length (string_of_Z a)).

(** The candidates with [k] significant digits are the two multiples of
    [10 ^ (digits a - k)] around [a]. *)
Fixpoint shortest_from (ks : list Z) (a : Z) : Z :=
  match ks with
  | [] => a
  | k :: ks' =>
      let unit := 10 ^ Z.max 0 (digits a - k) in
      let lo := a / unit * unit in
      let hi := lo + unit in
      match round_trips a lo, round_trips a hi with
      | true, true =>
          if a - lo <? hi - a then lo
          else if hi - a <? a - lo then hi
          else if Z.even (lo / unit) then lo else hi
      | true, false => lo
      | false, true => hi
      | false, false => shortest_from ks' a
      end
  end.

(** Seventeen digits denote every double. *)
Definition shortest (a : Z) : Z :=
  shortest_from [1; 2; 3; 4; 5; 6; 7; 8; 9; 10; 11; 12; 13; 14; 15; 16; 17] a.

(** A numeral without its trailing zeros. *)
Fixpoint significant (s : string) : string :=
  match s with
  | EmptyString => EmptyString
  | String c r =>
      match significant r with
      | EmptyString => if Ascii.eqb c "0" then EmptyString else String c EmptyString
      | r' => String c r'
      end
  end.

Definition scientific (v : Z) : string :=
  match significant (string_of_Z v) with
  | String d EmptyString => String d ("e+" ++ string_of_Z (digits v - 1))
  | String d r => String d ("." ++ r ++ "e+" ++ string_of_Z (digits v - 1))
  | EmptyString => EmptyString
  end.

Definition positive_toString (a : Z) : string :=
  let v := shortest a in
  if v <? 10 ^ 21 then string_of_Z v else scientific v.

Definition toString (x : number) : string :=
  match x with
  | Finite z =>
      if z =? 0 then "0"
      else if z <? 0 then "-" ++ positive_toString (- z)
      else positive_toString z
  | Infinity false => "Infinity"
  | Infinity true => "-Infinity"
  end.

(** The Standard Library's specification of IEEE 754 arithmetic at
    binary64, to compare the definitions above with. *)
Definition binary64 (z : Z) : spec_float := binary_normalize 53 1024 z 0 false.

Definition binary64_floor (f : spec_float) : option Z :=
  match f with
  | S754_zero _ => Some 0
  | S754_finite s m e => Some ((if s then -1 else 1) * floor_of (Zpos m) e)
  | _ => None
  end.

Definition binary64_ceil (f : spec_float) : option Z :=
  match f with
  | S754_zero _ => Some 0
  | S754_finite false m e => Some (ceil_of (Zpos m) e)
  | S754_finite true m e => Some (- floor_of (Zpos m) e)
  | _ => None
  end.

Definition binary64_number (f : spec_float) : option number :=
  match f with
  | S754_infinity s => Some (Infinity s)
  | S754_nan => None
  | _ => option_map Finite (binary64_floor f)
  end.

End Number.

(** ** The product list component *)

Module ProductList.

Definition itemsPerPage : Z := 12.

(** An element of the collection: an object. *)
Record Product : Type := mkProduct
  { product_id : Z; product_title : string }.

(** A member of the response body: an array of objects, or a number that
    holds an integer. *)
Inductive Field : Type :=
| FArray (items : list Product)
| FNumber (n : Z).

Definition Data : Type := list (string * Field).

Fixpoint member (k : string) (d : Data) : option Field :=
  match d with
  | [] => None
  | (k', v) :: d' =>
      match member k d' with
      | Some v' => Some v'
      | None => if String.eqb k k' then Some v else None
      end
  end.

Definition truthy (v : Field) : bool :=
  match v with
  | FArray _ => true
  | FNumber n => negb (n =? 0)
  end.

(** [data.k || dflt] *)
Definition or_default (o : option Field) (dflt : Field) : Field :=
  match o with
  | Some v => if truthy v then v else dflt
  | None => dflt
  end.

(** [Number(v)]; [None] is [NaN].  The number of the body is a double
    already. *)
Definition Number (v : Field) : option Z :=
  match v with
  | FNumber n => Some n
  | FArray [] => Some 0
  | FArray (_ :: _) => None
  end.

(** The least integer that is at least [a / b], in exact arithmetic. *)
Definition ceil_div (a b : Z) : Z := - ((- a) / b).

Definition unreserved (c : ascii) : bool :=
  let n := Bytes.byte_of_ascii c in
  ((48 <=? n) && (n <=? 57)) || ((65 <=? n) && (n <=? 90)) ||
  ((97 <=? n) && (n <=? 122)) ||
  existsb (Ascii.eqb c) (list_ascii_of_string "-_.!~*'()").

Definition upper_hex (n : Z) : ascii :=
  match String.get (Z.to_nat n) "0123456789ABCDEF" with
  | Some c => c
  | None => "?"%char
  end.

(** [encodeURIComponent] on the UTF-8 bytes of the term. *)
Fixpoint encodeURIComponent (s : string) : string :=
  match s with
  | EmptyString => EmptyString
  | String c r =>
      if unreserved c then String c (encodeURIComponent r)
      else
        let n := Bytes.byte_of_ascii c in
        String "%" (String (upper_hex (Z.shiftr n 4))
                   (String (upper_hex (Z.land n 15)) (encodeURIComponent r)))
  end.

Definition is_empty (s : string) : bool :=
  match s with
  | EmptyString => true
  | String _ _ => false
  end.

Record HttpRequest : Type := mkHttpRequest
  { method : string; url : string; accept : string }.

(** [await response.json()]: the parsed body, or a rejection with the
    error's [name] and [message] (a [SyntaxError], or an [AbortError] when
    the request is aborted while the body is read). *)
Inductive JsonBody : Type :=
| Parsed (data : Data)
| Unreadable (name message : string).

Record HttpResponse : Type := mkHttpResponse
  { ok : bool; http_status : Z; statusText : string; body : JsonBody }.

Inductive FetchOutcome : Type :=
| Fetched (r : HttpResponse)
| Failed (name message : string).   (* the promise rejects *)

Inductive Status : Type := Loading | Failure | Success.

(** The component's state that [fetchProducts] reads and writes;
    [totalPages = None] is [NaN]. *)
Record State : Type := mkState
  { products : Field;
    status : Status;
    error : option string;
    currentPage : Z;
    totalPages : option Z;
    debouncedSearch : string }.

(** [(currentPage - 1) * itemsPerPage] *)
Definition skip (st : State) : Number.number :=
  Number.round (Number.fl (currentPage st - 1) * itemsPerPage).

(** A name or value as [URLSearchParams.toString] writes it: letters,
    digits and [*-._] as they are, a space as [+], every other byte as
    [%XX]. *)
Definition plain (c : ascii) : bool :=
  let n := Bytes.byte_of_ascii c in
  ((48 <=? n) && (n <=? 57)) || ((65 <=? n) && (n <=? 90)) ||
  ((97 <=? n) && (n <=? 122)) ||
  existsb (Ascii.eqb c) (list_ascii_of_string "*-._").

Fixpoint urlencoded (s : string) : string :=
  match s with
  | EmptyString => EmptyString
  | String c r =>
      if plain c then String c (urlencoded r)
      else if Ascii.eqb c " " then String "+" (urlencoded r)
      else
        let n := Bytes.byte_of_ascii c in
        String "%" (String (upper_hex (Z.shiftr n 4))
                   (String (upper_hex (Z.land n 15)) (urlencoded r)))
  end.

Definition request_of (apiUrl : string) (st : State) : HttpRequest :=
  let params :=
    ("limit=" ++ urlencoded (Number.toString (Number.Finite itemsPerPage))
     ++ "&skip=" ++ urlencoded (Number.toString (skip st)))%string in
  let baseUrl :=
    if is_empty (debouncedSearch st) then apiUrl
    else (apiUrl ++ "/search?q=" ++ encodeURIComponent (debouncedSearch st))%string in
  mkHttpRequest "GET" (baseUrl ++ "?" ++ params)%string "application/json".

Definition set_failure (st : State) (message : string) : State :=
  mkState (products st) Failure
          (Some (if is_empty message then "Error al cargar los productos" else message))
          (currentPage st) (totalPages st) (debouncedSearch st).

(** [Math.max(1, Math.ceil(total / itemsPerPage))] *)
Definition page_count (total : option Z) : option Z :=
  match total with
  | Some t => Some (Z.max 1 (Number.ceil_quotient t itemsPerPage))
  | None => None
  end.

(** The [catch] block: an error named [AbortError] is dropped, any other is
    shown. *)
Definition on_error (st0 : State) (name message : string) : State :=
  if String.eqb name "AbortError" then st0 else set_failure st0 message.

Section Fetch.

Variable fetch : HttpRequest -> FetchOutcome.

(** [fetchProducts]: the request it issues and the state it leaves.  The
    status code in the message of [new Error] is far below [2 ^ 53], where a
    number prints with all its digits. *)
Definition fetchProducts (apiUrl : string) (st : State) : HttpRequest * State :=
  let st0 := mkState (products st) Loading None (currentPage st)
                     (totalPages st) (debouncedSearch st) in
  let req := request_of apiUrl st in
  (req,
   match fetch req with
   | Failed name message => on_error st0 name message
   | Fetched response =>
       if negb (ok response) then
         on_error st0 "Error"
           ("Error " ++ string_of_Z (http_status response)
            ++ ": " ++ statusText response)%string
       else
         match body response with
         | Unreadable name message => on_error st0 name message
         | Parsed data =>
             let list := or_default (member "products" data) (FArray []) in
             let total := Number (or_default (member "total" data) (FNumber 0)) in
             mkState list Success None (currentPage st0)
                     (page_count total) (debouncedSearch st0)
         end
   end).

End Fetch.

(** The query string of a URL: what follows the first [?], split at [&]
    and at the first [=] of each part. *)
Fixpoint split_at (sep : ascii) (s : string) : string * option string :=
  match s with
  | EmptyString => (EmptyString, None)
  | String c r =>
      if Ascii.eqb c sep then (EmptyString, Some r)
      else let (a, b) := split_at sep r in (String c a, b)
  end.

Fixpoint split_all (fuel : nat) (sep : ascii) (s : string) : list string :=
  match fuel with
  | O => [s]
  | S fuel' =>
      match split_at sep s with
      | (a, None) => [a]
      | (a, Some r) => a :: split_all fuel' sep r
      end
  end.

Definition query_params (u : string) : list (string * string) :=
  match split_at "?" u with
  | (_, None) => []
  | (_, Some q) =>
      map (fun part =>
             match split_at "=" part with
             | (k, Some v) => (k, v)
             | (k, None) => (k, EmptyString)
             end)
          (split_all (String.length q) "&" q)
  end.

End ProductList.

(** ** The product list: page window, pagination bar, navigation *)

Module Navigation.

Definition maxVisible : Z := 5.

(** [for (let i = startPage; i <= endPage; i++) pages.push(i)], unrolled
    [n] times from [i]. *)
Fixpoint range (n : nat) (i : Z) : list Z :=
  match n with
  | O => []
  | S n' => i :: range n' (i + 1)
  end.

(** [for (let i = startPage; i <= endPage; i++) pages.push(i)] on
    doubles.  Where [i++] does not raise [i] (from [2 ^ 53] on) the loop never
    ends, which is [None].  Every other step raises [i] by 1 at least, so
    [endPage - startPage + 1] steps of fuel are never used up. *)
Fixpoint loop (fuel : nat) (i endPage : Z) : option (list Z) :=
  if endPage <? i then Some []
  else
    match fuel with
    | O => None
    | S fuel' =>
        let next := Number.fl (i + 1) in
        if next <=? i then None
        else option_map (cons i) (loop fuel' next endPage)
    end.

(** The [useMemo] that computes [pageNumbers], which runs at every render,
    whatever the view; [None] when it does not return.  Its sums and
    differences are those of doubles (none of them can leave the finite
    range).  With [totalPages = NaN] ([None]) [endPage] is [NaN], both
    comparisons with it are false and the loop does not run. *)
Definition pageNumbers (currentPage : Z) (totalPages : option Z) : option (list Z) :=
  match totalPages with
  | None => Some []
  | Some total =>
      let startPage := Z.max 1 (Number.fl (currentPage - maxVisible / 2)) in
      let endPage :=
        Z.min total (Number.fl (Number.fl (startPage + maxVisible) - 1)) in
      let startPage :=
        if Number.fl (endPage - startPage) <? maxVisible - 1
        then Z.max 1 (Number.fl (Number.fl (endPage - maxVisible) + 1))
        else startPage in
      loop (Z.to_nat (endPage - startPage + 1)) startPage endPage
  end.

(** What the [page-numbers] container renders. *)
Inductive Item : Type :=
| PageButton (page : Z) (active : bool)
| Ellipsis.

(** [pageNumbers[0] > 1 && (<> button 1, pageNumbers[0] > 2 && ... </>)];
    on an empty list [pageNumbers[0]] is [undefined] and nothing shows. *)
Definition leading (pages : list Z) : list Item :=
  match pages with
  | first :: _ =>
      if 1 <? first
      then PageButton 1 false :: (if 2 <? first then [Ellipsis] else [])
      else []
  | [] => []
  end.

(** [pageNumbers[pageNumbers.length - 1] < totalPages && (...)] *)
Definition trailing (pages : list Z) (totalPages : option Z) : list Item :=
  match pages, totalPages with
  | _ :: _, Some total =>
      let final := List.last pages 0 in
      if final <? total
      then (if final <? total - 1 then [Ellipsis] else []) ++ [PageButton total false]
      else []
  | _, _ => []
  end.

Definition pagination_items (currentPage : Z) (totalPages : option Z)
    : option (list Item) :=
  match pageNumbers currentPage totalPages with
  | Some pages =>
      Some (leading pages
            ++ map (fun p => PageButton p (currentPage =? p)) pages
            ++ trailing pages totalPages)
  | None => None
  end.

Fixpoint buttons (items : list Item) : list Z :=
  match items with
  | [] => []
  | PageButton p _ :: rest => p :: buttons rest
  | Ellipsis :: rest => buttons rest
  end.

Fixpoint active_buttons (items : list Item) : list Z :=
  match items with
  | [] => []
  | PageButton p true :: rest => p :: active_buttons rest
  | _ :: rest => active_buttons rest
  end.

Definition set_page (st : ProductList.State) (page : Z) : ProductList.State :=
  ProductList.mkState (ProductList.products st) (ProductList.status st)
    (ProductList.error st) page (ProductList.totalPages st)
    (ProductList.debouncedSearch st).

Definition set_search (st : ProductList.State) (term : string) : ProductList.State :=
  ProductList.mkState (ProductList.products st) (ProductList.status st)
    (ProductList.error st) (ProductList.currentPage st) (ProductList.totalPages st)
    term.

(** [currentPage < totalPages] is false against [NaN]. *)
Definition handleNextPage (st : ProductList.State) : ProductList.State :=
  match ProductList.totalPages st with
  | Some total =>
      if ProductList.currentPage st <? total
      then set_page st (ProductList.currentPage st + 1) else st
  | None => st
  end.

Definition handlePrevPage (st : ProductList.State) : ProductList.State :=
  if 1 <? ProductList.currentPage st
  then set_page st (ProductList.currentPage st - 1) else st.

Definition handlePageClick (pageNum : Z) (st : ProductList.State) : ProductList.State :=
  set_page st pageNum.

(** The [disabled] attributes of the two arrow buttons. *)
Definition prev_disabled (st : ProductList.State) : bool :=
  ProductList.currentPage st =? 1.

Definition next_disabled (st : ProductList.State) : bool :=
  match ProductList.totalPages st with
  | Some total => ProductList.currentPage st =? total
  | None => false
  end.

(** The component's whole state: what [fetchProducts] works on and the
    text of the search box. *)
Record UI : Type := mkUI
  { state : ProductList.State; searchTerm : string }.

(** The state the hooks start from. *)
Definition initial : UI :=
  mkUI (ProductList.mkState (ProductList.FArray []) ProductList.Loading None 1
          (Some 1) EmptyString)
       EmptyString.

(** A state whose render returns: the component can show it and react. *)
Definition renders (st : ProductList.State) : Prop :=
  pageNumbers (ProductList.currentPage st) (ProductList.totalPages st) <> None.

(** The success view with a list that is not empty: the only view that
    shows the pagination bar. *)
Definition shows_grid (st : ProductList.State) : Prop :=
  ProductList.status st = ProductList.Success
  /\ exists item items, ProductList.products st = ProductList.FArray (item :: items).

(** The success view with an empty list, which offers to clear the search
    when the box is not empty. *)
Definition shows_empty (st : ProductList.State) : Prop :=
  ProductList.status st = ProductList.Success
  /\ ProductList.products st = ProductList.FArray [].

(** What can happen to the component once its render has returned: the
    user presses an enabled arrow or a rendered page button, types in the
    search box, clears the search, presses [Reintentar]
    ([setCurrentPage(p => p)]); the debounce timer fires ([trim] of the
    search text, which is [String.prototype.trim]); the fetch for the current
    page and term completes. *)
Inductive step (apiUrl : string) (trim : string -> string) : UI -> UI -> Prop :=
| step_next ui :
    renders (state ui) ->
    shows_grid (state ui) -> next_disabled (state ui) = false ->
    step apiUrl trim ui (mkUI (handleNextPage (state ui)) (searchTerm ui))
| step_prev ui :
    renders (state ui) ->
    shows_grid (state ui) -> prev_disabled (state ui) = false ->
    step apiUrl trim ui (mkUI (handlePrevPage (state ui)) (searchTerm ui))
| step_click ui items page active :
    shows_grid (state ui) ->
    pagination_items (ProductList.currentPage (state ui))
                     (ProductList.totalPages (state ui)) = Some items ->
    In (PageButton page active) items ->
    step apiUrl trim ui (mkUI (handlePageClick page (state ui)) (searchTerm ui))
| step_type ui text :
    renders (state ui) ->
    ProductList.status (state ui) = ProductList.Success ->
    step apiUrl trim ui (mkUI (set_page (state ui) 1) text)
| step_clear ui :
    renders (state ui) ->
    shows_empty (state ui) -> searchTerm ui <> EmptyString ->
    step apiUrl trim ui (mkUI (set_page (state ui) 1) EmptyString)
| step_retry ui :
    renders (state ui) ->
    ProductList.status (state ui) = ProductList.Failure ->
    step apiUrl trim ui (mkUI (set_page (state ui) (ProductList.currentPage (state ui)))
                              (searchTerm ui))
| step_debounce ui :
    renders (state ui) ->
    step apiUrl trim ui (mkUI (set_search (state ui) (trim (searchTerm ui)))
                              (searchTerm ui))
| step_fetched ui fetch :
    renders (state ui) ->
    step apiUrl trim ui
         (mkUI (snd (ProductList.fetchProducts fetch apiUrl (state ui)))
               (searchTerm ui)).

Inductive reachable (apiUrl : string) (trim : string -> string) : UI -> Prop :=
| reach_initial : reachable apiUrl trim initial
| reach_step ui ui' :
    reachable apiUrl trim ui -> step apiUrl trim ui ui' ->
    reachable apiUrl trim ui'.

(** Whether a string holds a given character. *)
Fixpoint has_char (c : ascii) (s : string) : bool :=
  match s with
  | EmptyString => false
  | String x r => Ascii.eqb x c || has_char c r
  end.

(** The characters that structure a query: [?], [&] and [=]. *)
Definition separators : list ascii := ["?"; "&"; "="]%char.

End Navigation.

(** ** Sample requests *)

Module Samples.

Definition secret : string := "shpss_secret".

(** A JSON string literal. *)
Definition dq (s : string) : string :=
  (String Json.quote s ++ String Json.quote EmptyString)%string.

(** [{"id":42}] and its signature under [secret]. *)
Definition order_body : string := ("{" ++ dq "id" ++ ":42}")%string.

Definition order_request : Webhook.Request :=
  Webhook.mkRequest (Some "rYfxahQvgwMWIgvkGsZnsdiJnDYKopHr7ILTGIlLUqM=")
                    (Some "orders/create") (Some "demo.myshopify.com") order_body true.

(** The same order under a topic the processor does not know. *)
Definition refund_request : Webhook.Request :=
  Webhook.mkRequest (Some "rYfxahQvgwMWIgvkGsZnsdiJnDYKopHr7ILTGIlLUqM=")
                    (Some "refunds/create") (Some "demo.myshopify.com") order_body true.

(** A correctly signed body that is not JSON. *)
Definition not_json_request : Webhook.Request :=
  Webhook.mkRequest (Some "U2hYyIvlXZbK7vjHiqJz5VirBCLIAxnedtTHtqBZ+FI=")
                    (Some "orders/create") (Some "demo.myshopify.com") "not json" true.

(** A correctly signed body that is the JSON text [null]. *)
Definition null_request : Webhook.Request :=
  Webhook.mkRequest (Some "7xctNTpVv9OBjcwMGapCBQ4syLWvyM59gWeUtTr1p2Y=")
                    (Some "orders/create") (Some "demo.myshopify.com") "null" true.

(** No signature header; a header that is not a digest; a header of the
    digest's length with one character changed. *)
Definition unsigned_request : Webhook.Request :=
  Webhook.mkRequest None (Some "orders/create") (Some "demo.myshopify.com") order_body true.

Definition short_header_request : Webhook.Request :=
  Webhook.mkRequest (Some "abc") (Some "orders/create") (Some "demo.myshopify.com")
                    order_body true.

Definition tampered_header_request : Webhook.Request :=
  Webhook.mkRequest (Some "sYfxahQvgwMWIgvkGsZnsdiJnDYKopHr7ILTGIlLUqM=")
                    (Some "orders/create") (Some "demo.myshopify.com") order_body true.

(** The order with one byte of the body changed after signing. *)
Definition tampered_body_request : Webhook.Request :=
  Webhook.mkRequest (Some "rYfxahQvgwMWIgvkGsZnsdiJnDYKopHr7ILTGIlLUqM=")
                    (Some "orders/create") (Some "demo.myshopify.com")
                    ("{" ++ dq "id" ++ ":43}")%string true.



(** An order with a price and one line item, signed. *)
Definition shirt_body : string :=
  ("{" ++ dq "id" ++ ":42," ++ dq "total_price" ++ ":" ++ dq "19.99" ++ ","
   ++ dq "line_items" ++ ":[{" ++ dq "product_id" ++ ":1," ++ dq "variant_id" ++ ":2,"
   ++ dq "quantity" ++ ":1," ++ dq "price" ++ ":" ++ dq "19.99" ++ ","
   ++ dq "title" ++ ":" ++ dq "Shirt" ++ "}]}")%string.

Definition shirt_request : Webhook.Request :=
  Webhook.mkRequest (Some "EXvyfNDuqWDVRiYzJ7Etw69PDoCWbvM4Jy3sD4ppAS8=")
                    (Some "orders/create") (Some "demo.myshopify.com") shirt_body true.

Definition shirt_payload : Json.value :=
  Json.JObject
    [("id", Json.JNumber "42"); ("total_price", Json.JString "19.99");
     ("line_items",
      Json.JArray
        [Json.JObject
           [("product_id", Json.JNumber "1"); ("variant_id", Json.JNumber "2");
            ("quantity", Json.JNumber "1"); ("price", Json.JString "19.99");
            ("title", Json.JString "Shirt")]])].

Definition queue_up : string -> JobData -> JobOptions -> Completion Z :=
  fun _ _ _ => Normal 7.


Definition order_data : JobData :=
  mkJobData (Json.JObject [("id", Json.JNumber "42")])
            (Some "orders/create") (Some "demo.myshopify.com").

Definition refund_data : JobData :=
  mkJobData (Json.JObject [("id", Json.JNumber "42")])
            (Some "refunds/create") (Some "demo.myshopify.com").

(** An order with an empty list of line items. *)
Definition full_order_data : JobData :=
  mkJobData (Json.JObject [("id", Json.JNumber "42"); ("line_items", Json.JArray [])])
            (Some "orders/create") (Some "demo.myshopify.com").

(** What [handleOrderCreate] passes to the sync step for such an order. *)
Definition sync_order : Webhook.OrderData :=
  Webhook.mkOrderData (OfJson (Json.JNumber "42")) Undefined Undefined Undefined
                      Undefined [] Undefined Undefined Undefined.

(** The internal system answers every call. *)
Definition api_up : Z -> option string := fun _ => None.

(** The internal system refuses every call. *)
Definition api_down : Z -> option string := fun _ => Some "HTTP 503".

(** The product list on its third page, no search term. *)
Definition page3 : ProductList.State :=
  ProductList.mkState (ProductList.FArray []) ProductList.Loading None 3 (Some 1)
                      EmptyString.

(** The same page while the user searches for [phone]. *)
Definition page3_search : ProductList.State :=
  ProductList.mkState (ProductList.FArray []) ProductList.Loading None 3 (Some 1)
                      "phone".

Definition phone : ProductList.Product := ProductList.mkProduct 1 "iPhone 9".

(** A server that answers [{products: [phone], total: 194}], and one that
    answers [{items: [phone], total: 194}]. *)
Definition products_server : ProductList.HttpRequest -> ProductList.FetchOutcome :=
  fun _ => ProductList.Fetched
             (ProductList.mkHttpResponse true 200 "OK"
                (ProductList.Parsed [("products", ProductList.FArray [phone]);
                                     ("total", ProductList.FNumber 194)])).

(** A server whose collection has 54043195528445968 items, and the list on
    page 3002399751580332. *)
Definition vast_server : ProductList.HttpRequest -> ProductList.FetchOutcome :=
  fun _ => ProductList.Fetched
             (ProductList.mkHttpResponse true 200 "OK"
                (ProductList.Parsed [("products", ProductList.FArray [phone]);
                                     ("total", ProductList.FNumber 54043195528445968)])).

Definition far_page : ProductList.State :=
  ProductList.mkState (ProductList.FArray []) ProductList.Loading None
                      3002399751580332 (Some 4503599627370497) EmptyString.

(** A request that is aborted while its body is read. *)
Definition aborted_body : ProductList.HttpRequest -> ProductList.FetchOutcome :=
  fun _ => ProductList.Fetched
             (ProductList.mkHttpResponse true 200 "OK"
                (ProductList.Unreadable "AbortError" "The user aborted a request.")).

Definition items_server : ProductList.HttpRequest -> ProductList.FetchOutcome :=
  fun _ => ProductList.Fetched
             (ProductList.mkHttpResponse true 200 "OK"
                (ProductList.Parsed [("items", ProductList.FArray [phone]);
                                     ("total", ProductList.FNumber 194)])).

End Samples.

(** * Properties *)

Arguments Crypto.createHmac_sha256_base64 : simpl never.
Arguments Json.parse : simpl never.
Arguments Bytes.Buffer_from : simpl never.

(** ** Buffers and the digest *)

Lemma bytes_eqb_eq (a b : list Z) : Bytes.eqb a b = true <-> a = b.
Proof.
  revert b; induction a as [|x a IH]; intros [|y b]; simpl; split;
    try congruence; try discriminate.
  - intros H. apply andb_true_iff in H as [Hx Hr].
    apply Z.eqb_eq in Hx. apply IH in Hr. congruence.
  - intros H. injection H as -> ->. rewrite Z.eqb_refl. simpl. now apply IH.
Qed.

Lemma utf8_decode_unit (c : ascii) (r : list Z) :
  Bytes.utf8_decode (Bytes.utf8_of_unit c ++ r) = String c (Bytes.utf8_decode r).
Proof.
  destruct c as [[] [] [] [] [] [] [] []]; reflexivity.
Qed.

Lemma utf8_decode_Buffer_from (s : string) :
  Bytes.utf8_decode (Bytes.Buffer_from s) = s.
Proof.
  unfold Bytes.Buffer_from.
  induction s as [|c s IH]; [reflexivity|].
  cbn [list_ascii_of_string flat_map].
  now rewrite utf8_decode_unit, IH.
Qed.

Lemma Buffer_from_inj (a b : string) :
  Bytes.Buffer_from a = Bytes.Buffer_from b -> a = b.
Proof.
  intros H. rewrite <- (utf8_decode_Buffer_from a), <- (utf8_decode_Buffer_from b).
  now rewrite H.
Qed.

Lemma timingSafeEqual_true (a b : string) :
  Webhook.timingSafeEqual (Bytes.Buffer_from a) (Bytes.Buffer_from b) = Normal true
  <-> a = b.
Proof.
  unfold Webhook.timingSafeEqual. split.
  - destruct (Nat.eqb _ _); [|discriminate].
    intros H. injection H as H. apply bytes_eqb_eq in H. now apply Buffer_from_inj.
  - intros ->. rewrite Nat.eqb_refl. f_equal. now apply bytes_eqb_eq.
Qed.

Lemma sha256_length (msg : list Z) : List.length (Crypto.sha256 msg) = 32%nat.
Proof. reflexivity. Qed.

Lemma base64_nonempty (x : Z) (l : list Z) : Crypto.base64 (x :: l) <> EmptyString.
Proof. destruct l as [|y [|z l]]; discriminate. Qed.

Lemma hash_nonempty (secret body : string) :
  Crypto.createHmac_sha256_base64 secret body <> EmptyString.
Proof.
  unfold Crypto.createHmac_sha256_base64, Crypto.hmac_sha256.
  set (m := (_ ++ _)%list).
  change (Crypto.sha256 m) with (Crypto.digest_of
    (fold_left Crypto.compress
       (Crypto.chunks (List.length (Crypto.pad m)) 64 (Crypto.pad m)) Crypto.H0)).
  unfold Crypto.digest_of, Crypto.be32. cbn [app]. apply base64_nonempty.
Qed.

Lemma base64_length_32 (l : list Z) :
  List.length l = 32%nat -> String.length (Crypto.base64 l) = 44%nat.
Proof.
  intros H.
  do 32 (destruct l as [|? l]; [discriminate H|]).
  destruct l; [reflexivity | discriminate H].
Qed.

Lemma hash_length (secret body : string) :
  String.length (Crypto.createHmac_sha256_base64 secret body) = 44%nat.
Proof.
  unfold Crypto.createHmac_sha256_base64, Crypto.hmac_sha256.
  apply base64_length_32, sha256_length.
Qed.

Lemma utf8_of_b64_char (i : Z) :
  Bytes.utf8_of_unit (Crypto.b64_char i) = [Bytes.byte_of_ascii (Crypto.b64_char i)].
Proof.
  unfold Crypto.b64_char. generalize (Z.to_nat i) as n. intros n.
  do 64 (destruct n as [|n]; [reflexivity|]).
  reflexivity.
Qed.

Lemma list_ind3 {A : Type} (P : list A -> Prop) :
  P [] -> (forall a, P [a]) -> (forall a b, P [a; b]) ->
  (forall a b c l, P l -> P (a :: b :: c :: l)) ->
  forall l, P l.
Proof.
  intros H0 H1 H2 H3.
  fix IH 1. intros [|a [|b [|c l]]];
    [exact H0 | apply H1 | apply H2 | apply H3, IH].
Qed.

Lemma Buffer_from_cons (c : ascii) (s : string) :
  Bytes.Buffer_from (String c s) = (Bytes.utf8_of_unit c ++ Bytes.Buffer_from s)%list.
Proof. reflexivity. Qed.

Lemma Buffer_from_base64_length (l : list Z) :
  List.length (Bytes.Buffer_from (Crypto.base64 l)) = String.length (Crypto.base64 l).
Proof.
  induction l as [|a|a b|a b c l IH] using list_ind3;
    cbn [Crypto.base64]; rewrite ?Buffer_from_cons, ?utf8_of_b64_char;
    cbn [app List.length String.length]; try reflexivity.
  now rewrite IH.
Qed.

Lemma hash_byte_length (secret body : string) :
  List.length (Bytes.Buffer_from (Crypto.createHmac_sha256_base64 secret body)) = 44%nat.
Proof.
  rewrite <- (hash_length secret body).
  unfold Crypto.createHmac_sha256_base64. apply Buffer_from_base64_length.
Qed.

(** The digest agrees with the published vectors: SHA-256 of [abc]
    (FIPS 180-4) and HMAC-SHA256 test case 2 of RFC 4231, in Base64. *)
Example sha256_abc :
  Crypto.base64 (Crypto.sha256 (Bytes.of_string "abc"))
  = "ungWv48Bz+pBQUDeXa4iI7ADYaOWF3qctBD/YfIAFa0=".
Proof. vm_compute. reflexivity. Qed.

Example hmac_rfc4231_case2 :
  Crypto.createHmac_sha256_base64 "Jefe" "what do ya want for nothing?"
  = "W9zBRr9gdU5qBCQmCJV1x1oAPwidJzmDnexYuWTsOEM=".
Proof. vm_compute. reflexivity. Qed.

(** A key longer than one block (it is hashed first) and a body of several
    blocks, against the values Node prints. *)
Example hmac_long_key :
  Crypto.createHmac_sha256_base64 (string_of_list_ascii (repeat "k"%char 100)) "{}"
  = "tonlDluktpXQeFgiUe2E/Bqqzy3B3IdqOtIWgSHQl8k=".
Proof. vm_compute. reflexivity. Qed.

Example hmac_long_body :
  Crypto.createHmac_sha256_base64 "shpss_secret"
    (string_of_list_ascii (repeat "x"%char 200))
  = "8PDJ3lS12Naml11Jzy298kb8KbCTtmgsPc0MNe8JG/I=".
Proof. vm_compute. reflexivity. Qed.

(** ** The signature check, case by case *)

Arguments Webhook.timingSafeEqual : simpl never.

Lemma verify_missing (secret : option string) (req : Webhook.Request) :
  Webhook.hmacHeader req = None \/ Webhook.hmacHeader req = Some EmptyString ->
  Webhook.verifyShopifyWebhook secret req
  = Webhook.rejection Warn "Webhook received without HMAC header" [] 401 "Missing HMAC signature".
Proof.
  intros [H|H]; unfold Webhook.verifyShopifyWebhook; rewrite H; reflexivity.
Qed.

Lemma verify_no_secret (req : Webhook.Request) (c : ascii) (h : string) :
  Webhook.hmacHeader req = Some (String c h) ->
  Webhook.verifyShopifyWebhook None req
  = Webhook.rejection Error "Error verifying webhook"
      [("error", Str "The 'key' argument must be of type string")]
      500 "Internal server error".
Proof.
  intros H. unfold Webhook.verifyShopifyWebhook. rewrite H. reflexivity.
Qed.

(** A body that [express.raw] did not buffer: [update] throws. *)
Lemma verify_unbuffered (secret : string) (req : Webhook.Request) (c : ascii) (h : string) :
  Webhook.hmacHeader req = Some (String c h) ->
  Webhook.buffered req = false ->
  Webhook.verifyShopifyWebhook (Some secret) req
  = Webhook.rejection Error "Error verifying webhook"
      [("error",
        Str "The 'data' argument must be of type string or an instance of Buffer")]
      500 "Internal server error".
Proof.
  intros H B. unfold Webhook.verifyShopifyWebhook, Webhook.body.
  rewrite H, B. reflexivity.
Qed.

Section Verification.

Variables (secret : string) (req : Webhook.Request).

Hypothesis buffered : Webhook.buffered req = true.

(** The header is the expected digest: the body is parsed next. *)
Lemma verify_match :
  Webhook.hmacHeader req = Some (Webhook.expected_signature secret req) ->
  Webhook.verifyShopifyWebhook (Some secret) req
  = match Json.parse (Webhook.rawBody req) with
    | Some p =>
        ([Log Info "HMAC signature verified successfully"
              [("topic", of_header (Webhook.topicHeader req));
               ("shop", of_header (Webhook.shopHeader req))]],
         Normal (Webhook.Proceed p))
    | None =>
        Webhook.rejection Error "Error verifying webhook"
          [("error", Str "Unexpected token in JSON")] 500 "Internal server error"
    end.
Proof.
  unfold Webhook.expected_signature.
  intros Hh.
  unfold Webhook.verifyShopifyWebhook, Webhook.body, Webhook.compute_hash.
  rewrite Hh, buffered.
  pose proof (hash_nonempty secret (Webhook.rawBody req)) as Hne.
  remember (Crypto.createHmac_sha256_base64 secret (Webhook.rawBody req)) as h eqn:E.
  destruct h as [|c h]; [congruence|].
  cbn [lift bind try_catch].
  rewrite (proj2 (timingSafeEqual_true (String c h) (String c h)) eq_refl).
  unfold Webhook.JSON_parse.
  destruct (Json.parse (Webhook.rawBody req)); reflexivity.
Qed.

(** A header of the digest's byte length that differs from it. *)
Lemma verify_mismatch (header : string) :
  Webhook.hmacHeader req = Some header ->
  header <> Webhook.expected_signature secret req ->
  List.length (Bytes.Buffer_from header) = 44%nat ->
  Webhook.verifyShopifyWebhook (Some secret) req
  = Webhook.rejection Error "Invalid HMAC signature" [("receivedHmac", Str header)]
      401 "Invalid HMAC signature".
Proof.
  unfold Webhook.expected_signature.
  intros Hh Hne Hlen.
  unfold Webhook.verifyShopifyWebhook, Webhook.body, Webhook.compute_hash.
  rewrite Hh, buffered.
  destruct header as [|c h]; [discriminate Hlen|].
  cbn [lift bind try_catch].
  destruct (Webhook.timingSafeEqual _ _) as [[|]|m] eqn:T.
  - apply timingSafeEqual_true in T. congruence.
  - reflexivity.
  - unfold Webhook.timingSafeEqual in T.
    rewrite hash_byte_length, Hlen in T. discriminate T.
Qed.

(** A header of any other byte length: [timingSafeEqual] throws. *)
Lemma verify_wrong_length (header : string) :
  Webhook.hmacHeader req = Some header ->
  header <> EmptyString ->
  List.length (Bytes.Buffer_from header) <> 44%nat ->
  Webhook.verifyShopifyWebhook (Some secret) req
  = Webhook.rejection Error "Error verifying webhook"
      [("error", Str "Input buffers must have the same byte length")]
      500 "Internal server error".
Proof.
  intros Hh Hne Hlen.
  unfold Webhook.verifyShopifyWebhook, Webhook.body, Webhook.compute_hash.
  rewrite Hh, buffered.
  destruct header as [|c h]; [congruence|].
  cbn [lift bind try_catch].
  unfold Webhook.timingSafeEqual. rewrite hash_byte_length.
  destruct (Nat.eqb_spec 44 (List.length (Bytes.Buffer_from (String c h)))) as [E|E];
    [congruence | reflexivity].
Qed.

End Verification.

Lemma buffered_dec (req : Webhook.Request) :
  Webhook.buffered req = true \/ Webhook.buffered req = false.
Proof. destruct (Webhook.buffered req); auto. Qed.

(** The middleware always answers or hands on; it never throws. *)
Lemma verify_never_throws (secret : option string) (req : Webhook.Request) :
  exists v, outcome (Webhook.verifyShopifyWebhook secret req) = Normal v.
Proof.
  destruct (Webhook.hmacHeader req) as [[|c h]|] eqn:Hh.
  - rewrite verify_missing by auto. now eexists.
  - destruct secret as [secret|]; [|rewrite (verify_no_secret req c h Hh); now eexists].
    destruct (buffered_dec req) as [B|B];
      [|rewrite (verify_unbuffered secret req c h Hh B); now eexists].
    destruct (string_dec (String c h) (Webhook.expected_signature secret req)) as [E|E].
    + rewrite (verify_match secret req B) by congruence.
      destruct (Json.parse _); now eexists.
    + destruct (Nat.eq_dec (List.length (Bytes.Buffer_from (String c h))) 44) as [L|L].
      * rewrite (verify_mismatch secret req B _ Hh E L). now eexists.
      * rewrite (verify_wrong_length secret req B (String c h) Hh) by (auto; discriminate).
        now eexists.
  - rewrite verify_missing by auto. now eexists.
Qed.

(** ** When the middleware hands the request on *)

Lemma proceeds_iff (secret : string) (req : Webhook.Request) :
  Webhook.proceeds (Some secret) req = true
  <-> Webhook.buffered req = true
      /\ Webhook.hmacHeader req = Some (Webhook.expected_signature secret req)
      /\ Json.parse (Webhook.rawBody req) <> None.
Proof.
  unfold Webhook.proceeds.
  destruct (Webhook.hmacHeader req) as [[|c h]|] eqn:Hh.
  - rewrite verify_missing by auto. cbn. split; [discriminate|].
    intros (_ & E & _). injection E as E. symmetry in E.
    unfold Webhook.expected_signature in E. now apply hash_nonempty in E.
  - destruct (buffered_dec req) as [B|B].
    2:{ rewrite (verify_unbuffered secret req c h Hh B). cbn.
        split; [discriminate | intros (B' & _); congruence]. }
    destruct (string_dec (String c h) (Webhook.expected_signature secret req)) as [E|E].
    + rewrite (verify_match secret req B) by congruence.
      destruct (Json.parse _) as [p|]; cbn.
      * split; [intros _; repeat split; [assumption | congruence | discriminate]
               | reflexivity].
      * split; [discriminate | intros (_ & _ & H); now contradiction H].
    + assert (R : outcome (Webhook.verifyShopifyWebhook (Some secret) req)
                  = Normal Webhook.Rejected).
      { destruct (Nat.eq_dec (List.length (Bytes.Buffer_from (String c h))) 44) as [L|L].
        - now rewrite (verify_mismatch secret req B _ Hh E L).
        - now rewrite (verify_wrong_length secret req B (String c h) Hh)
            by (auto; discriminate). }
      rewrite R. split; [discriminate|]. intros (_ & H & _). congruence.
  - rewrite verify_missing by auto. cbn. split; [discriminate|].
    intros (_ & E & _). discriminate E.
Qed.

(** The header of [not_json_request] is the Base64 HMAC-SHA256 of its body,
    and the middleware answers 500 instead of handing the request on. *)
Example signed_not_json_is_500 :
  Webhook.hmacHeader Samples.not_json_request
    = Some (Webhook.expected_signature Samples.secret Samples.not_json_request)
  /\ Webhook.proceeds (Some Samples.secret) Samples.not_json_request = false
  /\ Webhook.responses
       (trace (Webhook.verifyShopifyWebhook (Some Samples.secret) Samples.not_json_request))
     = [mkResponse 500 (ErrorJson "Internal server error")].
Proof. vm_compute. repeat split. Qed.

(** The same request with valid JSON proceeds, and changing one character of
    its header or one byte of its body stops it. *)
Example signed_order_proceeds :
  Webhook.proceeds (Some Samples.secret) Samples.order_request = true
  /\ Webhook.proceeds (Some Samples.secret) Samples.tampered_header_request = false
  /\ Webhook.proceeds (Some Samples.secret) Samples.tampered_body_request = false.
Proof. vm_compute. repeat split. Qed.

(** ** C3: the three failure causes *)

(** C3, at the failing input: a missing header and a wrong digest of the
    right length are answered 401, but a header that is not a digest at all
    ([abc]) makes [timingSafeEqual] throw and is answered 500. *)
Theorem C3_malformed_header_is_500 :
  Webhook.responses
    (trace (Webhook.verifyShopifyWebhook (Some Samples.secret) Samples.unsigned_request))
  = [mkResponse 401 (ErrorJson "Missing HMAC signature")]
  /\ Webhook.responses
       (trace (Webhook.verifyShopifyWebhook (Some Samples.secret)
                 Samples.tampered_header_request))
     = [mkResponse 401 (ErrorJson "Invalid HMAC signature")]
  /\ Webhook.verifyShopifyWebhook (Some Samples.secret) Samples.short_header_request
     = Webhook.rejection Error "Error verifying webhook"
         [("error", Str "Input buffers must have the same byte length")]
         500 "Internal server error".
Proof. vm_compute. repeat split. Qed.

(** ** The ingestion endpoint *)

Lemma json_null_dec (p : Json.value) : p = Json.JNull \/ p <> Json.JNull.
Proof. destruct p; (now left) || (right; discriminate). Qed.

Lemma get_prop_field (p : Json.value) (k : string) :
  p <> Json.JNull -> get_prop p k = Normal (field p k).
Proof. destruct p; unfold field; cbn; congruence. Qed.

(** What the middleware can return: one of its rejections, or the parsed
    payload of a buffered request whose header is the digest of its body. *)
Lemma verify_inv (secret : option string) (req : Webhook.Request) :
  (exists lvl msg meta code err,
      Webhook.verifyShopifyWebhook secret req = Webhook.rejection lvl msg meta code err
      /\ (code = 401 \/ code = 500))
  \/ (exists k p,
        secret = Some k
        /\ Webhook.hmacHeader req = Some (Webhook.expected_signature k req)
        /\ Json.parse (Webhook.rawBody req) = Some p
        /\ Webhook.verifyShopifyWebhook secret req
           = ([Log Info "HMAC signature verified successfully"
                   [("topic", of_header (Webhook.topicHeader req));
                    ("shop", of_header (Webhook.shopHeader req))]],
              Normal (Webhook.Proceed p))
        /\ Webhook.buffered req = true).
Proof.
  destruct (Webhook.hmacHeader req) as [[|c h]|] eqn:Hh.
  - left. rewrite verify_missing by auto. repeat eexists. auto.
  - destruct secret as [k|].
    2:{ left. rewrite (verify_no_secret req c h Hh). repeat eexists. auto. }
    destruct (buffered_dec req) as [B|B].
    2:{ left. rewrite (verify_unbuffered k req c h Hh B). repeat eexists. auto. }
    destruct (string_dec (String c h) (Webhook.expected_signature k req)) as [E|E].
    + rewrite E in Hh. rewrite (verify_match k req B Hh).
      destruct (Json.parse _) as [p|] eqn:P.
      * right. exists k, p. repeat split; auto; congruence.
      * left. repeat eexists. auto.
    + left.
      destruct (Nat.eq_dec (List.length (Bytes.Buffer_from (String c h))) 44) as [L|L].
      * rewrite (verify_mismatch k req B _ Hh E L). repeat eexists. auto.
      * rewrite (verify_wrong_length k req B (String c h) Hh) by (auto; discriminate).
        repeat eexists. auto.
  - left. rewrite verify_missing by auto. repeat eexists. auto.
Qed.

Section EndpointFacts.

Variable queue_add : string -> JobData -> JobOptions -> Completion Z.
Variables (secret : option string) (req : Webhook.Request).

Lemma post_orders_rejected lvl msg meta code err :
  Webhook.verifyShopifyWebhook secret req = Webhook.rejection lvl msg meta code err ->
  Webhook.post_orders queue_add secret req
  = ([Log lvl msg meta; Respond (mkResponse code (ErrorJson err))], Normal tt).
Proof.
  intros H. unfold Webhook.post_orders. rewrite H. reflexivity.
Qed.

(** The handler on a payload that is not [null]: the log line, the 200
    acknowledgment, then the call of [queue.add] and what follows it. *)
Lemma ordersHandler_not_null (p : Json.value) :
  p <> Json.JNull ->
  Webhook.ordersHandler queue_add req p
  = ([Log Info "Webhook received"
          [("topic", of_header (Webhook.topicHeader req));
           ("shopDomain", of_header (Webhook.shopHeader req));
           ("orderId", field p "id"); ("orderNumber", field p "order_number")];
      Respond (mkResponse 200 (AckJson true (field p "id")));
      QueueAdd "process-order"
        (mkJobData p (Webhook.topicHeader req) (Webhook.shopHeader req))
        Webhook.job_options]
     ++ match queue_add "process-order"
              (mkJobData p (Webhook.topicHeader req) (Webhook.shopHeader req))
              Webhook.job_options with
        | Normal jobId =>
            [Log Info "Job added to queue"
                 [("jobId", Num jobId); ("orderId", field p "id")]]
        | Throw e =>
            [Log Error "Error adding job to queue"
                 [("error", Str e); ("orderId", field p "id")];
             Log Error "Error processing webhook" [("error", Str e)]]
        end,
     Normal tt).
Proof.
  intros Hp. unfold Webhook.ordersHandler, Webhook.processWebhookAsync.
  rewrite !(get_prop_field p) by assumption.
  cbn [lift bind try_catch emit ret Webhook.respond app].
  destruct (queue_add _ _ _) as [jobId|e];
    cbn [lift bind try_catch emit ret throw app]; reflexivity.
Qed.

(** On [null] the handler throws before it has answered. *)
Lemma ordersHandler_null :
  Webhook.ordersHandler queue_add req Json.JNull
  = ([Log Error "Error processing webhook"
          [("error", Str "Cannot read properties of null (reading 'id')")]],
     Normal tt).
Proof. reflexivity. Qed.

Lemma post_orders_proceed (p : Json.value) :
  outcome (Webhook.verifyShopifyWebhook secret req) = Normal (Webhook.Proceed p) ->
  Webhook.post_orders queue_add secret req
  = ([Log Info "HMAC signature verified successfully"
          [("topic", of_header (Webhook.topicHeader req));
           ("shop", of_header (Webhook.shopHeader req))]]
     ++ trace (Webhook.ordersHandler queue_add req p),
     outcome (Webhook.ordersHandler queue_add req p)).
Proof.
  intros H. unfold Webhook.post_orders.
  destruct (verify_inv secret req) as [(lvl & msg & meta & code & err & E & _)
                                      |(k & q & _ & _ & _ & E & _)];
    rewrite E in H |- *; cbn in H; [discriminate H|].
  injection H as ->. cbn [bind].
  destruct (Webhook.ordersHandler queue_add req p); reflexivity.
Qed.

End EndpointFacts.

(** ** C2: a failing enqueue *)




(** ** C6: the acknowledgment and the enqueue call *)

(** For a verified request whose payload is not [null], the events of the
    endpoint are, in this order: the verification log line, the reception log
    line, the 200 acknowledgment, the call of [queue.add], and only then what
    depends on the queue's answer.  No handler of the processor runs here. *)
Lemma ack_precedes_enqueue
    (queue_add : string -> JobData -> JobOptions -> Completion Z)
    (secret : option string) (req : Webhook.Request) (p : Json.value) :
  outcome (Webhook.verifyShopifyWebhook secret req) = Normal (Webhook.Proceed p) ->
  p <> Json.JNull ->
  exists before after,
    trace (Webhook.post_orders queue_add secret req)
    = (before
       ++ Respond (mkResponse 200 (AckJson true (field p "id")))
       :: QueueAdd "process-order"
            (mkJobData p (Webhook.topicHeader req) (Webhook.shopHeader req))
            Webhook.job_options
       :: after)%list
    /\ Webhook.responses before = [] /\ Webhook.enqueued before = []
    /\ Webhook.responses after = [] /\ Webhook.enqueued after = [].
Proof.
  intros Hv Hp.
  rewrite (post_orders_proceed queue_add secret req p Hv).
  rewrite (ordersHandler_not_null queue_add req p Hp).
  eexists [_; _], _. cbn [trace fst app]. split; [reflexivity|].
  destruct (queue_add _ _ _); repeat split.
Qed.

(** The ordering above, on the signed order: the acknowledgment is the
    third event and the call of [queue.add] the fourth. *)
Lemma ack_precedes_enqueue_witness :
  exists before after,
    trace (Webhook.post_orders Samples.queue_up (Some Samples.secret)
             Samples.order_request)
    = (before
       ++ Respond (mkResponse 200
            (AckJson true (field (Json.JObject [("id", Json.JNumber "42")]) "id")))
       :: QueueAdd "process-order"
            (mkJobData (Json.JObject [("id", Json.JNumber "42")])
               (Webhook.topicHeader Samples.order_request)
               (Webhook.shopHeader Samples.order_request))
            Webhook.job_options
       :: after)%list
    /\ Webhook.responses before = [] /\ Webhook.enqueued before = []
    /\ Webhook.responses after = [] /\ Webhook.enqueued after = [].
Proof.
  apply (ack_precedes_enqueue Samples.queue_up (Some Samples.secret)
           Samples.order_request (Json.JObject [("id", Json.JNumber "42")])).
  - vm_compute. reflexivity.
  - discriminate.
Defined.

(** C6, at the failing input: the body [null] carries a valid signature and
    is handed on to the handler, which throws on [payload.id] before it has
    answered; the request gets no response at all and nothing is enqueued. *)
Theorem C6_null_payload_is_never_acknowledged :
  Webhook.hmacHeader Samples.null_request
    = Some (Webhook.expected_signature Samples.secret Samples.null_request)
  /\ outcome (Webhook.verifyShopifyWebhook (Some Samples.secret) Samples.null_request)
     = Normal (Webhook.Proceed Json.JNull)
  /\ Webhook.post_orders Samples.queue_up (Some Samples.secret) Samples.null_request
     = ([Log Info "HMAC signature verified successfully"
             [("topic", Str "orders/create"); ("shop", Str "demo.myshopify.com")];
         Log Error "Error processing webhook"
             [("error", Str "Cannot read properties of null (reading 'id')")]],
        Normal tt)
  /\ Webhook.responses
       (trace (Webhook.post_orders Samples.queue_up (Some Samples.secret)
                 Samples.null_request)) = [].
Proof. vm_compute. repeat split. Qed.

(** ** C8: what the producer is told *)




(** ** C10: the retry loop inside the sync step *)

(** C10: [syncOrderToInternalSystem] calls the internal system at most three
    times, sleeps 1000 ms after the first failure and 2000 ms after the
    second, returns [true] at the first call that succeeds, and after the
    third failure throws an error that carries the message of that last
    failure.  One run of the processor can therefore make all three calls. *)
Theorem C10_sync_retry_loop (api : Z -> option string) (o : Webhook.OrderData) :
  let m := Webhook.syncOrderToInternalSystem api o in
  let id := Webhook.shopifyOrderId o in
  let synced n :=
    Log Info "Order synced successfully" [("orderId", id); ("attempt", Num n)] in
  let retry n delay e :=
    Log Warn "Retry sync after error"
        [("orderId", id); ("attempt", Num n); ("delay", Num delay); ("error", Str e)] in
  match api 0, api 1, api 2 with
  | None, _, _ =>
      m = ([InternalCall 1; synced 1], Normal true)
  | Some e0, None, _ =>
      m = ([InternalCall 1; retry 1 1000 e0; Sleep 1000;
            InternalCall 2; synced 2], Normal true)
  | Some e0, Some e1, None =>
      m = ([InternalCall 1; retry 1 1000 e0; Sleep 1000;
            InternalCall 2; retry 2 2000 e1; Sleep 2000;
            InternalCall 3; synced 3], Normal true)
  | Some e0, Some e1, Some e2 =>
      m = ([InternalCall 1; retry 1 1000 e0; Sleep 1000;
            InternalCall 2; retry 2 2000 e1; Sleep 2000;
            InternalCall 3],
           Throw ("Failed to sync after 3 attempts: " ++ e2)%string)
  end
  /\ (List.length (Webhook.internal_calls (trace m)) <= 3)%nat
  /\ Webhook.internal_calls
       (trace (Webhook.process_order Samples.api_down
                 (Webhook.mkJob 7 Samples.full_order_data 0))) = [1; 2; 3].
Proof.
  cbv zeta. unfold Webhook.syncOrderToInternalSystem.
  change (Z.to_nat Webhook.maxRetries) with 3%nat.
  cbn [Webhook.sync_loop].
  change (0 <? Webhook.maxRetries) with true.
  change (0 <? Webhook.maxRetries - 1) with true.
  change (0 + 1 <? Webhook.maxRetries) with true.
  change (0 + 1 <? Webhook.maxRetries - 1) with true.
  change (0 + 1 + 1 <? Webhook.maxRetries) with true.
  change (0 + 1 + 1 <? Webhook.maxRetries - 1) with false.
  change (0 + 1 + 1 + 1 <? Webhook.maxRetries) with false.
  destruct (api 0) as [e0|]; [|repeat split; cbn; lia].
  change (api (0 + 1)) with (api 1).
  destruct (api 1) as [e1|]; [|repeat split; cbn; lia].
  change (api (0 + 1 + 1)) with (api 2).
  destruct (api 2) as [e2|]; repeat split; cbn; lia.
Qed.

(** C10, witness: against an internal system that refuses every call. *)
Lemma C10_witness :
  Webhook.syncOrderToInternalSystem Samples.api_down Samples.sync_order
  = ([InternalCall 1;
      Log Warn "Retry sync after error"
          [("orderId", OfJson (Json.JNumber "42")); ("attempt", Num 1);
           ("delay", Num 1000); ("error", Str "HTTP 503")];
      Sleep 1000;
      InternalCall 2;
      Log Warn "Retry sync after error"
          [("orderId", OfJson (Json.JNumber "42")); ("attempt", Num 2);
           ("delay", Num 2000); ("error", Str "HTTP 503")];
      Sleep 2000;
      InternalCall 3],
     Throw "Failed to sync after 3 attempts: HTTP 503").
Proof.
  exact (proj1 (C10_sync_retry_loop Samples.api_down Samples.sync_order)).
Defined.

(** ** The processor *)

(** Raising no alert is preserved by every way the source composes
    statements. *)
Lemma alerts_app (a b : list Event) :
  Webhook.alerts (a ++ b) = (Webhook.alerts a ++ Webhook.alerts b)%list.
Proof.
  induction a as [|[] a IH]; cbn; rewrite ?IH; reflexivity.
Qed.

Lemma route_none_iff (t : option string) :
  Webhook.route t = None
  <-> forall x, t = Some x -> ~ In x Webhook.recognized_topics.
Proof.
  unfold Webhook.route, Webhook.recognized_topics.
  destruct t as [x|]; [|split; [intros _ y Hy; discriminate Hy | reflexivity]].
  destruct (String.eqb_spec x "orders/create") as [->|H1].
  { split; [discriminate|]. intros H. exfalso. apply (H _ eq_refl). cbn. auto. }
  destruct (String.eqb_spec x "orders/updated") as [->|H2].
  { split; [discriminate|]. intros H. exfalso. apply (H _ eq_refl). cbn. auto. }
  destruct (String.eqb_spec x "orders/paid") as [->|H3].
  { split; [discriminate|]. intros H. exfalso. apply (H _ eq_refl). cbn. auto. }
  destruct (String.eqb_spec x "orders/fulfilled") as [->|H4].
  { split; [discriminate|]. intros H. exfalso. apply (H _ eq_refl). cbn. auto 6. }
  split; [|reflexivity].
  intros _ y Hy. injection Hy as <-. cbn. intuition congruence.
Qed.

Lemma quiet_bind {A B : Type} (m : M A) (k : A -> M B) :
  Webhook.quiet m -> (forall a, Webhook.quiet (k a)) -> Webhook.quiet (bind m k).
Proof.
  unfold Webhook.quiet. intros Hm Hk. destruct m as [t [a|e]]; cbn in *; [|assumption].
  specialize (Hk a). destruct (k a) as [t' r]. cbn in *.
  now rewrite alerts_app, Hm, Hk.
Qed.

Lemma quiet_try_catch {A : Type} (m : M A) (h : string -> M A) :
  Webhook.quiet m -> (forall e, Webhook.quiet (h e)) -> Webhook.quiet (try_catch m h).
Proof.
  unfold Webhook.quiet. intros Hm Hh. destruct m as [t [a|e]]; cbn in *; [assumption|].
  specialize (Hh e). destruct (h e) as [t' r]. cbn in *.
  now rewrite alerts_app, Hm, Hh.
Qed.

Lemma quiet_lift {A : Type} (c : Completion A) : Webhook.quiet (lift c).
Proof. reflexivity. Qed.

Lemma quiet_ret {A : Type} (a : A) : Webhook.quiet (ret a).
Proof. reflexivity. Qed.

Lemma quiet_throw {A : Type} (e : string) : Webhook.quiet (throw (A := A) e).
Proof. reflexivity. Qed.

Lemma quiet_log lvl msg meta : Webhook.quiet (emit (Log lvl msg meta)).
Proof. reflexivity. Qed.

Lemma quiet_sleep ms : Webhook.quiet (emit (Sleep ms)).
Proof. reflexivity. Qed.

Lemma quiet_internal_call n : Webhook.quiet (emit (InternalCall n)).
Proof. reflexivity. Qed.

Create HintDb quiet.
#[local] Hint Resolve quiet_lift quiet_ret quiet_throw quiet_log quiet_sleep
  quiet_internal_call : quiet.

Ltac quiet_steps :=
  repeat lazymatch goal with
         | |- Webhook.quiet (bind _ _) => apply quiet_bind; [|intros ?]
         | |- Webhook.quiet (try_catch _ _) => apply quiet_try_catch; [|intros ?]
         end;
  auto with quiet.

Section ProcessorFacts.

Variable api : Z -> option string.

Lemma sync_give_up_quiet (lastError : option string) :
  Webhook.quiet (Webhook.sync_give_up lastError).
Proof. destruct lastError; apply quiet_throw. Qed.

Lemma sync_loop_quiet (fuel : nat) (id : JSVal) (i : Z) (lastError : option string) :
  Webhook.quiet (Webhook.sync_loop api fuel id i lastError).
Proof.
  revert i lastError.
  induction fuel as [|fuel IH]; intros i lastError; cbn [Webhook.sync_loop];
    [apply sync_give_up_quiet|].
  destruct (i <? Webhook.maxRetries); [|apply sync_give_up_quiet].
  apply quiet_bind; [auto with quiet | intros _].
  destruct (api i) as [e|]; [|quiet_steps].
  apply quiet_bind; [|intros _; apply IH].
  destruct (i <? Webhook.maxRetries - 1); quiet_steps.
Qed.

Lemma handler_quiet (h : Webhook.Handler) (payload : Json.value) :
  Webhook.quiet (Webhook.run_handler api h payload).
Proof.
  destruct h; cbn [Webhook.run_handler];
    unfold Webhook.handleOrderCreate, Webhook.handleOrderUpdate,
      Webhook.handleOrderPaid, Webhook.handleOrderFulfilled,
      Webhook.updateOrderInInternalSystem, Webhook.markOrderAsPaid,
      Webhook.triggerFulfillmentProcess, Webhook.updateFulfillmentStatus,
      Webhook.sendCustomerNotification;
    quiet_steps.
  apply sync_loop_quiet.
Qed.

Lemma dispatch_quiet (topic : option string) (payload : Json.value) :
  Webhook.quiet (Webhook.dispatch api topic payload).
Proof.
  unfold Webhook.dispatch.
  destruct (Webhook.route topic); [apply handler_quiet | apply quiet_log].
Qed.

(** What one run of the processor returns and whether it alerts, in terms
    of how the dispatched handler ended. *)
Lemma process_order_spec (job : Webhook.Job) :
  let data := Webhook.job_data job in
  let n := Webhook.attemptsMade job + 1 in
  payload data <> Json.JNull ->
  match outcome (Webhook.dispatch api (topic data) (payload data)) with
  | Normal _ =>
      outcome (Webhook.process_order api job)
        = Normal (Webhook.mkResult true (field (payload data) "id"))
      /\ Webhook.alerts (trace (Webhook.process_order api job)) = []
  | Throw e =>
      outcome (Webhook.process_order api job) = Throw e
      /\ Webhook.alerts (trace (Webhook.process_order api job))
         = if Webhook.MAX_RETRIES <=? n
           then [mkAlert (field (payload data) "id") e n (shopDomain data)]
           else []
  end.
Proof.
  intros data n Hp. subst data n.
  pose proof (dispatch_quiet (topic (Webhook.job_data job))
                (payload (Webhook.job_data job))) as Hq.
  unfold Webhook.process_order. rewrite (get_prop_field _ "id" Hp).
  unfold Webhook.quiet in Hq.
  destruct (Webhook.dispatch api _ _) as [t [[]|e]]; cbn in Hq |- *.
  - split; [reflexivity|]. now rewrite alerts_app, Hq.
  - destruct (Webhook.MAX_RETRIES <=? Webhook.attemptsMade job + 1);
      cbn; (split; [reflexivity|]); rewrite alerts_app, Hq; reflexivity.
Qed.

Lemma process_order_null (job : Webhook.Job) :
  payload (Webhook.job_data job) = Json.JNull ->
  Webhook.process_order api job
  = ([], Throw "Cannot read properties of null (reading 'id')").
Proof. intros H. unfold Webhook.process_order. rewrite H. reflexivity. Qed.

End ProcessorFacts.

(** Every job the endpoint puts on the queue has a payload other than
    [null], and is the request's parsed body with its two headers. *)
Lemma enqueued_by_endpoint
    (queue_add : string -> JobData -> JobOptions -> Completion Z)
    (secret : option string) (req : Webhook.Request) (data : JobData) :
  In data (Webhook.enqueued (trace (Webhook.post_orders queue_add secret req))) ->
  payload data <> Json.JNull
  /\ Json.parse (Webhook.rawBody req) = Some (payload data)
  /\ topic data = Webhook.topicHeader req
  /\ shopDomain data = Webhook.shopHeader req.
Proof.
  destruct (verify_inv secret req) as [(lvl & msg & meta & code & err & E & _)
                                      |(k & p & _ & _ & P & E & _)].
  - rewrite (post_orders_rejected queue_add secret req _ _ _ _ _ E). intros [].
  - rewrite (post_orders_proceed queue_add secret req p) by now rewrite E.
    destruct (json_null_dec p) as [->|Hp].
    + rewrite ordersHandler_null. intros [].
    + rewrite (ordersHandler_not_null queue_add req p Hp).
      destruct (queue_add _ _ _); cbn; intros [<-|[]]; cbn; auto.
Qed.

(** ** C7: a topic the processor does not know *)

(** C7: for every job the endpoint has enqueued whose topic is none of the
    recognized ones, the processor calls no handler, logs the unknown topic
    and returns the success value; it does not throw, which is what would
    make the queue retry the job. *)
Theorem C7_unknown_topic_is_success
    (queue_add : string -> JobData -> JobOptions -> Completion Z)
    (secret : option string) (req : Webhook.Request)
    (api : Z -> option string) (job : Webhook.Job) :
  In (Webhook.job_data job)
     (Webhook.enqueued (trace (Webhook.post_orders queue_add secret req))) ->
  (forall t, topic (Webhook.job_data job) = Some t ->
             ~ In t Webhook.recognized_topics) ->
  let orderId := field (payload (Webhook.job_data job)) "id" in
  let attempt := Webhook.attemptsMade job + 1 in
  Webhook.process_order api job
  = ([Log Info "Processing order"
          [("jobId", Num (Webhook.job_id job)); ("orderId", orderId);
           ("attempt", Num attempt); ("maxAttempts", Num Webhook.MAX_RETRIES)];
      Log Warn "Unknown webhook topic"
          [("topic", of_header (topic (Webhook.job_data job)))];
      Log Info "Order processed successfully"
          [("jobId", Num (Webhook.job_id job)); ("orderId", orderId);
           ("attempt", Num attempt)]],
     Normal (Webhook.mkResult true orderId)).
Proof.
  intros Hin Htopic orderId attempt. subst orderId attempt.
  apply enqueued_by_endpoint in Hin as [Hp _].
  apply route_none_iff in Htopic.
  unfold Webhook.process_order, Webhook.dispatch.
  rewrite (get_prop_field _ "id" Hp), Htopic. reflexivity.
Qed.

(** C7, witness: the signed order arriving under the topic
    [refunds/create]. *)
Lemma C7_witness :
  Webhook.process_order Samples.api_up (Webhook.mkJob 7 Samples.refund_data 0)
  = ([Log Info "Processing order"
          [("jobId", Num 7);
           ("orderId", field (Json.JObject [("id", Json.JNumber "42")]) "id");
           ("attempt", Num (0 + 1)); ("maxAttempts", Num Webhook.MAX_RETRIES)];
      Log Warn "Unknown webhook topic" [("topic", Str "refunds/create")];
      Log Info "Order processed successfully"
          [("jobId", Num 7);
           ("orderId", field (Json.JObject [("id", Json.JNumber "42")]) "id");
           ("attempt", Num (0 + 1))]],
     Normal (Webhook.mkResult true
               (field (Json.JObject [("id", Json.JNumber "42")]) "id"))).
Proof.
  apply (C7_unknown_topic_is_success Samples.queue_up (Some Samples.secret)
           Samples.refund_request Samples.api_up
           (Webhook.mkJob 7 Samples.refund_data 0)).
  - vm_compute. left. reflexivity.
  - intros t Ht. injection Ht as <-. cbn. intuition discriminate.
Defined.

(** ** The worker on a job that keeps failing *)

Section FailingJob.

Variable run_attempt : Z -> Webhook.Job -> M Webhook.ProcessResult.
Variable duration : Z -> Z.

Lemma dequeue_due (clock : Z) (j : JobQueue.Job) :
  JobQueue.state j = JobQueue.Pending ->
  JobQueue.dequeueReady (Z.max clock (JobQueue.nextEligibleAt j)) j
  = Some (JobQueue.markRunning j).
Proof.
  intros H. unfold JobQueue.dequeueReady. rewrite H. cbn.
  now rewrite (proj2 (Z.leb_le _ _) (Z.le_max_r clock (JobQueue.nextEligibleAt j))).
Qed.

(** A terminal job is never handed out again. *)
Lemma dequeue_terminal (now : Z) (j : JobQueue.Job) :
  JobQueue.state j = JobQueue.Exhausted \/ JobQueue.state j = JobQueue.Succeeded ->
  JobQueue.dequeueReady now j = None.
Proof.
  intros [H|H]; unfold JobQueue.dequeueReady; rewrite H; reflexivity.
Qed.

Lemma work_terminal (fuel : nat) (clock : Z) (j : JobQueue.Job) :
  JobQueue.state j = JobQueue.Exhausted \/ JobQueue.state j = JobQueue.Succeeded ->
  JobQueue.work run_attempt duration fuel clock j = JobQueue.mkRun j [] [].
Proof.
  intros H. destruct fuel; [reflexivity|]. cbn [JobQueue.work].
  now rewrite dequeue_terminal.
Qed.

(** One round of the worker on an attempt that throws. *)
Lemma work_step_fail (fuel : nat) (clock : Z) (j : JobQueue.Job) (e : string) :
  JobQueue.state j = JobQueue.Pending ->
  outcome (run_attempt (JobQueue.attemptCount j + 1)
             (Webhook.mkJob (JobQueue.jobId j) (JobQueue.event j)
                            (JobQueue.attemptCount j))) = Throw e ->
  JobQueue.work run_attempt duration (S fuel) clock j
  = let now := Z.max clock (JobQueue.nextEligibleAt j)
               + duration (JobQueue.attemptCount j + 1) in
    let j' := JobQueue.markFailed now e (JobQueue.markRunning j) in
    let rest := JobQueue.work run_attempt duration fuel now j' in
    JobQueue.mkRun (JobQueue.final rest)
      (trace (run_attempt (JobQueue.attemptCount j + 1)
                (Webhook.mkJob (JobQueue.jobId j) (JobQueue.event j)
                               (JobQueue.attemptCount j)))
       ++ JobQueue.log rest)
      ((if JobQueue.is_pending (JobQueue.state j')
        then [JobQueue.nextEligibleAt j' - now] else [])
       ++ JobQueue.deltas rest).
Proof.
  intros Hs He. cbn [JobQueue.work]. rewrite (dequeue_due clock j Hs).
  unfold JobQueue.as_processor_job.
  cbn [JobQueue.markRunning JobQueue.attemptCount JobQueue.jobId JobQueue.event].
  replace (JobQueue.attemptCount j + 1 - 1) with (JobQueue.attemptCount j) by lia.
  rewrite He. reflexivity.
Qed.

Lemma markFailed_retry (now : Z) (e : string) (j : JobQueue.Job) :
  JobQueue.attemptCount j + 1 < JobQueue.maxAttempts j ->
  JobQueue.markFailed now e (JobQueue.markRunning j)
  = JobQueue.mkJob (JobQueue.jobId j) (JobQueue.event j) (JobQueue.options j)
      JobQueue.Pending (JobQueue.attemptCount j + 1)
      (now + JobQueue.initialDelay j * 2 ^ JobQueue.attemptCount j)
      (Some e) (JobQueue.completedAt j).
Proof.
  intros H. unfold JobQueue.markFailed, JobQueue.backoff, JobQueue.maxAttempts,
    JobQueue.initialDelay in *.
  cbn [JobQueue.markRunning JobQueue.attemptCount JobQueue.options JobQueue.jobId
       JobQueue.event JobQueue.completedAt].
  rewrite (proj2 (Z.ltb_lt _ _) H).
  replace (JobQueue.attemptCount j + 1 - 1) with (JobQueue.attemptCount j) by lia.
  reflexivity.
Qed.

Lemma markFailed_exhausted (now : Z) (e : string) (j : JobQueue.Job) :
  JobQueue.maxAttempts j <= JobQueue.attemptCount j + 1 ->
  JobQueue.markFailed now e (JobQueue.markRunning j)
  = JobQueue.mkJob (JobQueue.jobId j) (JobQueue.event j) (JobQueue.options j)
      JobQueue.Exhausted (JobQueue.attemptCount j + 1)
      (JobQueue.nextEligibleAt j) (Some e) (Some now).
Proof.
  intros H. unfold JobQueue.markFailed, JobQueue.maxAttempts in *.
  cbn [JobQueue.markRunning JobQueue.attemptCount JobQueue.options JobQueue.jobId
       JobQueue.event JobQueue.nextEligibleAt].
  rewrite (proj2 (Z.ltb_ge _ _) H). reflexivity.
Qed.

(** With as much fuel as attempts are left, a job whose every attempt
    throws ends Exhausted at [maxAttempts]; it was re-armed after each
    attempt but the last, with the delay of that attempt's number; and the
    log is that of the attempts in order. *)
Lemma work_all_fail (fuel : nat) :
  forall (clock : Z) (j : JobQueue.Job),
    JobQueue.state j = JobQueue.Pending ->
    JobQueue.attemptCount j + Z.of_nat (S fuel) = JobQueue.maxAttempts j ->
    (forall n, JobQueue.attemptCount j < n <= JobQueue.maxAttempts j ->
               exists e, outcome (run_attempt n
                           (Webhook.mkJob (JobQueue.jobId j) (JobQueue.event j) (n - 1)))
                         = Throw e) ->
    let r := JobQueue.work run_attempt duration (S fuel) clock j in
    JobQueue.state (JobQueue.final r) = JobQueue.Exhausted
    /\ JobQueue.attemptCount (JobQueue.final r) = JobQueue.maxAttempts j
    /\ JobQueue.deltas r
       = map (fun n => JobQueue.initialDelay j * 2 ^ (n - 1))
             (JobQueue.seqZ (JobQueue.attemptCount j + 1) fuel)
    /\ JobQueue.log r
       = flat_map (fun n => trace (run_attempt n
                     (Webhook.mkJob (JobQueue.jobId j) (JobQueue.event j) (n - 1))))
                  (JobQueue.seqZ (JobQueue.attemptCount j + 1) (S fuel)).
Proof.
  induction fuel as [|fuel IH]; intros clock j Hs Hn Hfail r; subst r;
    destruct (Hfail (JobQueue.attemptCount j + 1) ltac:(lia)) as [e He];
    replace (JobQueue.attemptCount j + 1 - 1) with (JobQueue.attemptCount j) in He by lia;
    rewrite (work_step_fail _ clock j e Hs He); cbv zeta.
  - rewrite markFailed_exhausted by lia.
    cbn. repeat split; try lia.
    replace (JobQueue.attemptCount j + 1 - 1) with (JobQueue.attemptCount j) by lia.
    reflexivity.
  - rewrite markFailed_retry by lia.
    set (now := Z.max clock (JobQueue.nextEligibleAt j)
                + duration (JobQueue.attemptCount j + 1)).
    set (j' := JobQueue.mkJob _ _ _ _ _ _ _ _).
    destruct (IH now j' eq_refl) as (I1 & I2 & I3 & I4).
    + subst j'. unfold JobQueue.maxAttempts in *. cbn. lia.
    + intros n Hn'. subst j'. cbn. apply Hfail.
      unfold JobQueue.maxAttempts in *. cbn in Hn'. lia.
    + cbn [JobQueue.final JobQueue.deltas JobQueue.log].
      rewrite I1, I2, I3, I4. subst j'.
      cbn [JobQueue.state JobQueue.is_pending JobQueue.nextEligibleAt
           JobQueue.attemptCount JobQueue.jobId JobQueue.event
           JobQueue.seqZ map flat_map app].
      repeat split.
      * f_equal.
        -- replace (JobQueue.attemptCount j + 1 - 1) with (JobQueue.attemptCount j) by lia.
           lia.
      * replace (JobQueue.attemptCount j + 1 - 1) with (JobQueue.attemptCount j) by lia.
        reflexivity.
Qed.

End FailingJob.

(** A job of an unknown topic succeeds at its first attempt: the worker
    marks it Succeeded and never re-arms it. *)
Lemma unknown_topic_job_is_not_retried
    (queue_add : string -> JobData -> JobOptions -> Completion Z)
    (secret : option string) (req : Webhook.Request)
    (apis : Z -> Z -> option string) (duration : Z -> Z) (clock now id : Z)
    (data : JobData) :
  In data (Webhook.enqueued (trace (Webhook.post_orders queue_add secret req))) ->
  Webhook.route (topic data) = None ->
  let r := JobQueue.run_job (fun n => Webhook.process_order (apis n)) duration clock
             (JobQueue.enqueue now id data Webhook.job_options) in
  JobQueue.state (JobQueue.final r) = JobQueue.Succeeded
  /\ JobQueue.attemptCount (JobQueue.final r) = 1
  /\ JobQueue.deltas r = []
  /\ Webhook.internal_calls (JobQueue.log r) = [].
Proof.
  intros Hin Hroute r. subst r.
  apply enqueued_by_endpoint in Hin as [Hp _].
  unfold JobQueue.run_job.
  change (Z.to_nat (JobQueue.maxAttempts
            (JobQueue.enqueue now id data Webhook.job_options))) with 5%nat.
  cbn [JobQueue.work]. rewrite dequeue_due by reflexivity.
  unfold JobQueue.as_processor_job, Webhook.process_order, Webhook.dispatch.
  cbn [JobQueue.markRunning JobQueue.enqueue JobQueue.attemptCount JobQueue.jobId
       JobQueue.event Webhook.job_data payload topic].
  rewrite (get_prop_field _ "id" Hp), Hroute.
  cbn. repeat split.
Qed.

(** ** C4: the retry schedule under the default configuration *)

(** C4 (as amended): under the options the source adds every job with
    (5 attempts, 1000 ms initial delay), a job whose every attempt fails is
    re-armed after the n-th failure with the delay 1000 * 2^(n-1) ms for
    n = 1..4, that is 1 s, 2 s, 4 s, 8 s; the 5th failure re-arms nothing and
    leaves the job Exhausted, after which it is never handed out again. *)
Theorem C4_backoff_schedule
    (run_attempt : Z -> Webhook.Job -> M Webhook.ProcessResult)
    (duration : Z -> Z) (clock now id : Z) (data : JobData) :
  (forall n, 1 <= n <= Webhook.MAX_RETRIES ->
             exists e, outcome (run_attempt n (Webhook.mkJob id data (n - 1))) = Throw e) ->
  let r := JobQueue.run_job run_attempt duration clock
             (JobQueue.enqueue now id data Webhook.job_options) in
  JobQueue.deltas r
    = map (fun n => Webhook.INITIAL_RETRY_DELAY * 2 ^ (n - 1)) [1; 2; 3; 4]
  /\ JobQueue.deltas r = [1000; 2000; 4000; 8000]
  /\ JobQueue.state (JobQueue.final r) = JobQueue.Exhausted
  /\ JobQueue.attemptCount (JobQueue.final r) = 5
  /\ (forall t, JobQueue.dequeueReady t (JobQueue.final r) = None).
Proof.
  intros Hfail r.
  destruct (work_all_fail run_attempt duration 4 clock
              (JobQueue.enqueue now id data Webhook.job_options) eq_refl eq_refl)
    as (H1 & H2 & H3 & H4).
  { intros n Hn. apply Hfail.
    unfold JobQueue.maxAttempts, JobQueue.enqueue, Webhook.job_options,
      Webhook.MAX_RETRIES in *. cbn in Hn. lia. }
  change (JobQueue.work run_attempt duration 5 clock
            (JobQueue.enqueue now id data Webhook.job_options)) with r in *.
  repeat split; try assumption.
  - intros t. apply dequeue_terminal. now left.
Qed.

(** C4, witness: an [orders/create] job whose payload has no [line_items]
    fails at every attempt. *)
Lemma C4_witness :
  let r := JobQueue.run_job (fun _ => Webhook.process_order Samples.api_up)
             (fun _ => 30) 0
             (JobQueue.enqueue 0 7 Samples.order_data Webhook.job_options) in
  JobQueue.deltas r
    = map (fun n => Webhook.INITIAL_RETRY_DELAY * 2 ^ (n - 1)) [1; 2; 3; 4]
  /\ JobQueue.deltas r = [1000; 2000; 4000; 8000]
  /\ JobQueue.state (JobQueue.final r) = JobQueue.Exhausted
  /\ JobQueue.attemptCount (JobQueue.final r) = 5
  /\ (forall t, JobQueue.dequeueReady t (JobQueue.final r) = None).
Proof.
  apply (C4_backoff_schedule (fun _ => Webhook.process_order Samples.api_up)
           (fun _ => 30) 0 0 7 Samples.order_data).
  intros n Hn. exists "Cannot read properties of undefined (reading 'map')".
  unfold Webhook.process_order. cbn.
  destruct (Webhook.MAX_RETRIES <=? n - 1 + 1); reflexivity.
Defined.

(** C4, counterexample: the same job is re-armed four times, never a fifth
    time with 16 s; after the fifth failure it is Exhausted. *)
Lemma C4_counterexample :
  let r := JobQueue.run_job (fun _ => Webhook.process_order Samples.api_up)
             (fun _ => 30) 0
             (JobQueue.enqueue 0 7 Samples.order_data Webhook.job_options) in
  JobQueue.deltas r = [1000; 2000; 4000; 8000]
  /\ JobQueue.deltas r <> [1000; 2000; 4000; 8000; 16000]
  /\ JobQueue.attemptCount (JobQueue.final r) = 5
  /\ JobQueue.state (JobQueue.final r) = JobQueue.Exhausted.
Proof. vm_compute. repeat split. discriminate. Qed.

(** ** C5: the failure alert *)

(** C5 (as amended): for every enqueued job whose handler fails at each of
    the five attempts, the failure alert is raised exactly once, by the fifth
    attempt, and carries the order id ([payload.id], not the job id), the
    message of the fifth error, the shop domain and [attempts = 5]; no run of
    the processor with attempts left raises it. *)
Theorem C5_alert_once_on_final_attempt
    (queue_add : string -> JobData -> JobOptions -> Completion Z)
    (secret : option string) (req : Webhook.Request) (data : JobData)
    (apis : Z -> Z -> option string) (errs : Z -> string)
    (duration : Z -> Z) (clock now id : Z) :
  In data (Webhook.enqueued (trace (Webhook.post_orders queue_add secret req))) ->
  (forall n, 1 <= n <= Webhook.MAX_RETRIES ->
             outcome (Webhook.dispatch (apis n) (topic data) (payload data))
             = Throw (errs n)) ->
  let r := JobQueue.run_job (fun n => Webhook.process_order (apis n)) duration clock
             (JobQueue.enqueue now id data Webhook.job_options) in
  Webhook.alerts (JobQueue.log r)
    = [mkAlert (field (payload data) "id") (errs 5) 5 (shopDomain data)]
  /\ JobQueue.state (JobQueue.final r) = JobQueue.Exhausted
  /\ (forall api made,
        made + 1 < Webhook.MAX_RETRIES ->
        Webhook.alerts (trace (Webhook.process_order api (Webhook.mkJob id data made)))
        = []).
Proof.
  intros Hin Hfail r.
  apply enqueued_by_endpoint in Hin as [Hp _].
  assert (Hrun : forall n, 1 <= n <= 5 ->
            outcome (Webhook.process_order (apis n) (Webhook.mkJob id data (n - 1)))
              = Throw (errs n)
            /\ Webhook.alerts
                 (trace (Webhook.process_order (apis n) (Webhook.mkJob id data (n - 1))))
               = if Webhook.MAX_RETRIES <=? n
                 then [mkAlert (field (payload data) "id") (errs n) n (shopDomain data)]
                 else []).
  { intros n Hn.
    pose proof (process_order_spec (apis n) (Webhook.mkJob id data (n - 1)) Hp) as H.
    cbn [Webhook.job_data Webhook.attemptsMade] in H.
    rewrite (Hfail n Hn) in H.
    replace (n - 1 + 1) with n in H by lia. exact H. }
  destruct (work_all_fail (fun n => Webhook.process_order (apis n)) duration 4 clock
              (JobQueue.enqueue now id data Webhook.job_options) eq_refl eq_refl)
    as (H1 & _ & _ & H4).
  { intros n Hn. exists (errs n). apply Hrun.
    unfold JobQueue.maxAttempts, JobQueue.enqueue, Webhook.job_options,
      Webhook.MAX_RETRIES in *. cbn in Hn. lia. }
  change (JobQueue.work (fun n => Webhook.process_order (apis n)) duration 5 clock
            (JobQueue.enqueue now id data Webhook.job_options)) with r in *.
  repeat split.
  - rewrite H4. cbn [JobQueue.enqueue JobQueue.attemptCount JobQueue.jobId JobQueue.event
                     JobQueue.seqZ flat_map].
    rewrite !alerts_app.
    change (0 + 1) with 1. change (1 + 1) with 2. change (2 + 1) with 3.
    change (3 + 1) with 4. change (4 + 1) with 5.
    rewrite (proj2 (Hrun 1 ltac:(lia))), (proj2 (Hrun 2 ltac:(lia))),
      (proj2 (Hrun 3 ltac:(lia))), (proj2 (Hrun 4 ltac:(lia))),
      (proj2 (Hrun 5 ltac:(lia))).
    reflexivity.
  - exact H1.
  - intros api made Hmade.
    pose proof (process_order_spec api (Webhook.mkJob id data made) Hp) as H.
    cbn [Webhook.job_data Webhook.attemptsMade] in H.
    destruct (outcome (Webhook.dispatch api (topic data) (payload data))).
    + apply H.
    + destruct H as [_ H]. rewrite H.
      now rewrite (proj2 (Z.leb_gt _ _) Hmade).
Qed.

(** C5, witness: the signed order of topic [orders/create], whose payload
    has no [line_items], fails five times. *)
Lemma C5_witness :
  let r := JobQueue.run_job (fun _ => Webhook.process_order Samples.api_up)
             (fun _ => 30) 0
             (JobQueue.enqueue 0 7 Samples.order_data Webhook.job_options) in
  Webhook.alerts (JobQueue.log r)
    = [mkAlert (field (payload Samples.order_data) "id")
               "Cannot read properties of undefined (reading 'map')" 5
               (shopDomain Samples.order_data)]
  /\ JobQueue.state (JobQueue.final r) = JobQueue.Exhausted
  /\ (forall api made,
        made + 1 < Webhook.MAX_RETRIES ->
        Webhook.alerts
          (trace (Webhook.process_order api (Webhook.mkJob 7 Samples.order_data made)))
        = []).
Proof.
  apply (C5_alert_once_on_final_attempt Samples.queue_up (Some Samples.secret)
           Samples.order_request Samples.order_data (fun _ => Samples.api_up)
           (fun _ => "Cannot read properties of undefined (reading 'map')")
           (fun _ => 30) 0 0 7).
  - vm_compute. left. reflexivity.
  - intros n _. reflexivity.
Defined.

(** C5, counterexample: two jobs with the ids 7 and 8 and the same order
    raise the same alert at their fifth attempt; it names the order (42) and
    nothing in it tells the jobs apart. *)
Lemma C5_counterexample :
  Webhook.alerts
    (trace (Webhook.process_order Samples.api_down
              (Webhook.mkJob 7 Samples.full_order_data 4)))
  = [mkAlert (OfJson (Json.JNumber "42"))
             "Failed to sync after 3 attempts: HTTP 503" 5 (Some "demo.myshopify.com")]
  /\ Webhook.alerts
       (trace (Webhook.process_order Samples.api_down
                 (Webhook.mkJob 8 Samples.full_order_data 4)))
     = Webhook.alerts
         (trace (Webhook.process_order Samples.api_down
                   (Webhook.mkJob 7 Samples.full_order_data 4))).
Proof. vm_compute. split; reflexivity. Qed.

(** ** Doubles that hold integers *)

(** The definitions of [Number] agree with the Standard Library's
    specification of binary64 arithmetic: rounding an integer, rounding a
    product, and the ceiling of a quotient by 12. *)
Example rounding_agrees_with_binary64 :
  forallb (fun z => match Number.binary64_number (Number.binary64 z) with
                    | Some x => match x, Number.round z with
                                | Number.Finite a, Number.Finite b => a =? b
                                | Number.Infinity s, Number.Infinity s' => Bool.eqb s s'
                                | _, _ => false
                                end
                    | None => false
                    end)
    [0; 1; 12; 2 ^ 52 + 1; 2 ^ 53 - 1; 2 ^ 53; 2 ^ 53 + 1; 2 ^ 53 + 2; 2 ^ 53 + 3;
     2 ^ 53 + 5; 2 ^ 54 + 2; 2 ^ 54 + 6; 36028797018963972; 10 ^ 21; 10 ^ 23;
     - (2 ^ 53 + 3); 2 ^ 1024 - 2 ^ 970 - 1; 2 ^ 1024 - 2 ^ 970; - (2 ^ 1024)]
  = true
  /\ forallb (fun z =>
                match Number.binary64_number
                        (SFmul 53 1024 (Number.binary64 z) (Number.binary64 12)) with
                | Some (Number.Finite a) =>
                    match Number.round (Number.fl z * 12) with
                    | Number.Finite b => a =? b
                    | _ => false
                    end
                | _ => false
                end)
       [1; 2; 193; 750599937895082; 750599937895083; 3002399751580331;
        2 ^ 53 - 1; 2 ^ 60 + 2 ^ 10; -5]
     = true
  /\ forallb (fun z =>
                match Number.binary64_ceil
                        (SFdiv 53 1024 (Number.binary64 z) (Number.binary64 12)) with
                | Some c => c =? Number.ceil_quotient (Number.fl z) 12
                | None => false
                end)
       [1; 5; 11; 12; 13; 194; 2 ^ 53 - 7; 2 ^ 53; 2 ^ 54 + 4; 2 ^ 55 + 8;
        54043195528445968; 10 ^ 22; -1; -12; -13; -195]
     = true.
Proof. vm_compute. repeat split. Qed.

(** How numbers print, here and in JavaScript. *)
Example printed_numbers :
  map (fun z => Number.toString (Number.round z))
      [0; 24; -7; 2 ^ 53; 2 ^ 53 + 1; 2 ^ 55; 123456789012345680000; 10 ^ 21;
       123456789012345678901234567890; 2 ^ 1024 - 2 ^ 971; 2 ^ 1024]
  = ["0"; "24"; "-7"; "9007199254740992"; "9007199254740992"; "36028797018963970";
     "123456789012345680000"; "1e+21"; "1.2345678901234568e+29";
     "1.7976931348623157e+308"; "Infinity"].
Proof. vm_compute. reflexivity. Qed.

Lemma round_half_even_one (z : Z) : Number.round_half_even z 1 = z.
Proof.
  unfold Number.round_half_even. rewrite Z.div_1_r, Z.mod_1_r. reflexivity.
Qed.

Lemma binade_one (a : Z) : 0 < a -> Number.binade a 1 = Z.log2 a.
Proof.
  intros Ha. unfold Number.binade. change (Z.log2 1) with 0. rewrite Z.sub_0_r.
  pose proof (Z.log2_nonneg a) as Hl.
  pose proof (proj1 (Z.log2_spec a Ha)) as Hs.
  rewrite (Z.max_l 0 (- Z.log2 a)), (Z.max_r 0 (Z.log2 a)) by lia.
  destruct (Z.ltb_spec (a * 2 ^ 0) (1 * 2 ^ Z.log2 a)); [lia | reflexivity].
Qed.

Lemma fl_exact (z : Z) : Z.abs z <= 2 ^ 53 -> Number.fl z = z.
Proof.
  intros Hz. unfold Number.fl.
  destruct (Z.eqb_spec z 0) as [->|Hnz]; [reflexivity|].
  assert (Ha : 0 < Z.abs z) by lia.
  unfold Number.nearest. rewrite (binade_one _ Ha).
  destruct (Z.eq_dec (Z.abs z) (2 ^ 53)) as [E|E].
  - assert (Hz' : z = 2 ^ 53 \/ z = - 2 ^ 53) by lia.
    destruct Hz' as [->| ->]; vm_compute; reflexivity.
  - assert (Hl : Z.log2 (Z.abs z) < 53) by (apply Z.log2_lt_pow2; lia).
    pose proof (Z.log2_nonneg (Z.abs z)).
    rewrite (Z.max_l (Z.log2 (Z.abs z) - 52) (-1074)) by lia.
    set (e := Z.log2 (Z.abs z) - 52).
    rewrite (Z.max_r 0 (- e)), (Z.max_l 0 e) by lia.
    change (1 * 2 ^ 0) with 1. rewrite round_half_even_one.
    unfold Number.floor_of.
    destruct (Z.leb_spec 0 e).
    + replace e with 0 by lia. change (2 ^ (- 0)) with 1. change (2 ^ 0) with 1.
      rewrite !Z.mul_1_r. rewrite Z.mul_comm. apply Z.abs_sgn.
    + rewrite Z.div_mul by (apply Z.pow_nonzero; lia). rewrite Z.mul_comm. apply Z.abs_sgn.
Qed.

Lemma round_exact (z : Z) : Z.abs z <= 2 ^ 53 -> Number.round z = Number.Finite z.
Proof.
  intros Hz. unfold Number.round. rewrite (fl_exact z Hz).
  destruct (Z.leb_spec (2 ^ 1024) (Z.abs z)) as [H|H]; [|reflexivity].
  assert (2 ^ 53 < 2 ^ 1024) by (apply Z.pow_lt_mono_r; lia). lia.
Qed.

Lemma round_half_even_nonneg (num den : Z) :
  0 <= num -> 0 < den -> 0 <= Number.round_half_even num den.
Proof.
  intros Hn Hd. unfold Number.round_half_even. cbv zeta.
  pose proof (Z.div_pos num den Hn Hd).
  destruct (_ ?= _); [destruct (Z.even _)| |]; lia.
Qed.

Lemma floor_of_nonneg (m e : Z) : 0 <= m -> 0 <= Number.floor_of m e.
Proof.
  intros Hm. unfold Number.floor_of. destruct (Z.leb_spec 0 e).
  - apply Z.mul_nonneg_nonneg; [assumption | apply Z.pow_nonneg; lia].
  - apply Z.div_pos; [assumption | apply Z.pow_pos_nonneg; lia].
Qed.

Lemma nearest_nonneg (num den : Z) :
  0 <= num -> 0 < den -> 0 <= fst (Number.nearest num den).
Proof.
  intros Hn Hd. unfold Number.nearest. cbn [fst].
  apply round_half_even_nonneg.
  - apply Z.mul_nonneg_nonneg; [assumption | apply Z.pow_nonneg; lia].
  - apply Z.mul_pos_pos; [assumption | apply Z.pow_pos_nonneg; lia].
Qed.

Lemma fl_nonneg (z : Z) : 0 <= z -> 0 <= Number.fl z.
Proof.
  intros Hz. unfold Number.fl. destruct (z =? 0); [lia|].
  pose proof (nearest_nonneg (Z.abs z) 1 (Z.abs_nonneg z) eq_refl) as Hm.
  destruct (Number.nearest (Z.abs z) 1) as [m e]. cbn [fst] in Hm.
  pose proof (floor_of_nonneg m e Hm). pose proof (Z.sgn_nonneg z). nia.
Qed.

(** A number from [2 ^ 53] on does not round below [2 ^ 53]. *)
Lemma fl_large (v : Z) : 2 ^ 53 <= v -> 2 ^ 53 <= Number.fl v.
Proof.
  intros Hv. unfold Number.fl.
  destruct (Z.eqb_spec v 0) as [->|_]; [lia|].
  assert (Hp : 0 < v) by lia.
  rewrite (Z.abs_eq v), (Z.sgn_pos v) by lia.
  unfold Number.nearest. rewrite (binade_one v Hp).
  assert (Hl : 53 <= Z.log2 v) by (apply Z.log2_le_pow2; lia).
  rewrite (Z.max_l (Z.log2 v - 52) (-1074)) by lia.
  set (e := Z.log2 v - 52).
  rewrite (Z.max_l 0 (- e)), (Z.max_r 0 e) by lia.
  change (2 ^ 0) with 1. rewrite !Z.mul_1_l, Z.mul_1_r.
  unfold Number.floor_of. rewrite (proj2 (Z.leb_le 0 e)) by lia.
  assert (Hpow : 0 < 2 ^ e) by (apply Z.pow_pos_nonneg; lia).
  assert (Hq : 2 ^ 52 <= v / 2 ^ e).
  { apply Z.div_le_lower_bound; [assumption|].
    rewrite Z.mul_comm, <- Z.pow_add_r by lia.
    replace (52 + e) with (Z.log2 v) by lia.
    apply Z.log2_spec; assumption. }
  assert (Hm : v / 2 ^ e <= Number.round_half_even v (2 ^ e)).
  { unfold Number.round_half_even. cbv zeta.
    destruct (_ ?= _); [destruct (Z.even _)| |]; lia. }
  assert (He : 2 <= 2 ^ e).
  { change 2 with (2 ^ 1) at 1. apply Z.pow_le_mono_r; lia. }
  change (2 ^ 53) with (2 ^ 52 * 2). nia.
Qed.

Lemma ceil_unique (m s k : Z) : 0 < s -> (k - 1) * s < m <= k * s -> - ((- m) / s) = k.
Proof.
  intros Hs H.
  rewrite <- (Z.div_unique (- m) s (- k) (k * s - m)); lia.
Qed.

Lemma round_half_even_cases (num den : Z) :
  0 < den ->
  let q := num / den in
  let r := num mod den in
  (Number.round_half_even num den = q /\ 2 * r <= den)
  \/ (Number.round_half_even num den = q + 1 /\ den <= 2 * r).
Proof.
  intros Hd q r. unfold Number.round_half_even. fold q r.
  destruct (Z.compare_spec (2 * r) den); [destruct (Z.even q)| |]; lia.
Qed.

Lemma quotient_ceil_12 (a s : Z) :
  0 < a -> 8 <= s ->
  - ((- Number.round_half_even (a * s) 12) / s) = ProductList.ceil_div a 12.
Proof.
  intros Ha Hs. unfold ProductList.ceil_div.
  apply ceil_unique; [lia|].
  pose proof (Z.div_mod (- a) 12 ltac:(lia)) as D.
  pose proof (Z.mod_pos_bound (- a) 12 ltac:(lia)) as R.
  set (d := (- a) / 12) in *. set (r := (- a) mod 12) in *.
  pose proof (Z.div_mod (a * s) 12 ltac:(lia)) as D'.
  pose proof (Z.mod_pos_bound (a * s) 12 ltac:(lia)) as R'.
  destruct (round_half_even_cases (a * s) 12 ltac:(lia)) as [[-> H]|[-> H]];
    set (q := (a * s) / 12) in *; set (r' := (a * s) mod 12) in *; nia.
Qed.

Lemma binade_12 (a : Z) :
  0 < a <= 2 ^ 53 -> -4 <= Number.binade a 12 <= 49.
Proof.
  intros [Ha Hb]. unfold Number.binade. change (Z.log2 12) with 3.
  pose proof (Z.log2_nonneg a) as Hl.
  assert (Hu : Z.log2 a <= 53).
  { rewrite <- (Z.log2_pow2 53) by lia. apply Z.log2_le_mono. exact Hb. }
  set (l := Z.log2 a - 3).
  destruct (Z.ltb_spec (a * 2 ^ Z.max 0 (- l)) (12 * 2 ^ Z.max 0 l)) as [H|H]; [lia|].
  split; [lia|].
  destruct (Z.le_gt_cases l 49) as [L|L]; [exact L | exfalso].
  rewrite (Z.max_l 0 (- l)), (Z.max_r 0 l) in H by lia.
  assert (2 ^ 50 <= 2 ^ l) by (apply Z.pow_le_mono_r; lia).
  change (2 ^ 0) with 1 in H. lia.
Qed.

Lemma ceil_quotient_exact (a : Z) :
  0 <= a <= 2 ^ 53 -> Number.ceil_quotient a 12 = ProductList.ceil_div a 12.
Proof.
  intros [Ha Hb]. unfold Number.ceil_quotient.
  destruct (Z.eqb_spec a 0) as [->|Hnz]; [reflexivity|].
  rewrite (Z.abs_eq a) by lia. rewrite (proj2 (Z.ltb_lt 0 a)) by lia.
  unfold Number.nearest.
  pose proof (binade_12 a ltac:(lia)) as B.
  rewrite (Z.max_l (Number.binade a 12 - 52) (-1074)) by lia.
  set (e := Number.binade a 12 - 52) in *.
  rewrite (Z.max_r 0 (- e)), (Z.max_l 0 e) by lia.
  change (12 * 2 ^ 0) with 12.
  unfold Number.ceil_of. rewrite (proj2 (Z.leb_gt 0 e)) by lia.
  apply quotient_ceil_12; [lia|].
  change 8 with (2 ^ 3). apply Z.pow_le_mono_r; lia.
Qed.

Lemma ceil_quotient_nonpos (a b : Z) :
  a <= 0 -> 0 < b -> Number.ceil_quotient a b <= 0.
Proof.
  intros Ha Hb. unfold Number.ceil_quotient.
  destruct (Z.eqb_spec a 0) as [->|Hnz]; [lia|].
  rewrite (proj2 (Z.ltb_ge 0 a)) by lia.
  pose proof (nearest_nonneg (Z.abs a) b) as Hm.
  destruct (Number.nearest (Z.abs a) b) as [m e]. cbn [fst] in Hm.
  pose proof (floor_of_nonneg m e (Hm (Z.abs_nonneg a) Hb)). lia.
Qed.

Lemma string_of_Z_neg (z : Z) :
  z < 0 -> string_of_Z z = ("-" ++ string_of_Z (- z))%string.
Proof. destruct z; try lia. reflexivity. Qed.

Lemma round_trips_exact (a v : Z) :
  0 < a < 2 ^ 53 -> 0 <= v -> Number.round_trips a v = true -> v = a.
Proof.
  intros Ha Hv. unfold Number.round_trips.
  destruct (Z.le_gt_cases v (2 ^ 53)) as [L|L].
  - rewrite round_exact by lia. apply Z.eqb_eq.
  - unfold Number.round.
    pose proof (fl_large v ltac:(lia)) as F.
    destruct (_ <=? _); [discriminate|].
    intros H. apply Z.eqb_eq in H. lia.
Qed.

Lemma shortest_from_exact (ks : list Z) (a : Z) :
  0 < a < 2 ^ 53 -> Number.shortest_from ks a = a.
Proof.
  intros Ha. induction ks as [|k ks IH]; [reflexivity|].
  cbn [Number.shortest_from]. cbv zeta.
  set (unit := 10 ^ Z.max 0 (Number.digits a - k)).
  assert (Hu : 0 < unit) by (apply Z.pow_pos_nonneg; lia).
  pose proof (Z.div_mod a unit ltac:(lia)) as D.
  pose proof (Z.mod_pos_bound a unit Hu) as R.
  pose proof (Z.div_pos a unit ltac:(lia) Hu) as Q.
  set (lo := a / unit * unit).
  assert (Hlo : 0 <= lo <= a /\ a < lo + unit) by (unfold lo; nia).
  destruct (Number.round_trips a (lo + unit)) eqn:Thi.
  { apply round_trips_exact in Thi; lia. }
  destruct (Number.round_trips a lo) eqn:Tlo; [|exact IH].
  apply round_trips_exact in Tlo; lia.
Qed.

Lemma toString_exact (z : Z) :
  Z.abs z < 2 ^ 53 -> Number.toString (Number.Finite z) = string_of_Z z.
Proof.
  intros Hz.
  assert (P : forall a, 0 < a < 2 ^ 53 -> Number.positive_toString a = string_of_Z a).
  { intros a Ha. unfold Number.positive_toString, Number.shortest.
    rewrite shortest_from_exact by assumption.
    rewrite (proj2 (Z.ltb_lt a (10 ^ 21))) by lia. reflexivity. }
  unfold Number.toString.
  destruct (Z.eqb_spec z 0) as [->|Hnz]; [reflexivity|].
  destruct (Z.ltb_spec z 0).
  - rewrite P by lia. symmetry. now apply string_of_Z_neg.
  - apply P. lia.
Qed.

Lemma urlencoded_uint (d : Decimal.uint) :
  ProductList.urlencoded (NilEmpty.string_of_uint d) = NilEmpty.string_of_uint d.
Proof.
  induction d; cbn [NilEmpty.string_of_uint]; [reflexivity|..];
    (change (ProductList.urlencoded (String ?c ?r))
       with (String c (ProductList.urlencoded r)); now rewrite IHd).
Qed.

Lemma urlencoded_integer (z : Z) :
  ProductList.urlencoded (string_of_Z z) = string_of_Z z.
Proof.
  assert (U : forall d, ProductList.urlencoded (NilZero.string_of_uint d)
                        = NilZero.string_of_uint d).
  { intros d. pose proof (urlencoded_uint d) as H. destruct d; try exact H. reflexivity. }
  unfold string_of_Z, NilZero.string_of_int.
  destruct (Z.to_int z) as [d|d]; [apply U|].
  change (ProductList.urlencoded (String "-" ?r))
    with (String "-" (ProductList.urlencoded r)).
  now rewrite U.
Qed.

Lemma limit_parameter :
  ProductList.urlencoded (Number.toString (Number.Finite ProductList.itemsPerPage)) = "12".
Proof. vm_compute. reflexivity. Qed.

(** ** C9: the paginated list consumer *)

Lemma ceil_div_spec (a b : Z) :
  0 < b -> b * (ProductList.ceil_div a b - 1) < a <= b * ProductList.ceil_div a b.
Proof.
  intros Hb. unfold ProductList.ceil_div.
  pose proof (Z.mul_div_le (- a) b Hb).
  pose proof (Z.mul_succ_div_gt (- a) b Hb). lia.
Qed.

(** The page count is exact up to [2 ^ 53] items. *)
Lemma page_count_exact (total : Z) :
  total <= 2 ^ 53 ->
  ProductList.page_count (Some total)
  = Some (Z.max 1 (ProductList.ceil_div total ProductList.itemsPerPage)).
Proof.
  intros Ht. unfold ProductList.page_count, ProductList.itemsPerPage. f_equal.
  destruct (Z.le_gt_cases 0 total) as [P|N].
  - now rewrite ceil_quotient_exact by lia.
  - pose proof (ceil_quotient_nonpos total 12 ltac:(lia) eq_refl).
    pose proof (ceil_div_spec total 12 eq_refl). lia.
Qed.

(** The offset is exact while it is below [2 ^ 53] in size, and then prints
    with all its digits. *)
Lemma skip_exact (st : ProductList.State) :
  Z.abs ((ProductList.currentPage st - 1) * ProductList.itemsPerPage) < 2 ^ 53 ->
  ProductList.skip st
  = Number.Finite ((ProductList.currentPage st - 1) * ProductList.itemsPerPage)
  /\ ProductList.urlencoded (Number.toString (ProductList.skip st))
     = string_of_Z ((ProductList.currentPage st - 1) * ProductList.itemsPerPage).
Proof.
  unfold ProductList.skip, ProductList.itemsPerPage. intros H.
  rewrite (fl_exact (ProductList.currentPage st - 1)) by lia.
  rewrite round_exact by lia.
  split; [reflexivity|].
  rewrite toString_exact by lia. apply urlencoded_integer.
Qed.

(** C9 (as amended): without a search term, every page load whose offset
    [(page - 1) * 12] is below [2 ^ 53] issues
    [GET apiUrl?limit=12&skip=(page-1)*12], and from an answer of the shape
    [{products: [...], total: integer}] it takes the [products] array as the
    list and, for a total of at most [2 ^ 53], [max(1, ceil(total / 12))] as
    the page count. *)
Theorem C9_paginated_request
    (fetch : ProductList.HttpRequest -> ProductList.FetchOutcome)
    (apiUrl : string) (st : ProductList.State) :
  ProductList.debouncedSearch st = EmptyString ->
  Z.abs ((ProductList.currentPage st - 1) * ProductList.itemsPerPage) < 2 ^ 53 ->
  let req := fst (ProductList.fetchProducts fetch apiUrl st) in
  let st' := snd (ProductList.fetchProducts fetch apiUrl st) in
  req = ProductList.mkHttpRequest "GET"
          (apiUrl ++ "?limit=12&skip="
           ++ string_of_Z ((ProductList.currentPage st - 1) * ProductList.itemsPerPage))
          "application/json"
  /\ (forall code text data items total,
        fetch req = ProductList.Fetched
                      (ProductList.mkHttpResponse true code text
                         (ProductList.Parsed data)) ->
        ProductList.member "products" data = Some (ProductList.FArray items) ->
        ProductList.member "total" data = Some (ProductList.FNumber total) ->
        total <= 2 ^ 53 ->
        ProductList.products st' = ProductList.FArray items
        /\ ProductList.totalPages st'
           = Some (Z.max 1 (ProductList.ceil_div total ProductList.itemsPerPage))
        /\ ProductList.status st' = ProductList.Success
        /\ ProductList.currentPage st' = ProductList.currentPage st).
Proof.
  intros Hs Hr req st'. subst req st'.
  unfold ProductList.fetchProducts. cbn [fst snd]. split.
  - unfold ProductList.request_of. rewrite Hs. cbn [ProductList.is_empty].
    rewrite limit_parameter, (proj2 (skip_exact st Hr)). reflexivity.
  - intros code text data items total Hf Hp Ht Hb.
    rewrite Hf. cbn [negb ProductList.ok ProductList.body].
    rewrite Hp, Ht. cbn [ProductList.or_default ProductList.truthy].
    destruct (Z.eqb_spec total 0) as [->|Hne];
      cbn [negb ProductList.Number ProductList.products ProductList.totalPages
           ProductList.status ProductList.currentPage].
    + repeat split.
    + rewrite (page_count_exact total Hb). repeat split.
Qed.

(** C9, witness: the third page against a server that answers
    [{products, total}]. *)
Lemma C9_witness :
  let req := fst (ProductList.fetchProducts Samples.products_server
                    "https://dummyjson.com/products" Samples.page3) in
  let st' := snd (ProductList.fetchProducts Samples.products_server
                    "https://dummyjson.com/products" Samples.page3) in
  req = ProductList.mkHttpRequest "GET"
          ("https://dummyjson.com/products" ++ "?limit=12&skip="
           ++ string_of_Z ((ProductList.currentPage Samples.page3 - 1)
                           * ProductList.itemsPerPage))
          "application/json"
  /\ (forall code text data items total,
        Samples.products_server req
          = ProductList.Fetched
              (ProductList.mkHttpResponse true code text (ProductList.Parsed data)) ->
        ProductList.member "products" data = Some (ProductList.FArray items) ->
        ProductList.member "total" data = Some (ProductList.FNumber total) ->
        total <= 2 ^ 53 ->
        ProductList.products st' = ProductList.FArray items
        /\ ProductList.totalPages st'
           = Some (Z.max 1 (ProductList.ceil_div total ProductList.itemsPerPage))
        /\ ProductList.status st' = ProductList.Success
        /\ ProductList.currentPage st' = ProductList.currentPage Samples.page3).
Proof.
  apply (C9_paginated_request Samples.products_server
           "https://dummyjson.com/products" Samples.page3).
  - reflexivity.
  - vm_compute. reflexivity.
Defined.

(** The third page, evaluated: the URL, the list and the 17 pages of 194
    products. *)
Example third_page :
  ProductList.fetchProducts Samples.products_server
    "https://dummyjson.com/products" Samples.page3
  = (ProductList.mkHttpRequest "GET"
       "https://dummyjson.com/products?limit=12&skip=24" "application/json",
     ProductList.mkState (ProductList.FArray [Samples.phone]) ProductList.Success
       None 3 (Some 17) EmptyString).
Proof. vm_compute. reflexivity. Qed.

(** C9, counterexample: from an answer of the shape [{items, total}] the
    component takes no list at all, while the same elements under [products]
    are taken.  A total of 54043195528445968 gives 4503599627370497 pages,
    one fewer than [ceil(total / 12)]; and page 3002399751580332 asks for
    [skip=36028797018963970], which is not [(page - 1) * 12]. *)
Lemma C9_counterexample :
  (ProductList.products
     (snd (ProductList.fetchProducts Samples.items_server
             "https://dummyjson.com/products" Samples.page3))
   = ProductList.FArray []
   /\ ProductList.products
        (snd (ProductList.fetchProducts Samples.products_server
                "https://dummyjson.com/products" Samples.page3))
      = ProductList.FArray [Samples.phone])
  /\ (ProductList.totalPages
        (snd (ProductList.fetchProducts Samples.vast_server
                "https://dummyjson.com/products" Samples.page3))
      = Some 4503599627370497
      /\ ProductList.ceil_div 54043195528445968 12 = 4503599627370498)
  /\ (ProductList.url
        (fst (ProductList.fetchProducts Samples.products_server
                "https://dummyjson.com/products" Samples.far_page))
      = "https://dummyjson.com/products?limit=12&skip=36028797018963970"
      /\ (ProductList.currentPage Samples.far_page - 1) * 12 = 36028797018963972).
Proof. vm_compute. repeat split. Qed.

(** With a search term the parameters are appended after a second [?]:
    the query then holds [q] and [skip], and no [limit]. *)
Example search_request_query :
  ProductList.url
    (ProductList.request_of "https://dummyjson.com/products" Samples.page3_search)
  = "https://dummyjson.com/products/search?q=phone?limit=12&skip=24"
  /\ ProductList.query_params
       (ProductList.url
          (ProductList.request_of "https://dummyjson.com/products" Samples.page3_search))
     = [("q", "phone?limit=12"); ("skip", "24")].
Proof. vm_compute. split; reflexivity. Qed.

(** ** Two scenarios, end to end *)

(** A signed [orders/create] request is acknowledged with 200 and enqueued
    once; the worker then runs the handler once, which calls the internal
    system once, and the job is Succeeded. *)
Example scenario_order_created :
  let m := Webhook.post_orders Samples.queue_up (Some Samples.secret)
             Samples.shirt_request in
  let data := mkJobData Samples.shirt_payload (Some "orders/create")
                        (Some "demo.myshopify.com") in
  let r := JobQueue.run_job (fun _ => Webhook.process_order Samples.api_up)
             (fun _ => 30) 0 (JobQueue.enqueue 0 7 data Webhook.job_options) in
  Webhook.responses (trace m)
    = [mkResponse 200 (AckJson true (OfJson (Json.JNumber "42")))]
  /\ Webhook.enqueued (trace m) = [data]
  /\ JobQueue.state (JobQueue.final r) = JobQueue.Succeeded
  /\ JobQueue.attemptCount (JobQueue.final r) = 1
  /\ Webhook.internal_calls (JobQueue.log r) = [1]
  /\ Webhook.alerts (JobQueue.log r) = [].
Proof. vm_compute. repeat split. Qed.

(** A request whose body was changed after signing is answered 401 and
    nothing is enqueued. *)
Example scenario_tampered_body :
  let m := Webhook.post_orders Samples.queue_up (Some Samples.secret)
             Samples.tampered_body_request in
  Webhook.responses (trace m) = [mkResponse 401 (ErrorJson "Invalid HMAC signature")]
  /\ Webhook.enqueued (trace m) = [].
Proof. vm_compute. repeat split. Qed.

(** * Further properties of the webhook handler *)

Lemma outcome_bind {A B : Type} (m : M A) (k : A -> M B) :
  outcome (bind m k)
  = match outcome m with
    | Normal a => outcome (k a)
    | Throw e => Throw e
    end.
Proof. destruct m as [t [a|e]]; cbn; [destruct (k a)|]; reflexivity. Qed.

Lemma responses_app (a b : list Event) :
  Webhook.responses (a ++ b) = (Webhook.responses a ++ Webhook.responses b)%list.
Proof. induction a as [|[] a IH]; cbn; rewrite ?IH; reflexivity. Qed.

(** The middleware ends in exactly one of two ways: it has sent one error
    response, 401 or 500, and does not call [next()]; or it has sent nothing
    and calls [next()] with [req.shopifyPayload] set to the parsed body.  It
    does the second exactly when a secret is configured, the body was
    buffered, the header is the digest of the body and the body is JSON. *)
Theorem middleware_answers_or_hands_on (secret : option string) (req : Webhook.Request) :
  let m := Webhook.verifyShopifyWebhook secret req in
  ((outcome m = Normal Webhook.Rejected
    /\ exists code err,
         Webhook.responses (trace m) = [mkResponse code (ErrorJson err)]
         /\ (code = 401 \/ code = 500))
   \/ (exists key p,
         outcome m = Normal (Webhook.Proceed p)
         /\ Webhook.responses (trace m) = []
         /\ secret = Some key
         /\ Webhook.hmacHeader req = Some (Webhook.expected_signature key req)
         /\ Json.parse (Webhook.rawBody req) = Some p
         /\ Webhook.buffered req = true))
  /\ (forall key p,
        secret = Some key ->
        Webhook.buffered req = true ->
        Webhook.hmacHeader req = Some (Webhook.expected_signature key req) ->
        Json.parse (Webhook.rawBody req) = Some p ->
        outcome m = Normal (Webhook.Proceed p)).
Proof.
  cbv zeta. split.
  - destruct (verify_inv secret req) as [(lvl & msg & meta & code & err & E & Hc)
                                        |(k & p & Hs & Hh & Hp & E & Hb)]; rewrite E.
    + left. split; [reflexivity|]. exists code, err. split; [reflexivity | exact Hc].
    + right. exists k, p. repeat split; assumption.
  - intros key p -> B Hh P. rewrite (verify_match key req B Hh), P. reflexivity.
Qed.

(** Whatever the request and whatever the queue does, the endpoint sends at
    most one response and calls [queue.add] at most once, and it calls
    [queue.add] exactly when the response it sent is the 200
    acknowledgment. *)
Theorem one_response_one_job
    (queue_add : string -> JobData -> JobOptions -> Completion Z)
    (secret : option string) (req : Webhook.Request) :
  let t := trace (Webhook.post_orders queue_add secret req) in
  (List.length (Webhook.responses t) <= 1)%nat
  /\ (List.length (Webhook.enqueued t) <= 1)%nat
  /\ (Webhook.enqueued t <> []
      <-> exists id, Webhook.responses t = [mkResponse 200 (AckJson true id)]).
Proof.
  cbv zeta.
  destruct (verify_inv secret req) as [(lvl & msg & meta & code & err & E & Hc)
                                      |(k & p & _ & _ & _ & E & _)].
  - rewrite (post_orders_rejected queue_add secret req _ _ _ _ _ E). cbn.
    repeat split; auto.
    + intros H. now contradiction H.
    + intros [id H]. discriminate H.
  - rewrite (post_orders_proceed queue_add secret req p) by now rewrite E.
    destruct (json_null_dec p) as [->|Hp].
    + rewrite ordersHandler_null. cbn. repeat split; auto.
      * intros H. now contradiction H.
      * intros [id H]. discriminate H.
    + rewrite (ordersHandler_not_null queue_add req p Hp).
      destruct (queue_add _ _ _); cbn; repeat split; auto;
        try (intros _; eexists; reflexivity); discriminate.
Qed.

(** Nothing reaches the queue without a matching signature: every call of
    [queue.add] is for a request whose header is the digest of its body
    under the configured secret, under the name [process-order], with the
    parsed body unchanged, the request's topic and shop headers, and the
    options 5 attempts / exponential / 1000 ms. *)
Theorem enqueue_only_verified
    (queue_add : string -> JobData -> JobOptions -> Completion Z)
    (secret : option string) (req : Webhook.Request)
    (name : string) (data : JobData) (opts : JobOptions) :
  In (QueueAdd name data opts) (trace (Webhook.post_orders queue_add secret req)) ->
  (exists key, secret = Some key
               /\ Webhook.hmacHeader req = Some (Webhook.expected_signature key req))
  /\ name = "process-order"
  /\ opts = mkJobOptions 5 "exponential" 1000 false false
  /\ Json.parse (Webhook.rawBody req) = Some (payload data)
  /\ payload data <> Json.JNull
  /\ topic data = Webhook.topicHeader req
  /\ shopDomain data = Webhook.shopHeader req.
Proof.
  destruct (verify_inv secret req) as [(lvl & msg & meta & code & err & E & _)
                                      |(k & p & Hs & Hh & Hp & E & Hb)].
  - rewrite (post_orders_rejected queue_add secret req _ _ _ _ _ E).
    intros [H|[H|[]]]; discriminate H.
  - rewrite (post_orders_proceed queue_add secret req p) by now rewrite E.
    destruct (json_null_dec p) as [->|Hnn].
    + rewrite ordersHandler_null. intros [H|[H|[]]]; discriminate H.
    + rewrite (ordersHandler_not_null queue_add req p Hnn).
      cbn [trace fst app].
      intros [H|[H|[H|[H|H]]]]; try discriminate H.
      * injection H as <- <- <-. cbn. repeat split; eauto.
      * destruct (queue_add _ _ _); cbn in H;
          repeat (destruct H as [H|H]; try discriminate H); contradiction.
Qed.

(** The signed order, enqueued. *)
Lemma enqueue_only_verified_witness :
  (exists key, Some Samples.secret = Some key
               /\ Webhook.hmacHeader Samples.order_request
                  = Some (Webhook.expected_signature key Samples.order_request))
  /\ "process-order" = "process-order"
  /\ Webhook.job_options = mkJobOptions 5 "exponential" 1000 false false
  /\ Json.parse (Webhook.rawBody Samples.order_request)
     = Some (payload Samples.order_data)
  /\ payload Samples.order_data <> Json.JNull
  /\ topic Samples.order_data = Webhook.topicHeader Samples.order_request
  /\ shopDomain Samples.order_data = Webhook.shopHeader Samples.order_request.
Proof.
  apply (enqueue_only_verified Samples.queue_up (Some Samples.secret)
           Samples.order_request "process-order" Samples.order_data
           Webhook.job_options).
  vm_compute. right. right. right. left. reflexivity.
Defined.

(** Without a configured secret the endpoint fails closed: no request is
    handed on or enqueued; a request without signature header is answered
    401 and every other request 500. *)
Theorem no_secret_fails_closed
    (queue_add : string -> JobData -> JobOptions -> Completion Z)
    (req : Webhook.Request) :
  let t := trace (Webhook.post_orders queue_add None req) in
  Webhook.proceeds None req = false
  /\ Webhook.enqueued t = []
  /\ Webhook.responses t
     = match Webhook.hmacHeader req with
       | None | Some EmptyString =>
           [mkResponse 401 (ErrorJson "Missing HMAC signature")]
       | Some _ => [mkResponse 500 (ErrorJson "Internal server error")]
       end.
Proof.
  cbv zeta. unfold Webhook.proceeds.
  destruct (Webhook.hmacHeader req) as [[|c h]|] eqn:Hh.
  - pose proof (verify_missing None req (or_intror Hh)) as E.
    rewrite E, (post_orders_rejected queue_add None req _ _ _ _ _ E). repeat split.
  - pose proof (verify_no_secret req c h Hh) as E.
    rewrite E, (post_orders_rejected queue_add None req _ _ _ _ _ E). repeat split.
  - pose proof (verify_missing None req (or_introl Hh)) as E.
    rewrite E, (post_orders_rejected queue_add None req _ _ _ _ _ E). repeat split.
Qed.

(** A signature header that is not empty and whose UTF-8 length is not the
    44 bytes of a Base64 SHA-256 digest is answered 500 'Internal server
    error', whatever the body; nothing is enqueued, and the error is logged.
    On a buffered body it is [timingSafeEqual] that throws. *)
Theorem wrong_length_header_is_500
    (queue_add : string -> JobData -> JobOptions -> Completion Z)
    (secret : string) (req : Webhook.Request) (header : string) :
  Webhook.hmacHeader req = Some header ->
  header <> EmptyString ->
  List.length (Bytes.Buffer_from header) <> 44%nat ->
  let t := trace (Webhook.post_orders queue_add (Some secret) req) in
  Webhook.responses t = [mkResponse 500 (ErrorJson "Internal server error")]
  /\ Webhook.enqueued t = []
  /\ exists message,
       In (Log Error "Error verifying webhook" [("error", Str message)]) t
       /\ (Webhook.buffered req = true ->
           message = "Input buffers must have the same byte length").
Proof.
  intros Hh Hne Hlen t. subst t.
  destruct (buffered_dec req) as [B|B].
  - pose proof (verify_wrong_length secret req B header Hh Hne Hlen) as E.
    rewrite (post_orders_rejected queue_add (Some secret) req _ _ _ _ _ E).
    split; [reflexivity|]. split; [reflexivity|].
    eexists. split; [left; reflexivity|]. reflexivity.
  - destruct header as [|c h]; [congruence|].
    pose proof (verify_unbuffered secret req c h Hh B) as E.
    rewrite (post_orders_rejected queue_add (Some secret) req _ _ _ _ _ E).
    split; [reflexivity|]. split; [reflexivity|].
    eexists. split; [left; reflexivity|]. congruence.
Qed.

(** The header [abc]. *)
Lemma wrong_length_header_is_500_witness :
  let t := trace (Webhook.post_orders Samples.queue_up (Some Samples.secret)
                    Samples.short_header_request) in
  Webhook.responses t = [mkResponse 500 (ErrorJson "Internal server error")]
  /\ Webhook.enqueued t = []
  /\ exists message,
       In (Log Error "Error verifying webhook" [("error", Str message)]) t
       /\ (Webhook.buffered Samples.short_header_request = true ->
           message = "Input buffers must have the same byte length").
Proof.
  apply (wrong_length_header_is_500 Samples.queue_up Samples.secret
           Samples.short_header_request "abc").
  - reflexivity.
  - discriminate.
  - vm_compute. discriminate.
Defined.

(** ** The processor and its handlers *)

Section HandlerOutcomes.

Variable api : Z -> option string.

(** The sync step succeeds exactly when one of its three calls does. *)
Lemma sync_outcome (o : Webhook.OrderData) :
  (exists b, outcome (Webhook.syncOrderToInternalSystem api o) = Normal b)
  <-> api 0 = None \/ api 1 = None \/ api 2 = None.
Proof.
  unfold Webhook.syncOrderToInternalSystem.
  change (Z.to_nat Webhook.maxRetries) with 3%nat.
  cbn [Webhook.sync_loop].
  change (0 <? Webhook.maxRetries) with true.
  change (0 <? Webhook.maxRetries - 1) with true.
  change (0 + 1 <? Webhook.maxRetries) with true.
  change (0 + 1 <? Webhook.maxRetries - 1) with true.
  change (0 + 1 + 1 <? Webhook.maxRetries) with true.
  change (0 + 1 + 1 <? Webhook.maxRetries - 1) with false.
  change (0 + 1 + 1 + 1 <? Webhook.maxRetries) with false.
  change (api (0 + 1)) with (api 1). change (api (0 + 1 + 1)) with (api 2).
  destruct (api 0) as [e0|]; [|cbn; split; eauto].
  destruct (api 1) as [e1|]; [|cbn; split; eauto].
  destruct (api 2) as [e2|]; cbn; split; eauto.
  - intros [b H]. discriminate H.
  - intros [H|[H|H]]; discriminate H.
Qed.

Lemma line_item_ok (item : Json.value) :
  (exists li, Webhook.line_item item = Normal li)
  <-> item <> Json.JNull /\ Webhook.has_string (field item "price") = true.
Proof.
  destruct (json_null_dec item) as [->|Hi].
  - cbn. split; [intros [li H]; discriminate H | intros [H _]; now contradiction H].
  - unfold Webhook.line_item, Webhook.parseFloat.
    rewrite !(get_prop_field item _ Hi).
    destruct (Webhook.has_string (field item "price")); split; eauto.
    + intros [li H]. discriminate H.
    + intros [_ H]. discriminate H.
Qed.

Lemma map_line_items_ok (items : list Json.value) :
  (exists lis, Webhook.map_line_items items = Normal lis)
  <-> forall item, In item items ->
        item <> Json.JNull /\ Webhook.has_string (field item "price") = true.
Proof.
  induction items as [|item items IH]; cbn [Webhook.map_line_items In].
  - split; [intros _ item [] | eauto].
  - pose proof (line_item_ok item) as L.
    destruct (Webhook.line_item item) as [li|m].
    + destruct (Webhook.map_line_items items) as [lis|m'].
      * split; [|eauto]. intros _ x [<-|Hx]; [apply L; eauto | apply IH; eauto].
      * split; [intros [lis H]; discriminate H|].
        intros H. destruct (proj2 IH) as [lis H']; [auto | discriminate H'].
    + split; [intros [lis H]; discriminate H|].
      intros H. destruct (proj2 L) as [li Hli]; [auto | discriminate Hli].
Qed.

End HandlerOutcomes.

Lemma internal_calls_app (a b : list Event) :
  Webhook.internal_calls (a ++ b)
  = (Webhook.internal_calls a ++ Webhook.internal_calls b)%list.
Proof. induction a as [|[] a IH]; cbn; rewrite ?IH; reflexivity. Qed.

(** As the source stands, the handlers of [orders/updated], [orders/paid]
    and [orders/fulfilled] only log: for every job of these topics with a
    payload other than [null] the processor returns the success value, raises
    no alert and never calls the internal system. *)
Theorem logging_handlers_always_succeed
    (api : Z -> option string) (job : Webhook.Job) (t : string) :
  topic (Webhook.job_data job) = Some t ->
  In t ["orders/updated"; "orders/paid"; "orders/fulfilled"] ->
  payload (Webhook.job_data job) <> Json.JNull ->
  let m := Webhook.process_order api job in
  outcome m
    = Normal (Webhook.mkResult true (field (payload (Webhook.job_data job)) "id"))
  /\ Webhook.alerts (trace m) = []
  /\ Webhook.internal_calls (trace m) = [].
Proof.
  intros Ht Hin Hp m. subst m.
  unfold Webhook.process_order, Webhook.dispatch. rewrite Ht.
  destruct Hin as [<-|[<-|[<-|[]]]]; cbn [Webhook.route String.eqb Ascii.eqb Bool.eqb];
    cbn [Webhook.run_handler];
    unfold Webhook.handleOrderUpdate, Webhook.handleOrderPaid,
      Webhook.handleOrderFulfilled;
    rewrite !(get_prop_field _ _ Hp); cbn; repeat split.
Qed.

(** An [orders/paid] job for the order 42. *)
Lemma logging_handlers_always_succeed_witness :
  let job := Webhook.mkJob 7 (mkJobData (Json.JObject [("id", Json.JNumber "42")])
                                (Some "orders/paid") (Some "demo.myshopify.com")) 0 in
  let m := Webhook.process_order Samples.api_down job in
  outcome m
    = Normal (Webhook.mkResult true (field (payload (Webhook.job_data job)) "id"))
  /\ Webhook.alerts (trace m) = []
  /\ Webhook.internal_calls (trace m) = [].
Proof.
  apply (logging_handlers_always_succeed Samples.api_down
           (Webhook.mkJob 7 (mkJobData (Json.JObject [("id", Json.JNumber "42")])
                               (Some "orders/paid") (Some "demo.myshopify.com")) 0)
           "orders/paid").
  - reflexivity.
  - cbn. auto.
  - discriminate.
Defined.

Lemma line_items_map_ok (v : JSVal) :
  (exists lis, Webhook.line_items_map v = Normal lis)
  <-> exists items,
        v = OfJson (Json.JArray items)
        /\ forall item, In item items ->
             item <> Json.JNull /\ Webhook.has_string (field item "price") = true.
Proof.
  split.
  - intros [lis H]. destruct v as [|[]| |]; cbn in H; try discriminate H.
    eexists. split; [reflexivity|]. apply map_line_items_ok. eauto.
  - intros (items & -> & H). cbn. now apply map_line_items_ok.
Qed.

Lemma handleOrderCreate_outcome (api : Z -> option string) (p : Json.value) :
  p <> Json.JNull ->
  (exists u, outcome (Webhook.handleOrderCreate api p) = Normal u)
  <-> Webhook.has_string (field p "total_price") = true
      /\ (exists lis, Webhook.line_items_map (field p "line_items") = Normal lis)
      /\ (api 0 = None \/ api 1 = None \/ api 2 = None).
Proof.
  intros Hp. unfold Webhook.handleOrderCreate, Webhook.parseFloat.
  rewrite !(get_prop_field p _ Hp).
  cbn [lift bind emit ret app outcome snd].
  destruct (Webhook.has_string (field p "total_price")).
  2:{ cbn. split; [intros [u H]; discriminate H | intros [H _]; discriminate H]. }
  cbn [lift bind emit ret app outcome snd].
  destruct (Webhook.line_items_map (field p "line_items")) as [lis|m].
  - cbn [lift bind emit ret app outcome snd].
    match goal with
    | |- context [Webhook.syncOrderToInternalSystem api ?o] =>
        pose proof (sync_outcome api o) as S;
        destruct (Webhook.syncOrderToInternalSystem api o) as [t [b|e]]
    end; cbn in S |- *.
    + split; [intros _; repeat split; [eauto | apply S; eauto] | eauto].
    + split; [intros [u H]; discriminate H|].
      intros (_ & _ & H). apply S in H as [b H]. discriminate H.
  - cbn. split; [intros [u H]; discriminate H|].
    intros (_ & [lis H] & _). discriminate H.
Qed.

(** An [orders/create] job with a payload other than [null] is processed
    successfully exactly when [payload.total_price] has a string for
    [parseFloat], [payload.line_items] is an array whose elements are not
    [null] and have such a [price], and one of the three calls of the internal
    system succeeds.  In particular a payload without [line_items] fails at
    every attempt, whatever the internal system does. *)
Theorem order_create_succeeds_iff (api : Z -> option string) (job : Webhook.Job) :
  topic (Webhook.job_data job) = Some "orders/create" ->
  payload (Webhook.job_data job) <> Json.JNull ->
  (exists r, outcome (Webhook.process_order api job) = Normal r)
  <-> Webhook.has_string (field (payload (Webhook.job_data job)) "total_price") = true
      /\ (exists items,
            field (payload (Webhook.job_data job)) "line_items"
              = OfJson (Json.JArray items)
            /\ forall item, In item items ->
                 item <> Json.JNull
                 /\ Webhook.has_string (field item "price") = true)
      /\ (api 0 = None \/ api 1 = None \/ api 2 = None).
Proof.
  intros Ht Hp.
  rewrite <- line_items_map_ok, <- (handleOrderCreate_outcome api _ Hp).
  pose proof (process_order_spec api job Hp) as H. cbv zeta in H.
  unfold Webhook.dispatch in H. rewrite Ht in H.
  cbn [Webhook.route String.eqb Ascii.eqb Bool.eqb Webhook.run_handler] in H.
  destruct (outcome (Webhook.handleOrderCreate api _)) as [[]|e].
  - destruct H as [H _]. rewrite H. split; eauto.
  - destruct H as [H _]. rewrite H. split; intros [u Hu]; discriminate Hu.
Qed.

(** The order with a price and one line item, while the internal system
    answers. *)
Lemma order_create_succeeds_iff_witness :
  let job := Webhook.mkJob 7
               (mkJobData Samples.shirt_payload (Some "orders/create")
                          (Some "demo.myshopify.com")) 0 in
  (exists r, outcome (Webhook.process_order Samples.api_up job) = Normal r)
  <-> Webhook.has_string (field (payload (Webhook.job_data job)) "total_price") = true
      /\ (exists items,
            field (payload (Webhook.job_data job)) "line_items"
              = OfJson (Json.JArray items)
            /\ forall item, In item items ->
                 item <> Json.JNull
                 /\ Webhook.has_string (field item "price") = true)
      /\ (Samples.api_up 0 = None \/ Samples.api_up 1 = None \/ Samples.api_up 2 = None).
Proof.
  apply (order_create_succeeds_iff Samples.api_up
           (Webhook.mkJob 7
              (mkJobData Samples.shirt_payload (Some "orders/create")
                         (Some "demo.myshopify.com")) 0)).
  - reflexivity.
  - discriminate.
Defined.

(** An order whose [total_price] is an object with a [toString] member:
    [parseFloat] throws before the internal system is called. *)
Example unconvertible_price_fails :
  let job :=
    Webhook.mkJob 7
      (mkJobData
         (Json.JObject
            [("id", Json.JNumber "42"); ("line_items", Json.JArray []);
             ("total_price", Json.JObject [("toString", Json.JNumber "1")])])
         (Some "orders/create") (Some "demo.myshopify.com")) 0 in
  outcome (Webhook.process_order Samples.api_up job)
    = Throw "Cannot convert object to primitive value"
  /\ Webhook.internal_calls (trace (Webhook.process_order Samples.api_up job)) = [].
Proof. vm_compute. split; reflexivity. Qed.

(** One run of the processor raises at most one alert; it raises one
    exactly when the handler throws at an attempt numbered 5 or more, and the
    alert then carries the message of the very error the processor rethrows,
    the attempt number, [payload.id] and the shop domain. *)
Theorem alert_on_late_failure_only (api : Z -> option string) (job : Webhook.Job) :
  payload (Webhook.job_data job) <> Json.JNull ->
  let m := Webhook.process_order api job in
  (List.length (Webhook.alerts (trace m)) <= 1)%nat
  /\ (Webhook.alerts (trace m) <> []
      <-> (exists e, outcome m = Throw e)
          /\ Webhook.MAX_RETRIES <= Webhook.attemptsMade job + 1)
  /\ (forall d, In d (Webhook.alerts (trace m)) ->
        outcome m = Throw (alert_error d)
        /\ alert_attempts d = Webhook.attemptsMade job + 1
        /\ alert_orderId d = field (payload (Webhook.job_data job)) "id"
        /\ alert_shopDomain d = shopDomain (Webhook.job_data job)).
Proof.
  intros Hp m. subst m.
  pose proof (process_order_spec api job Hp) as H. cbv zeta in H.
  destruct (outcome (Webhook.dispatch api _ _)) as [u|e]; destruct H as [Ho Ha];
    rewrite Ho, Ha.
  - cbn. split; [lia|]. split.
    + split; [intros X; now contradiction X | intros [[e X] _]; discriminate X].
    + intros d [].
  - destruct (Z.leb_spec Webhook.MAX_RETRIES (Webhook.attemptsMade job + 1)) as [L|L];
      cbn; (split; [lia|]); split.
    + split; [intros _; split; [eauto | exact L] | intros _; discriminate].
    + intros d [<-|[]]. cbn. auto.
    + split; [intros X; now contradiction X | intros [_ X]; lia].
    + intros d [].
Qed.

(** The fifth attempt of the order without line items. *)
Lemma alert_on_late_failure_only_witness :
  let m := Webhook.process_order Samples.api_up
             (Webhook.mkJob 7 Samples.order_data 4) in
  (List.length (Webhook.alerts (trace m)) <= 1)%nat
  /\ (Webhook.alerts (trace m) <> []
      <-> (exists e, outcome m = Throw e) /\ Webhook.MAX_RETRIES <= 4 + 1)
  /\ (forall d, In d (Webhook.alerts (trace m)) ->
        outcome m = Throw (alert_error d)
        /\ alert_attempts d = 4 + 1
        /\ alert_orderId d = field (payload Samples.order_data) "id"
        /\ alert_shopDomain d = shopDomain Samples.order_data).
Proof.
  apply (alert_on_late_failure_only Samples.api_up
           (Webhook.mkJob 7 Samples.order_data 4)).
  discriminate.
Defined.

(** The order id acknowledged to the producer is the one the processor
    reports: for a job the endpoint enqueued, a successful run returns
    [success: true] with the [orderId] of the 200 response. *)
Theorem acknowledged_order_is_processed_order
    (queue_add : string -> JobData -> JobOptions -> Completion Z)
    (secret : option string) (req : Webhook.Request)
    (api : Z -> option string) (job : Webhook.Job) (r : Webhook.ProcessResult) :
  In (Webhook.job_data job)
     (Webhook.enqueued (trace (Webhook.post_orders queue_add secret req))) ->
  outcome (Webhook.process_order api job) = Normal r ->
  Webhook.responses (trace (Webhook.post_orders queue_add secret req))
    = [mkResponse 200 (AckJson true (Webhook.result_orderId r))]
  /\ Webhook.success r = true.
Proof.
  intros Hin Hr.
  pose proof (enqueued_by_endpoint queue_add secret req _ Hin) as (Hp & Hparse & _ & _).
  pose proof (process_order_spec api job Hp) as H. cbv zeta in H.
  destruct (outcome (Webhook.dispatch api _ _)); destruct H as [Ho _];
    rewrite Ho in Hr; [|discriminate Hr].
  injection Hr as <-. cbn [Webhook.result_orderId Webhook.success].
  split; [|reflexivity].
  destruct (verify_inv secret req) as [(lvl & msg & meta & code & err & E & _)
                                      |(k & p & _ & _ & P & E & _)].
  - rewrite (post_orders_rejected queue_add secret req _ _ _ _ _ E) in Hin.
    contradiction.
  - assert (p = payload (Webhook.job_data job)) as -> by congruence.
    rewrite (post_orders_proceed queue_add secret req _) by now rewrite E.
    rewrite (ordersHandler_not_null queue_add req _ Hp).
    destruct (queue_add _ _ _); reflexivity.
Qed.

(** The signed order with a line item, processed while the internal system
    answers. *)
Lemma acknowledged_order_is_processed_order_witness :
  Webhook.responses
    (trace (Webhook.post_orders Samples.queue_up (Some Samples.secret)
              Samples.shirt_request))
  = [mkResponse 200
       (AckJson true
          (Webhook.result_orderId
             (Webhook.mkResult true (OfJson (Json.JNumber "42")))))]
  /\ Webhook.success (Webhook.mkResult true (OfJson (Json.JNumber "42"))) = true.
Proof.
  apply (acknowledged_order_is_processed_order Samples.queue_up (Some Samples.secret)
           Samples.shirt_request Samples.api_up
           (Webhook.mkJob 7
              (mkJobData Samples.shirt_payload (Some "orders/create")
                         (Some "demo.myshopify.com")) 0)).
  - vm_compute. left. reflexivity.
  - vm_compute. reflexivity.
Defined.

(** * Further properties of the product list *)

(** ** The page window *)

Lemma range_length (n : nat) (i : Z) : List.length (Navigation.range n i) = n.
Proof. revert i; induction n as [|n IH]; intros i; cbn; [|rewrite IH]; reflexivity. Qed.

Lemma range_In (n : nat) (i x : Z) :
  In x (Navigation.range n i) <-> i <= x < i + Z.of_nat n.
Proof.
  revert i; induction n as [|n IH]; intros i; cbn [Navigation.range In].
  - lia.
  - rewrite IH. lia.
Qed.

(** The loop on page numbers below [2 ^ 53]. *)
Lemma loop_range (fuel : nat) (i endPage : Z) :
  0 <= i -> endPage < 2 ^ 53 ->
  (Z.to_nat (endPage - i + 1) <= fuel)%nat ->
  Navigation.loop fuel i endPage
  = Some (Navigation.range (Z.to_nat (endPage - i + 1)) i).
Proof.
  revert i. induction fuel as [|fuel IH]; intros i Hi He Hf.
  - cbn. destruct (Z.ltb_spec endPage i); [|lia].
    replace (Z.to_nat (endPage - i + 1)) with 0%nat by lia. reflexivity.
  - cbn [Navigation.loop]. destruct (Z.ltb_spec endPage i).
    + replace (Z.to_nat (endPage - i + 1)) with 0%nat by lia. reflexivity.
    + rewrite (fl_exact (i + 1)) by lia.
      rewrite (proj2 (Z.leb_gt (i + 1) i)) by lia.
      rewrite IH by lia.
      replace (Z.to_nat (endPage - i + 1)) with (S (Z.to_nat (endPage - (i + 1) + 1)))
        by lia.
      reflexivity.
Qed.

(** Whatever the numbers, the pages the loop returns lie between its
    bounds. *)
Lemma loop_bounds (fuel : nat) (i endPage : Z) (pages : list Z) (p : Z) :
  Navigation.loop fuel i endPage = Some pages -> In p pages -> i <= p <= endPage.
Proof.
  revert i pages. induction fuel as [|fuel IH]; intros i pages; cbn [Navigation.loop];
    destruct (Z.ltb_spec endPage i).
  - intros [= <-] [].
  - discriminate.
  - intros [= <-] [].
  - destruct (Z.leb_spec (Number.fl (i + 1)) i); [discriminate|].
    destruct (Navigation.loop fuel (Number.fl (i + 1)) endPage) as [rest|] eqn:E;
      [|discriminate].
    intros [= <-] [<-|Hin]; [lia|].
    specialize (IH _ _ E Hin). lia.
Qed.

(** More fuel than [endPage - i + 1] steps changes nothing: the loop ends
    or is stuck before it is used up. *)
Lemma loop_fuel (fuel : nat) (i endPage : Z) :
  (Z.to_nat (endPage - i + 1) <= fuel)%nat ->
  Navigation.loop (S fuel) i endPage = Navigation.loop fuel i endPage.
Proof.
  revert i. induction fuel as [|fuel IH]; intros i Hf.
  - cbn. destruct (Z.ltb_spec endPage i); [reflexivity | lia].
  - change (Navigation.loop (S (S fuel)) i endPage)
      with (if endPage <? i then Some []
            else let next := Number.fl (i + 1) in
                 if next <=? i then None
                 else option_map (cons i) (Navigation.loop (S fuel) next endPage)).
    change (Navigation.loop (S fuel) i endPage)
      with (if endPage <? i then Some []
            else let next := Number.fl (i + 1) in
                 if next <=? i then None
                 else option_map (cons i) (Navigation.loop fuel next endPage)).
    cbv zeta. destruct (Z.ltb_spec endPage i); [reflexivity|].
    destruct (Z.leb_spec (Number.fl (i + 1)) i); [reflexivity|].
    rewrite IH by lia. reflexivity.
Qed.

(** For a page count and a current page in the range where the sums are
    exact, the window is the run of [min(5, total)] pages that starts at [s],
    with [1 <= s] and the run inside [1..total]; it holds the current page
    when that is a page. *)
Lemma window_shape (currentPage total : Z) :
  0 <= total < 2 ^ 53 ->
  Z.abs currentPage + 3 <= 2 ^ 53 ->
  exists s,
    Navigation.pageNumbers currentPage (Some total)
      = Some (Navigation.range (Z.to_nat (Z.min 5 total)) s)
    /\ 1 <= s /\ s + Z.min 5 total - 1 <= total
    /\ (1 <= currentPage <= total -> s <= currentPage < s + Z.min 5 total)
    /\ (3 <= currentPage <= total - 2 -> s = currentPage - 2).
Proof.
  intros Ht Hc. unfold Navigation.pageNumbers, Navigation.maxVisible.
  change (5 / 2) with 2. cbv zeta.
  rewrite (fl_exact (currentPage - 2)) by lia.
  rewrite (fl_exact (Z.max 1 (currentPage - 2) + 5)) by lia.
  rewrite (fl_exact (Z.max 1 (currentPage - 2) + 5 - 1)) by lia.
  set (endPage := Z.min total (Z.max 1 (currentPage - 2) + 5 - 1)).
  rewrite (fl_exact (endPage - Z.max 1 (currentPage - 2))) by (unfold endPage; lia).
  rewrite (fl_exact (endPage - 5)) by (unfold endPage; lia).
  rewrite (fl_exact (endPage - 5 + 1)) by (unfold endPage; lia).
  destruct (Z.ltb_spec (endPage - Z.max 1 (currentPage - 2)) (5 - 1)) as [L|L].
  - exists (Z.max 1 (endPage - 5 + 1)).
    rewrite loop_range by (unfold endPage; lia).
    unfold endPage in *. split; [do 2 f_equal; lia | lia].
  - exists (Z.max 1 (currentPage - 2)).
    rewrite loop_range by (unfold endPage; lia).
    unfold endPage in *. split; [do 2 f_equal; lia | lia].
Qed.

(** For page counts and current pages where the sums are exact, the
    [useMemo] returns, and its window has [min(5, totalPages)] consecutive
    pages, all of them between 1 and [totalPages]; it holds the current page
    whenever that is between 1 and [totalPages], and is centred on it when two
    pages exist on either side.  Against a page count that is [NaN] it is
    empty. *)
Theorem page_window (currentPage total : Z) :
  1 <= total < 2 ^ 53 ->
  Z.abs currentPage + 3 <= 2 ^ 53 ->
  exists pages,
    Navigation.pageNumbers currentPage (Some total) = Some pages
    /\ Z.of_nat (List.length pages) = Z.min 5 total
    /\ (exists s, pages = Navigation.range (List.length pages) s)
    /\ (forall p, In p pages -> 1 <= p <= total)
    /\ (1 <= currentPage <= total -> In currentPage pages)
    /\ (3 <= currentPage <= total - 2 ->
        pages = [currentPage - 2; currentPage - 1; currentPage;
                 currentPage + 1; currentPage + 2])
    /\ Navigation.pageNumbers currentPage None = Some [].
Proof.
  intros Ht Hc.
  destruct (window_shape currentPage total ltac:(lia) Hc) as (s & E & H1 & H2 & H3 & H4).
  eexists. split; [exact E|].
  rewrite range_length. repeat split.
  - lia.
  - now exists s.
  - apply range_In in H. lia.
  - apply range_In in H. lia.
  - intros Hp. apply range_In. specialize (H3 Hp). lia.
  - intros Hp. rewrite (H4 Hp). replace (Z.min 5 total) with 5 by lia.
    change (Z.to_nat 5) with 5%nat. cbn [Navigation.range].
    repeat match goal with
           | |- _ :: _ = _ :: _ => apply f_equal2; [lia|]
           end.
    reflexivity.
Qed.

(** Page 10 of 17. *)
Lemma page_window_witness :
  exists pages,
    Navigation.pageNumbers 10 (Some 17) = Some pages
    /\ Z.of_nat (List.length pages) = Z.min 5 17
    /\ (exists s, pages = Navigation.range (List.length pages) s)
    /\ (forall p, In p pages -> 1 <= p <= 17)
    /\ (1 <= 10 <= 17 -> In 10 pages)
    /\ (3 <= 10 <= 17 - 2 -> pages = [10 - 2; 10 - 1; 10; 10 + 1; 10 + 2])
    /\ Navigation.pageNumbers 10 None = Some [].
Proof. apply (page_window 10 17); lia. Defined.

(** On the last of [2 ^ 53] pages [i++] stops raising [i] and the
    [useMemo] does not return; on the first it does. *)
Example window_of_a_vast_list :
  Navigation.pageNumbers (2 ^ 53) (Some (2 ^ 53)) = None
  /\ Navigation.pageNumbers 1 (Some (2 ^ 53)) = Some [1; 2; 3; 4; 5].
Proof. vm_compute. split; reflexivity. Qed.

(** ** The pagination bar *)

Lemma active_buttons_app (a b : list Navigation.Item) :
  Navigation.active_buttons (a ++ b)
  = (Navigation.active_buttons a ++ Navigation.active_buttons b)%list.
Proof.
  induction a as [|[p []|] a IH]; cbn; rewrite ?IH; reflexivity.
Qed.

Lemma active_leading (pages : list Z) :
  Navigation.active_buttons (Navigation.leading pages) = [].
Proof.
  destruct pages as [|first pages]; cbn; [reflexivity|].
  destruct (1 <? first); [destruct (2 <? first)|]; reflexivity.
Qed.

Lemma active_trailing (pages : list Z) (totalPages : option Z) :
  Navigation.active_buttons (Navigation.trailing pages totalPages) = [].
Proof.
  unfold Navigation.trailing.
  destruct pages as [|first pages]; [reflexivity|].
  destruct totalPages as [total|]; [|reflexivity].
  destruct (_ <? total); [destruct (_ <? total - 1)|]; reflexivity.
Qed.

Lemma active_window (currentPage : Z) (n : nat) (s : Z) :
  Navigation.active_buttons
    (map (fun p => Navigation.PageButton p (currentPage =? p)) (Navigation.range n s))
  = if (s <=? currentPage) && (currentPage <? s + Z.of_nat n)
    then [currentPage] else [].
Proof.
  revert s; induction n as [|n IH]; intros s.
  - cbn. destruct (s <=? currentPage) eqn:A; [|reflexivity].
    cbn. rewrite (proj2 (Z.ltb_ge _ _)); [reflexivity | lia].
  - cbn [Navigation.range map Navigation.active_buttons].
    destruct (Z.eqb_spec currentPage s) as [->|Hne].
    + rewrite IH.
      rewrite (proj2 (Z.leb_gt (s + 1) s)) by lia.
      rewrite Z.leb_refl, (proj2 (Z.ltb_lt s (s + Z.of_nat (S n)))) by lia.
      reflexivity.
    + rewrite IH.
      destruct (Z.leb_spec (s + 1) currentPage), (Z.leb_spec s currentPage);
        try lia; cbn [andb]; [|reflexivity].
      destruct (Z.ltb_spec currentPage (s + 1 + Z.of_nat n)),
               (Z.ltb_spec currentPage (s + Z.of_nat (S n))); try lia; reflexivity.
Qed.

Ltac find_ellipsis :=
  cbn [In]; solve [repeat first [ left; reflexivity | right ]].

(** The pagination bar of a list of [totalPages >= 1] pages, where the
    sums are exact: its page buttons are in strictly increasing order, the
    first is page 1 and the last is the last page; an ellipsis is shown
    exactly when some page has no button; and when the current page is a page,
    its button is the one and only active one. *)
Theorem pagination_bar (currentPage total : Z) :
  1 <= total < 2 ^ 53 ->
  Z.abs currentPage + 3 <= 2 ^ 53 ->
  exists items,
    Navigation.pagination_items currentPage (Some total) = Some items
    /\ LocallySorted Z.lt (Navigation.buttons items)
    /\ hd_error (Navigation.buttons items) = Some 1
    /\ List.last (Navigation.buttons items) 0 = total
    /\ (In Navigation.Ellipsis items
        <-> exists q, 1 <= q <= total /\ ~ In q (Navigation.buttons items))
    /\ (1 <= currentPage <= total -> Navigation.active_buttons items = [currentPage]).
Proof.
  intros Ht Hc.
  destruct (window_shape currentPage total ltac:(lia) Hc) as (s & E & H1 & H2 & H3 & _).
  unfold Navigation.pagination_items. rewrite E.
  eexists. split; [reflexivity|].
  assert (Hact : 1 <= currentPage <= total ->
            Navigation.active_buttons
              (Navigation.leading (Navigation.range (Z.to_nat (Z.min 5 total)) s)
               ++ map (fun p => Navigation.PageButton p (currentPage =? p))
                      (Navigation.range (Z.to_nat (Z.min 5 total)) s)
               ++ Navigation.trailing (Navigation.range (Z.to_nat (Z.min 5 total)) s)
                    (Some total))
            = [currentPage]).
  { intros Hp. specialize (H3 Hp).
    rewrite !active_buttons_app, active_leading, active_trailing, active_window.
    rewrite (proj2 (Z.leb_le _ _)), (proj2 (Z.ltb_lt _ _)) by lia. reflexivity. }
  refine ((fun P => conj (proj1 P) (conj (proj1 (proj2 P)) (conj (proj1 (proj2 (proj2 P)))
            (conj (proj2 (proj2 (proj2 P))) Hact)))) _).
  clear Hact H3 E Hc.
  destruct (Z.to_nat (Z.min 5 total)) as [|[|[|[|[|[|n]]]]]] eqn:En; try lia;
    cbn [Navigation.range Navigation.leading Navigation.trailing List.last map app];
    repeat match goal with
           | |- context [?a <? ?b] => destruct (Z.ltb_spec a b)
           end; try lia;
    cbn [Navigation.buttons app hd_error List.last];
    (split; [repeat constructor; lia|]);
    (split; [f_equal; lia|]);
    (split; [lia|]);
    (split;
     [ intros HIn;
       first [ exists 2; cbn [In]; lia
             | exists (total - 1); cbn [In]; lia
             | exfalso; cbn [In] in HIn; intuition discriminate ]
     | intros (q & Hq & Hn);
       first [ find_ellipsis | exfalso; cbn [In] in Hn; lia ] ]).
Qed.

(** Page 10 of 17: 1 ... 8 9 10 11 12 ... 17. *)
Lemma pagination_bar_witness :
  exists items,
    Navigation.pagination_items 10 (Some 17) = Some items
    /\ LocallySorted Z.lt (Navigation.buttons items)
    /\ hd_error (Navigation.buttons items) = Some 1
    /\ List.last (Navigation.buttons items) 0 = 17
    /\ (In Navigation.Ellipsis items
        <-> exists q, 1 <= q <= 17 /\ ~ In q (Navigation.buttons items))
    /\ (1 <= 10 <= 17 -> Navigation.active_buttons items = [10]).
Proof. apply (pagination_bar 10 17); lia. Defined.

Example bar_of_page_10 :
  Navigation.pagination_items 10 (Some 17)
  = Some [Navigation.PageButton 1 false; Navigation.Ellipsis;
          Navigation.PageButton 8 false; Navigation.PageButton 9 false;
          Navigation.PageButton 10 true; Navigation.PageButton 11 false;
          Navigation.PageButton 12 false; Navigation.Ellipsis;
          Navigation.PageButton 17 false].
Proof. vm_compute. reflexivity. Qed.

(** ** Navigation *)

Lemma pageNumbers_In (currentPage total : Z) (pages : list Z) (p : Z) :
  Navigation.pageNumbers currentPage (Some total) = Some pages ->
  In p pages -> 1 <= p <= total.
Proof.
  unfold Navigation.pageNumbers. cbv zeta. intros E Hin.
  pose proof (loop_bounds _ _ _ _ _ E Hin) as B.
  destruct (_ <? _) in B; lia.
Qed.

Lemma last_In (l : list Z) (d : Z) : l <> [] -> In (List.last l d) l.
Proof.
  induction l as [|a [|b l] IH]; intros H; [congruence | now left |].
  right. apply IH. discriminate.
Qed.

Lemma button_is_page (currentPage : Z) (totalPages : option Z)
    (items : list Navigation.Item) (p : Z) (a : bool) :
  Navigation.pagination_items currentPage totalPages = Some items ->
  In (Navigation.PageButton p a) items ->
  exists total, totalPages = Some total /\ 1 <= p <= total.
Proof.
  unfold Navigation.pagination_items.
  destruct (Navigation.pageNumbers currentPage totalPages) as [pages|] eqn:E;
    [|discriminate].
  intros [= <-] H.
  destruct totalPages as [total|].
  2:{ cbn in E. injection E as <-. destruct H. }
  exists total. split; [reflexivity|].
  apply in_app_or in H. destruct H as [H|H]; [|apply in_app_or in H; destruct H as [H|H]].
  - destruct pages as [|first rest]; [destruct H|].
    assert (Hf : 1 <= first <= total)
      by (apply (pageNumbers_In currentPage total _ _ E); now left).
    cbn [Navigation.leading] in H. destruct (1 <? first); [|destruct H].
    destruct H as [H|H]; [injection H as <- _; lia|].
    destruct (2 <? first); [destruct H as [H|[]]; discriminate H | destruct H].
  - apply in_map_iff in H. destruct H as (q & Hq & Hin). injection Hq as <- _.
    exact (pageNumbers_In currentPage total _ _ E Hin).
  - destruct pages as [|first rest]; [destruct H|].
    assert (Hl : 1 <= List.last (first :: rest) 0 <= total).
    { apply (pageNumbers_In currentPage total _ _ E). apply last_In. discriminate. }
    unfold Navigation.trailing in H.
    destruct (List.last (first :: rest) 0 <? total); [|destruct H].
    apply in_app_or in H. destruct H as [H|H].
    + destruct (_ <? total - 1); [destruct H as [H|[]]; discriminate H | destruct H].
    + destruct H as [H|[]]. injection H as <- _. lia.
Qed.

Lemma page_count_positive (total : option Z) (t : Z) :
  ProductList.page_count total = Some t -> 1 <= t.
Proof.
  destruct total as [n|]; cbn; [|discriminate]. intros [= <-]. lia.
Qed.

Lemma fetch_pages
    (fetch : ProductList.HttpRequest -> ProductList.FetchOutcome)
    (apiUrl : string) (st : ProductList.State) :
  let st' := snd (ProductList.fetchProducts fetch apiUrl st) in
  ProductList.currentPage st' = ProductList.currentPage st
  /\ ProductList.debouncedSearch st' = ProductList.debouncedSearch st
  /\ (forall t, ProductList.totalPages st' = Some t ->
                ProductList.totalPages st = Some t \/ 1 <= t).
Proof.
  assert (E : forall st0 name message,
            ProductList.currentPage (ProductList.on_error st0 name message)
            = ProductList.currentPage st0
            /\ ProductList.debouncedSearch (ProductList.on_error st0 name message)
               = ProductList.debouncedSearch st0
            /\ ProductList.totalPages (ProductList.on_error st0 name message)
               = ProductList.totalPages st0).
  { intros st0 name message. unfold ProductList.on_error.
    destruct (String.eqb name "AbortError"); repeat split. }
  unfold ProductList.fetchProducts; cbn [snd].
  destruct (fetch _) as [r|name message].
  - destruct (negb (ProductList.ok r)).
    { destruct (E (ProductList.mkState (ProductList.products st) ProductList.Loading
                     None (ProductList.currentPage st) (ProductList.totalPages st)
                     (ProductList.debouncedSearch st))
                  "Error"
                  ("Error " ++ string_of_Z (ProductList.http_status r) ++ ": "
                   ++ ProductList.statusText r)%string) as (-> & -> & ->).
      cbn. repeat split; auto. }
    destruct (ProductList.body r) as [data|name message].
    + cbn [ProductList.currentPage ProductList.debouncedSearch ProductList.totalPages].
      repeat split. intros t Ht. right. exact (page_count_positive _ _ Ht).
    + destruct (E (ProductList.mkState (ProductList.products st) ProductList.Loading
                     None (ProductList.currentPage st) (ProductList.totalPages st)
                     (ProductList.debouncedSearch st)) name message) as (-> & -> & ->).
      cbn. repeat split; auto.
  - destruct (E (ProductList.mkState (ProductList.products st) ProductList.Loading
                   None (ProductList.currentPage st) (ProductList.totalPages st)
                   (ProductList.debouncedSearch st)) name message) as (-> & -> & ->).
    cbn. repeat split; auto.
Qed.

(** In every state the component can reach from its initial state (by
    arrows, page buttons, typing, clearing the search, retrying, the debounce
    timer and completed fetches, whatever the server answers), the current page
    is at least 1 and the page count is at least 1 or [NaN]; so the offset
    the request for that state carries is never negative. *)
Theorem navigation_invariant (apiUrl : string) (trim : string -> string) (ui : Navigation.UI) :
  Navigation.reachable apiUrl trim ui ->
  1 <= ProductList.currentPage (Navigation.state ui)
  /\ (forall t, ProductList.totalPages (Navigation.state ui) = Some t -> 1 <= t)
  /\ match ProductList.skip (Navigation.state ui) with
     | Number.Finite k => 0 <= k
     | Number.Infinity negative => negative = false
     end.
Proof.
  intros Hr.
  assert (Inv : 1 <= ProductList.currentPage (Navigation.state ui)
                /\ (forall t, ProductList.totalPages (Navigation.state ui) = Some t
                              -> 1 <= t)).
  { induction Hr as [|ui ui' Hr [Hc Ht] Hs].
    - cbn. split; [lia|]. intros t [= <-]. lia.
    - destruct Hs as [ui _ _ _|ui _ _ Hp|ui items page active _ Hi Hin|ui text _ _
                     |ui _ _ _|ui _ _|ui _|ui fetch _]; cbn [Navigation.state].
      + unfold Navigation.handleNextPage.
        destruct (ProductList.totalPages (Navigation.state ui)) as [total|] eqn:E;
          [|split; [assumption | now rewrite E]].
        destruct (Z.ltb_spec (ProductList.currentPage (Navigation.state ui)) total);
          [|split; [assumption | now rewrite E]].
        cbn. split; [lia | now rewrite E].
      + unfold Navigation.handlePrevPage.
        destruct (Z.ltb_spec 1 (ProductList.currentPage (Navigation.state ui)));
          [|split; assumption].
        cbn. split; [lia | assumption].
      + destruct (button_is_page _ _ _ _ _ Hi Hin) as (total & _ & Hpage).
        cbn. split; [lia | assumption].
      + cbn. split; [lia | assumption].
      + cbn. split; [lia | assumption].
      + cbn. split; assumption.
      + cbn. split; assumption.
      + destruct (fetch_pages fetch apiUrl (Navigation.state ui)) as (Ec & _ & Et).
        split; [now rewrite Ec|].
        intros t H. destruct (Et t H) as [H'|H']; [exact (Ht t H') | exact H']. }
  destruct Inv as [Hc Ht]. split; [exact Hc | split; [exact Ht|]].
  unfold ProductList.skip, Number.round, ProductList.itemsPerPage.
  pose proof (fl_nonneg (ProductList.currentPage (Navigation.state ui) - 1) ltac:(lia))
    as F.
  set (z := Number.fl (ProductList.currentPage (Navigation.state ui) - 1) * 12).
  assert (Hz : 0 <= z) by (unfold z; lia).
  destruct (_ <=? _).
  - apply Z.ltb_ge. exact Hz.
  - apply fl_nonneg. exact Hz.
Qed.

(** The first page arrives from the sample server and the user presses the
    right arrow. *)
Lemma navigation_invariant_witness :
  let ui :=
    Navigation.mkUI
      (Navigation.handleNextPage
         (snd (ProductList.fetchProducts Samples.products_server
                 "https://dummyjson.com/products"
                 (Navigation.state Navigation.initial))))
      EmptyString in
  ProductList.currentPage (Navigation.state ui) = 2
  /\ (1 <= ProductList.currentPage (Navigation.state ui)
      /\ (forall t, ProductList.totalPages (Navigation.state ui) = Some t -> 1 <= t)
      /\ match ProductList.skip (Navigation.state ui) with
         | Number.Finite k => 0 <= k
         | Number.Infinity negative => negative = false
         end).
Proof.
  split; [vm_compute; reflexivity|].
  apply (navigation_invariant "https://dummyjson.com/products" (fun s => s)).
  eapply Navigation.reach_step;
    [eapply Navigation.reach_step;
       [apply Navigation.reach_initial
       | apply (Navigation.step_fetched _ _ Navigation.initial Samples.products_server)]
    | apply (Navigation.step_next _ _
               (Navigation.mkUI
                  (snd (ProductList.fetchProducts Samples.products_server
                          "https://dummyjson.com/products"
                          (Navigation.state Navigation.initial)))
                  EmptyString))].
  - vm_compute. discriminate.
  - vm_compute. discriminate.
  - split; [vm_compute; reflexivity|]. exists Samples.phone, []. vm_compute. reflexivity.
  - vm_compute. reflexivity.
Defined.

(** While the current page is one of the pages, each arrow is disabled
    exactly when pressing it would do nothing: an enabled arrow moves by one
    page, a disabled one leaves the page alone, and either way the page stays
    between 1 and [totalPages]. *)
Theorem arrows_move_one_page (st : ProductList.State) (total : Z) :
  ProductList.totalPages st = Some total ->
  1 <= ProductList.currentPage st <= total ->
  ProductList.currentPage (Navigation.handlePrevPage st)
    = (if Navigation.prev_disabled st then ProductList.currentPage st
       else ProductList.currentPage st - 1)
  /\ ProductList.currentPage (Navigation.handleNextPage st)
     = (if Navigation.next_disabled st then ProductList.currentPage st
        else ProductList.currentPage st + 1)
  /\ 1 <= ProductList.currentPage (Navigation.handlePrevPage st) <= total
  /\ 1 <= ProductList.currentPage (Navigation.handleNextPage st) <= total.
Proof.
  intros Ht Hc.
  unfold Navigation.handlePrevPage, Navigation.handleNextPage,
    Navigation.prev_disabled, Navigation.next_disabled.
  rewrite Ht.
  destruct (Z.ltb_spec 1 (ProductList.currentPage st)),
           (Z.eqb_spec (ProductList.currentPage st) 1),
           (Z.ltb_spec (ProductList.currentPage st) total),
           (Z.eqb_spec (ProductList.currentPage st) total);
    cbn [Navigation.set_page ProductList.currentPage]; lia.
Qed.

Lemma arrows_move_one_page_witness :
  let st := snd (ProductList.fetchProducts Samples.products_server
                   "https://dummyjson.com/products" Samples.page3) in
  ProductList.currentPage (Navigation.handlePrevPage st)
    = (if Navigation.prev_disabled st then ProductList.currentPage st
       else ProductList.currentPage st - 1)
  /\ ProductList.currentPage (Navigation.handleNextPage st)
     = (if Navigation.next_disabled st then ProductList.currentPage st
        else ProductList.currentPage st + 1)
  /\ 1 <= ProductList.currentPage (Navigation.handlePrevPage st) <= 17
  /\ 1 <= ProductList.currentPage (Navigation.handleNextPage st) <= 17.
Proof.
  apply (arrows_move_one_page
           (snd (ProductList.fetchProducts Samples.products_server
                   "https://dummyjson.com/products" Samples.page3)) 17);
    [reflexivity | cbn; lia].
Defined.

(** ** What a fetch leaves behind *)

(** Whatever the server does, [fetchProducts] leaves the page and the search
    term alone.  Unless it ends in success, the list and the page count are
    the ones it found.  It ends in the error view exactly when it leaves a
    message, which is never empty; it leaves the loading view standing
    exactly when the request was aborted, before the response or while its
    body was read. *)
Theorem fetch_failure_keeps_data
    (fetch : ProductList.HttpRequest -> ProductList.FetchOutcome)
    (apiUrl : string) (st : ProductList.State) :
  let st' := snd (ProductList.fetchProducts fetch apiUrl st) in
  ProductList.currentPage st' = ProductList.currentPage st
  /\ ProductList.debouncedSearch st' = ProductList.debouncedSearch st
  /\ (ProductList.status st' <> ProductList.Success ->
      ProductList.products st' = ProductList.products st
      /\ ProductList.totalPages st' = ProductList.totalPages st)
  /\ (ProductList.status st' = ProductList.Failure
      <-> exists message, ProductList.error st' = Some message)
  /\ ProductList.error st' <> Some EmptyString
  /\ (ProductList.status st' = ProductList.Loading
      <-> (exists message,
             fetch (ProductList.request_of apiUrl st)
             = ProductList.Failed "AbortError" message)
          \/ (exists code text message,
                fetch (ProductList.request_of apiUrl st)
                = ProductList.Fetched
                    (ProductList.mkHttpResponse true code text
                       (ProductList.Unreadable "AbortError" message)))).
Proof.
  set (st0 := ProductList.mkState (ProductList.products st) ProductList.Loading
                None (ProductList.currentPage st) (ProductList.totalPages st)
                (ProductList.debouncedSearch st)).
  assert (E : forall name message,
            let st' := ProductList.on_error st0 name message in
            ProductList.currentPage st' = ProductList.currentPage st
            /\ ProductList.debouncedSearch st' = ProductList.debouncedSearch st
            /\ ProductList.products st' = ProductList.products st
            /\ ProductList.totalPages st' = ProductList.totalPages st
            /\ (ProductList.status st' = ProductList.Failure
                <-> exists m, ProductList.error st' = Some m)
            /\ ProductList.error st' <> Some EmptyString
            /\ (ProductList.status st' = ProductList.Loading <-> name = "AbortError")
            /\ ProductList.status st' <> ProductList.Success).
  { intros name message. cbv zeta. unfold ProductList.on_error.
    destruct (String.eqb_spec name "AbortError") as [->|Hne].
    - cbn. repeat split; try discriminate; try tauto.
      intros [m Hm]. discriminate Hm.
    - destruct message as [|c r]; cbn; repeat split; try discriminate; eauto;
        intros H; congruence. }
  unfold ProductList.fetchProducts; cbn [snd]. fold st0.
  destruct (fetch (ProductList.request_of apiUrl st)) as [[ok code text body]|name message].
  - cbn [ProductList.ok ProductList.body ProductList.http_status ProductList.statusText].
    destruct ok; cbn [negb].
    + destruct body as [data|name message].
      * cbn. split; [reflexivity|]. split; [reflexivity|].
        split; [intros H; now contradiction H|].
        split; [split; [discriminate | intros [m Hm]; discriminate Hm]|].
        split; [discriminate|].
        split; [discriminate|].
        intros [[m Hm]|(c & t & m & Hm)]; discriminate Hm.
      * destruct (E name message) as (E1 & E2 & E3 & E4 & E5 & E6 & E7 & E8).
        split; [exact E1|]. split; [exact E2|]. split; [intros _; now split|].
        split; [exact E5|]. split; [exact E6|]. split.
        -- intros H. apply E7 in H. subst name. right. eauto.
        -- intros [[m Hm]|(c & t & m & Hm)]; [discriminate Hm|].
           injection Hm as _ _ -> _. now apply E7.
    + destruct (E "Error" ("Error " ++ string_of_Z code ++ ": " ++ text)%string)
        as (E1 & E2 & E3 & E4 & E5 & E6 & E7 & E8).
      split; [exact E1|]. split; [exact E2|]. split; [intros _; now split|].
      split; [exact E5|]. split; [exact E6|]. split.
      * intros H. apply E7 in H. discriminate H.
      * intros [[m Hm]|(c & t & m & Hm)]; discriminate Hm.
  - destruct (E name message) as (E1 & E2 & E3 & E4 & E5 & E6 & E7 & E8).
    split; [exact E1|]. split; [exact E2|]. split; [intros _; now split|].
    split; [exact E5|]. split; [exact E6|]. split.
    + intros H. apply E7 in H. subst name. left. eauto.
    + intros [[m Hm]|(c & t & m & Hm)]; [|discriminate Hm].
      injection Hm as -> _. now apply E7.
Qed.

(** A request aborted while its body is read leaves the loading view, the
    list and the page count as they were. *)
Example aborted_while_reading :
  snd (ProductList.fetchProducts Samples.aborted_body
         "https://dummyjson.com/products" Samples.page3)
  = Samples.page3.
Proof. vm_compute. reflexivity. Qed.

(** ** Pages and items *)

(** For a collection of [1 <= total <= 2 ^ 53] items the page count is the
    least number of pages of 12 that hold them all: every item index lies in
    the [skip .. skip + 11] range of one of the pages [1..totalPages], and the
    last page is not empty. *)
Theorem page_count_covers (total : Z) :
  1 <= total <= 2 ^ 53 ->
  exists pages,
    ProductList.page_count (Some total) = Some pages
    /\ 1 <= pages
    /\ (pages - 1) * ProductList.itemsPerPage < total
    /\ forall i, 0 <= i < total ->
         exists page,
           1 <= page <= pages
           /\ (page - 1) * ProductList.itemsPerPage
              <= i < (page - 1) * ProductList.itemsPerPage + ProductList.itemsPerPage.
Proof.
  intros Ht. eexists. split; [apply page_count_exact; lia|].
  pose proof (ceil_div_spec total ProductList.itemsPerPage eq_refl) as C.
  unfold ProductList.itemsPerPage in *.
  split; [lia|]. split; [lia|].
  intros i Hi. exists (i / 12 + 1).
  pose proof (Z.mul_div_le i 12 eq_refl).
  pose proof (Z.mul_succ_div_gt i 12 eq_refl).
  assert (0 <= i / 12) by (apply Z.div_pos; lia).
  nia.
Qed.

(** The sample collection: 194 items on 17 pages. *)
Lemma page_count_covers_witness :
  exists pages,
    ProductList.page_count (Some 194) = Some pages
    /\ 1 <= pages
    /\ (pages - 1) * ProductList.itemsPerPage < 194
    /\ forall i, 0 <= i < 194 ->
         exists page,
           1 <= page <= pages
           /\ (page - 1) * ProductList.itemsPerPage
              <= i < (page - 1) * ProductList.itemsPerPage + ProductList.itemsPerPage.
Proof. apply (page_count_covers 194). lia. Defined.

(** Beyond that the quotient is rounded: the last four of
    54043195528445968 items are on no page. *)
Example pages_of_a_vast_collection :
  ProductList.page_count (Some 54043195528445968) = Some 4503599627370497
  /\ 4503599627370497 * ProductList.itemsPerPage = 54043195528445968 - 4.
Proof. vm_compute. split; reflexivity. Qed.

(** ** The query of a request *)







Lemma uint_no_separator (c : ascii) (d : Decimal.uint) :
  In c Navigation.separators -> Navigation.has_char c (NilEmpty.string_of_uint d) = false.
Proof.
  intros [<-|[<-|[<-|[]]]]; induction d; cbn; auto.
Qed.

Lemma string_of_Z_no_separator (c : ascii) (z : Z) :
  In c Navigation.separators -> Navigation.has_char c (string_of_Z z) = false.
Proof.
  intros Hc.
  assert (U : forall d, Navigation.has_char c (NilZero.string_of_uint d) = false).
  { intros d. pose proof (uint_no_separator c d Hc) as H.
    destruct d; try exact H.
    destruct Hc as [<-|[<-|[<-|[]]]]; reflexivity. }
  unfold string_of_Z, NilZero.string_of_int.
  destruct (Z.to_int z) as [d|d]; [apply U|].
  cbn [Navigation.has_char]. rewrite U.
  destruct Hc as [<-|[<-|[<-|[]]]]; reflexivity.
Qed.










(** The offset of a page far out prints rounded, and one that overflows
    prints as [Infinity]; the parameters stay two. *)
Example far_requests :
  ProductList.query_params
    (ProductList.url
       (ProductList.request_of "https://dummyjson.com/products" Samples.far_page))
  = [("limit", "12"); ("skip", "36028797018963970")]
  /\ ProductList.query_params
       (ProductList.url
          (ProductList.request_of "https://dummyjson.com/products"
             (Navigation.set_page Samples.far_page (2 ^ 1023))))
     = [("limit", "12"); ("skip", "Infinity")]
  /\ ProductList.query_params
       (ProductList.url
          (ProductList.request_of "https://dummyjson.com/products"
             (Navigation.set_page Samples.far_page (10 ^ 20))))
     = [("limit", "12"); ("skip", "1.2e%2B21")].
Proof. vm_compute. repeat split. Qed.
